(** * Benchmark harness: aggregation, comparison, report assembly and the
      iteration runner of the crawlee playground.

    Shallow embedding of

      - the reporter of [src/benchmark] ([reporter.ts]): [averageResults],
        [generateComparison], [generateReport];
      - the runner of [src/benchmark]: [getMemoryUsage], [trackPeakMemory],
        [runBenchmark] and the run loop of [runBenchmarks];
      - [src/types/benchmark.types.ts]: the records;
      - the summary printed by the runner ([printSummary]);
      - the scenario table and [getScenario];
      - of the two crawlers: the merge of the options, the request handler
        of [crawl] as far as it touches its two counters, the data returned
        by [crawl] and [scrap], and of the playwright crawler
        [detectChromiumPath] and [getLaunchOptions].

    The crawling library itself, the text report and the writing of the
    report files are not modelled.

    Numbers.  The reporter is embedded twice.

      - Exactly: the fields that the program fills with integers
        ([Date.now()] readings, their differences, [items.length], loop
        indices, the results of [Math.round]) are [Z]; memory figures, which
        are megabytes with a fractional part, are rationals [Q] compared with
        [==]; the unguarded division that computes the speedup has its own
        result type [JsNumber].  This embedding serves the runner and the
        statements on structure: which fields are copied, what is thrown,
        which lists are concatenated.
      - In module [Binary64]: every [number] is an IEEE 754 binary64 value
        ([spec_float] of the standard library, precision 53, [emax] 1024),
        sums, products and quotients round to nearest even, zero has a sign,
        NaN and the infinities are values.  The statements on what
        [averageResults] and [generateComparison] compute are about this
        embedding. *)

From Stdlib Require Import ZArith QArith Qround Qabs Qminmax List String Bool Lia Lqa.
From Stdlib Require Import Permutation.
From Stdlib Require Import Floats.SpecFloat.
Import ListNotations.
Local Open Scope Z_scope.

(** ** Data model ([benchmark.types.ts]) *)

Inductive CrawlerType : Type := playwright | cheerio.

Definition CrawlerType_eqb (a b : CrawlerType) : bool :=
  match a, b with
  | playwright, playwright | cheerio, cheerio => true
  | _, _ => false
  end.

(** Optional fields ([maxPages?: number]) are [option]; [None] is
    [undefined]. *)
Record BenchmarkConfig : Type := {
  url : string;
  maxPages : option Z;
  maxDepth : option Z;
  iterations : option Z;
  timeout : option Z
}.

Record CrawlMetadata : Type := {
  statusCode : Z;
  md_timestamp : string
}.

Record CrawlResult : Type := {
  cr_url : string;
  title : string;
  htmlContent : string;
  metadata : CrawlMetadata
}.

Record BenchmarkMetrics : Type := {
  startTime : Z;
  endTime : Z;
  duration : Z;
  pagesProcessed : Z;
  pagesFailed : Z;
  memoryUsed : option Q;
  errors : list string
}.

Record BenchmarkResult : Type := {
  crawlerType : CrawlerType;
  config : BenchmarkConfig;
  metrics : BenchmarkMetrics;
  results : list CrawlResult;
  iteration : Z
}.

(** What [a / b] evaluates to on two integer-valued numbers. *)
Inductive JsNumber : Type :=
| Finite (q : Q)
| PosInfinity
| NegInfinity
| NaN.

Record ComparisonResult : Type := {
  cmp_playwright : BenchmarkResult;
  cmp_cheerio : BenchmarkResult;
  speedup : JsNumber;
  memoryDifference : Q;
  pagesDifference : Z
}.

Record BenchmarkReport : Type := {
  timestamp : string;
  rep_config : BenchmarkConfig;
  rep_results : list BenchmarkResult;
  comparison : option ComparisonResult
}.

(** ** Exceptions *)

(** A thrown value: an [Error] object with its [message], or any other value,
    of which only [String(value)] is ever observed. *)
Inductive Thrown : Type :=
| ErrorObject (message : string)
| OtherValue (rendering : string).

(** The outcome of evaluating a function body that may [throw]. *)
Inductive Completion (A : Type) : Type :=
| Return (a : A)
| Throw (e : Thrown).
Arguments Return {A} a.
Arguments Throw {A} e.

Definition cbind {A B} (c : Completion A) (k : A -> Completion B) : Completion B :=
  match c with
  | Return a => k a
  | Throw e => Throw e
  end.

(** ** JavaScript arithmetic used by the reporter *)

(** [Math.round] on exact values: the nearest integer, a tie going up.  [Z]
    has one zero: where [Math.round] gives [-0] (arguments from -0.5 up to
    [-0]) this gives 0.  [Binary64.Math_round] below keeps the sign. *)
Definition Math_round (x : Q) : Z := Qfloor (x + (1 # 2)).

(** [x || 0] on an optional exact number. *)
Definition orZero (x : option Q) : Q :=
  match x with
  | Some q => q
  | None => 0%Q
  end.

(** [a / b] on integer-valued numbers, with no guard on [b].  The zero of
    [Z] is read as [+0]; a divisor [-0] turns the sign of the infinity
    around, which [Binary64.generateComparison] below shows. *)
Definition js_div (a b : Z) : JsNumber :=
  if b =? 0 then
    if 0 <? a then PosInfinity
    else if a <? 0 then NegInfinity
    else NaN
  else Finite (inject_Z a / inject_Z b).

(** [xs[i]] is [undefined] out of range; reading a property of it throws. *)
Definition index {A} (xs : list A) (i : Z) : Completion A :=
  match (if i <? 0 then None else nth_error xs (Z.to_nat i)) with
  | Some x => Return x
  | None => Throw (ErrorObject "Cannot read properties of undefined")
  end.

Definition length_Z {A} (xs : list A) : Z := Z.of_nat (List.length xs).

(** ** [reporter.ts] *)

(** The accumulator of the [reduce] in [averageResults]. *)
Record Sum : Type := {
  sum_duration : Z;
  sum_pagesProcessed : Z;
  sum_pagesFailed : Z;
  sum_memoryUsed : Q;
  sum_errors : list string
}.

Definition sum_init : Sum :=
  {| sum_duration := 0;
     sum_pagesProcessed := 0;
     sum_pagesFailed := 0;
     sum_memoryUsed := 0%Q;
     sum_errors := [] |}.

Definition sum_step (acc : Sum) (result : BenchmarkResult) : Sum :=
  {| sum_duration := sum_duration acc + duration (metrics result);
     sum_pagesProcessed := sum_pagesProcessed acc + pagesProcessed (metrics result);
     sum_pagesFailed := sum_pagesFailed acc + pagesFailed (metrics result);
     sum_memoryUsed :=
       (orZero (Some (sum_memoryUsed acc)) + orZero (memoryUsed (metrics result)))%Q;
     sum_errors := sum_errors acc ++ errors (metrics result) |}.

Definition averageResults (results : list BenchmarkResult)
  : Completion BenchmarkMetrics :=
  if length_Z results =? 0 then
    Throw (ErrorObject "Cannot average empty results")
  else
    let sum := fold_left sum_step results sum_init in
    let n := inject_Z (length_Z results) in
    cbind (index results 0) (fun first =>
    cbind (index results (length_Z results - 1)) (fun last =>
    Return
      {| startTime := startTime (metrics first);
         endTime := endTime (metrics last);
         duration := Math_round (inject_Z (sum_duration sum) / n);
         pagesProcessed := Math_round (inject_Z (sum_pagesProcessed sum) / n);
         pagesFailed := Math_round (inject_Z (sum_pagesFailed sum) / n);
         memoryUsed :=
           Some (inject_Z (Math_round ((sum_memoryUsed sum / n) * 100)) / 100)%Q;
         errors := sum_errors sum |})).

(** [{...r, metrics: m}]. *)
Definition with_metrics (r : BenchmarkResult) (m : BenchmarkMetrics)
  : BenchmarkResult :=
  {| crawlerType := crawlerType r;
     config := config r;
     metrics := m;
     results := results r;
     iteration := iteration r |}.

(** In [generateComparison] the spread source is
    [xs[0]]; on an empty [xs] it would be [undefined], but [averageResults]
    has thrown by then, so the out-of-range case of [index] below is never
    reached (lemma [averageResults_Return_inv]). *)
Definition generateComparison (playwrightResults cheerioResults : list BenchmarkResult)
  : Completion ComparisonResult :=
  cbind (averageResults playwrightResults) (fun playwrightAvg =>
  cbind (averageResults cheerioResults) (fun cheerioAvg =>
  cbind (index playwrightResults 0) (fun p0 =>
  let playwrightResult := with_metrics p0 playwrightAvg in
  cbind (index cheerioResults 0) (fun c0 =>
  let cheerioResult := with_metrics c0 cheerioAvg in
  let speedup := js_div (duration playwrightAvg) (duration cheerioAvg) in
  let memoryDifference :=
    (orZero (memoryUsed cheerioAvg) - orZero (memoryUsed playwrightAvg))%Q in
  let pagesDifference := pagesProcessed cheerioAvg - pagesProcessed playwrightAvg in
  Return
    {| cmp_playwright := playwrightResult;
       cmp_cheerio := cheerioResult;
       speedup := speedup;
       memoryDifference := memoryDifference;
       pagesDifference := pagesDifference |})))).

(** [now_iso] is the value of [new Date().toISOString()] at the call. *)
Definition generateReport (now_iso : string)
    (results : list BenchmarkResult) (config : BenchmarkConfig)
  : Completion BenchmarkReport :=
  let playwrightResults :=
    filter (fun r => CrawlerType_eqb (crawlerType r) playwright) results in
  let cheerioResults :=
    filter (fun r => CrawlerType_eqb (crawlerType r) cheerio) results in
  cbind
    (if (0 <? length_Z playwrightResults) && (0 <? length_Z cheerioResults)
     then cbind (generateComparison playwrightResults cheerioResults)
                (fun c => Return (Some c))
     else Return None)
    (fun comparison =>
  Return
    {| timestamp := now_iso;
       rep_config := config;
       rep_results := results;
       comparison := comparison |}).

(** ** [reporter.ts] on binary64 numbers *)

Module Binary64.

(** A JavaScript [number]. *)
Abbreviation F64 := spec_float (only parsing).

Definition prec : Z := 53.
Definition emax : Z := 1024.

(** [a + b], [a - b], [a * b] and [a / b], rounding to nearest, ties to
    even. *)
Definition add : F64 -> F64 -> F64 := SFadd prec emax.
Definition sub : F64 -> F64 -> F64 := SFsub prec emax.
Definition mul : F64 -> F64 -> F64 := SFmul prec emax.
Definition div : F64 -> F64 -> F64 := SFdiv prec emax.

(** The number denoted by an integer literal, or by an integer such as
    [results.length]. *)
Definition of_Z (z : Z) : F64 := binary_normalize prec emax z 0 false.

Definition zero : F64 := S754_zero false.
Definition hundred : F64 := of_Z 100.

(** [Math.round]: an integral number, an infinity and NaN are returned as
    they are; otherwise the nearest integer, a tie going up, and a zero
    result keeps the sign of the argument ([Math.round(-0.5)] is [-0]).  A
    number with a fractional part has a negative exponent [-p]; its value is
    [signed / 2^p]. *)
Definition Math_round (x : F64) : F64 :=
  match x with
  | S754_finite s m (Zneg p) =>
      let signed := if s then Zneg m else Zpos m in
      let z := (2 * signed + 2 ^ Zpos p) / 2 ^ (Zpos p + 1) in
      if z =? 0 then S754_zero s else of_Z z
  | _ => x
  end.

(** [x || 0] on an optional number: [undefined], NaN and the two zeros are
    falsy. *)
Definition orZero (x : option F64) : F64 :=
  match x with
  | Some (S754_zero _) => zero
  | Some S754_nan => zero
  | Some v => v
  | None => zero
  end.

Record BenchmarkMetrics : Type := {
  startTime : F64;
  endTime : F64;
  duration : F64;
  pagesProcessed : F64;
  pagesFailed : F64;
  memoryUsed : option F64;
  errors : list string
}.

(** [config], [results] and [iteration] are only copied by the reporter. *)
Record BenchmarkResult : Type := {
  crawlerType : CrawlerType;
  config : BenchmarkConfig;
  metrics : BenchmarkMetrics;
  results : list CrawlResult;
  iteration : Z
}.

Record ComparisonResult : Type := {
  cmp_playwright : BenchmarkResult;
  cmp_cheerio : BenchmarkResult;
  speedup : F64;
  memoryDifference : F64;
  pagesDifference : F64
}.

(** The accumulator of the [reduce] in [averageResults]. *)
Record Sum : Type := {
  sum_duration : F64;
  sum_pagesProcessed : F64;
  sum_pagesFailed : F64;
  sum_memoryUsed : F64;
  sum_errors : list string
}.

Definition sum_init : Sum :=
  {| sum_duration := zero;
     sum_pagesProcessed := zero;
     sum_pagesFailed := zero;
     sum_memoryUsed := zero;
     sum_errors := [] |}.

Definition sum_step (acc : Sum) (result : BenchmarkResult) : Sum :=
  {| sum_duration := add (sum_duration acc) (duration (metrics result));
     sum_pagesProcessed :=
       add (sum_pagesProcessed acc) (pagesProcessed (metrics result));
     sum_pagesFailed := add (sum_pagesFailed acc) (pagesFailed (metrics result));
     sum_memoryUsed :=
       add (orZero (Some (sum_memoryUsed acc))) (orZero (memoryUsed (metrics result)));
     sum_errors := sum_errors acc ++ errors (metrics result) |}.

Definition averageResults (results : list BenchmarkResult)
  : Completion BenchmarkMetrics :=
  if length_Z results =? 0 then
    Throw (ErrorObject "Cannot average empty results")
  else
    let sum := fold_left sum_step results sum_init in
    let n := of_Z (length_Z results) in
    cbind (index results 0) (fun first =>
    cbind (index results (length_Z results - 1)) (fun last =>
    Return
      {| startTime := startTime (metrics first);
         endTime := endTime (metrics last);
         duration := Math_round (div (sum_duration sum) n);
         pagesProcessed := Math_round (div (sum_pagesProcessed sum) n);
         pagesFailed := Math_round (div (sum_pagesFailed sum) n);
         memoryUsed :=
           Some (div (Math_round (mul (div (sum_memoryUsed sum) n) hundred)) hundred);
         errors := sum_errors sum |})).

(** [{...r, metrics: m}]. *)
Definition with_metrics (r : BenchmarkResult) (m : BenchmarkMetrics)
  : BenchmarkResult :=
  {| crawlerType := crawlerType r;
     config := config r;
     metrics := m;
     results := results r;
     iteration := iteration r |}.

Definition generateComparison (playwrightResults cheerioResults : list BenchmarkResult)
  : Completion ComparisonResult :=
  cbind (averageResults playwrightResults) (fun playwrightAvg =>
  cbind (averageResults cheerioResults) (fun cheerioAvg =>
  cbind (index playwrightResults 0) (fun p0 =>
  let playwrightResult := with_metrics p0 playwrightAvg in
  cbind (index cheerioResults 0) (fun c0 =>
  let cheerioResult := with_metrics c0 cheerioAvg in
  let speedup := div (duration playwrightAvg) (duration cheerioAvg) in
  let memoryDifference :=
    sub (orZero (memoryUsed cheerioAvg)) (orZero (memoryUsed playwrightAvg)) in
  let pagesDifference :=
    sub (pagesProcessed cheerioAvg) (pagesProcessed playwrightAvg) in
  Return
    {| cmp_playwright := playwrightResult;
       cmp_cheerio := cheerioResult;
       speedup := speedup;
       memoryDifference := memoryDifference;
       pagesDifference := pagesDifference |})))).

End Binary64.

(** ** The environment of the runner *)

(** The options object passed to [crawl]; the runner never sets
    [maxConcurrency]. *)
Record CrawlerOptions : Type := {
  opt_maxPages : option Z;
  opt_maxDepth : option Z;
  opt_timeout : option Z
}.

(** How the promise returned by [crawler.crawl] settles.  Of the resolved
    [ExtractedData] the runner reads [items] only. *)
Inductive Settlement : Type :=
| Resolved (items : list CrawlResult)
| Rejected (error : Thrown).

(** Everything the runner observes from outside, as numbered readings.  The
    numbering is the runner's own: [Date_now_at n] is the value of the n-th
    [Date.now()] evaluated in [runner.ts], [heapUsed_at n] that of its n-th
    [process.memoryUsage().heapUsed] (bytes), [toISOString_at n] that of its
    n-th [new Date().toISOString()]; for its n-th call of [crawl],
    [crawl_at n] tells how many times the 100 ms interval callback fires
    while the call is awaited and how the call settles.  The crawlers read
    the clock and render dates themselves while they run; those readings
    belong to the crawlers, are not numbered here and reach the runner only
    inside the settled value. *)
Record Env : Type := {
  has_memoryUsage : bool;
  Date_now_at : nat -> Z;
  heapUsed_at : nat -> Z;
  toISOString_at : nat -> string;
  crawl_at : nat -> CrawlerType -> string -> CrawlerOptions -> nat * Settlement
}.

(** The mutable state: how many readings the runner has taken, how many
    times it has called [crawl], and the module-level variable
    [peakMemory]. *)
Record State : Type := {
  clock_reads : nat;
  heap_reads : nat;
  iso_reads : nat;
  crawl_calls : nat;
  peakMemory : Q
}.

Definition initial_state : State :=
  {| clock_reads := 0; heap_reads := 0; iso_reads := 0; crawl_calls := 0;
     peakMemory := 0%Q |}.

Definition M (A : Type) : Type := State -> A * State.

Definition ret {A} (a : A) : M A := fun s => (a, s).

Definition bind {A B} (m : M A) (k : A -> M B) : M B :=
  fun s => let (a, s') := m s in k a s'.

Declare Scope run_scope.
Delimit Scope run_scope with run.
Notation "x <- m ;; k" := (bind m (fun x => k))
  (at level 61, m at next level, right associativity) : run_scope.
Notation "m ;; k" := (bind m (fun _ => k))
  (at level 61, right associativity) : run_scope.

Definition Math_max (a b : Q) : Q := Qmax a b.

(** [a > b] on numbers. *)
Definition gtb (a b : Q) : bool := negb (Qle_bool a b).

Definition thrown_message (error : Thrown) : string :=
  match error with
  | ErrorObject message => message
  | OtherValue rendering => rendering
  end.

Section Runner.

Variable env : Env.

Local Open Scope run_scope.

Definition Date_now : M Z :=
  fun s =>
    (Date_now_at env (clock_reads s),
     {| clock_reads := S (clock_reads s); heap_reads := heap_reads s;
        iso_reads := iso_reads s; crawl_calls := crawl_calls s;
        peakMemory := peakMemory s |}).

Definition toISOString_now : M string :=
  fun s =>
    (toISOString_at env (iso_reads s),
     {| clock_reads := clock_reads s; heap_reads := heap_reads s;
        iso_reads := S (iso_reads s); crawl_calls := crawl_calls s;
        peakMemory := peakMemory s |}).

Definition read_heapUsed : M Z :=
  fun s =>
    (heapUsed_at env (heap_reads s),
     {| clock_reads := clock_reads s; heap_reads := S (heap_reads s);
        iso_reads := iso_reads s; crawl_calls := crawl_calls s;
        peakMemory := peakMemory s |}).

Definition get_peakMemory : M Q := fun s => (peakMemory s, s).

Definition set_peakMemory (v : Q) : M unit :=
  fun s =>
    (tt,
     {| clock_reads := clock_reads s; heap_reads := heap_reads s;
        iso_reads := iso_reads s; crawl_calls := crawl_calls s;
        peakMemory := v |}).

(** Heap used, in MB with two decimals. *)
Definition getMemoryUsage : M Q :=
  if has_memoryUsage env then
    heapUsed <- read_heapUsed ;;
    ret (inject_Z (Math_round (inject_Z heapUsed / 1024 / 1024 * 100)) / 100)%Q
  else ret 0%Q.

Definition trackPeakMemory : M unit :=
  current <- getMemoryUsage ;;
  peak <- get_peakMemory ;;
  if gtb current peak then set_peakMemory current else ret tt.

Fixpoint interval_ticks (n : nat) : M unit :=
  match n with
  | O => ret tt
  | S k => trackPeakMemory ;; interval_ticks k
  end.

(** [await crawler.crawl(url, options)] with the interval timer running: the
    callback fires some number of times, then the promise settles.  What
    the crawler does meanwhile is the environment's; of the runner's own
    readings only the heap is read here, by the callback. *)
Definition await_crawl (crawlerType : CrawlerType) (url : string)
    (options : CrawlerOptions) : M Settlement :=
  fun s =>
    let (ticks, settled) := crawl_at env (crawl_calls s) crawlerType url options in
    let s1 :=
      {| clock_reads := clock_reads s; heap_reads := heap_reads s;
         iso_reads := iso_reads s; crawl_calls := S (crawl_calls s);
         peakMemory := peakMemory s |} in
    let (_, s2) := interval_ticks ticks s1 in
    (settled, s2).

Definition runBenchmark (crawlerType : CrawlerType) (config : BenchmarkConfig)
    (iteration : Z) : M BenchmarkResult :=
  startTime <- Date_now ;;
  startMemory <- getMemoryUsage ;;
  set_peakMemory startMemory ;;
  let errors : list string := [] in
  settled <- await_crawl crawlerType (url config)
               {| opt_maxPages := maxPages config;
                  opt_maxDepth := maxDepth config;
                  opt_timeout := timeout config |} ;;
  match settled with
  | Resolved items =>
      trackPeakMemory ;;
      endTime <- Date_now ;;
      endMemory <- getMemoryUsage ;;
      let duration := endTime - startTime in
      peak <- get_peakMemory ;;
      let memoryDelta := Math_max 0 (peak - startMemory) in
      ret {| crawlerType := crawlerType;
             config := config;
             metrics :=
               {| startTime := startTime;
                  endTime := endTime;
                  duration := duration;
                  pagesProcessed := length_Z items;
                  pagesFailed := 0;
                  memoryUsed := Some memoryDelta;
                  errors := errors |};
             results :=
               map (fun item =>
                      {| cr_url := cr_url item;
                         title := title item;
                         htmlContent := htmlContent item;
                         metadata := metadata item |}) items;
             iteration := iteration |}
  | Rejected error =>
      trackPeakMemory ;;
      endTime <- Date_now ;;
      let errorMessage := thrown_message error in
      let errors := errors ++ [errorMessage] in
      peak <- get_peakMemory ;;
      let memoryDelta := Math_max 0 (peak - startMemory) in
      ret {| crawlerType := crawlerType;
             config := config;
             metrics :=
               {| startTime := startTime;
                  endTime := endTime;
                  duration := endTime - startTime;
                  pagesProcessed := 0;
                  pagesFailed := 1;
                  memoryUsed := Some memoryDelta;
                  errors := errors |};
             results := [];
             iteration := iteration |}
  end.

(** [options.crawler], after the cast of the source to one of the three
    admitted values. *)
Inductive CrawlerSelection : Type :=
| both
| only (crawlerType : CrawlerType).

(** [for (let i = start; i < config.iterations; i++)], with [remaining]
    the number of passes left; [i < undefined] is false. *)
Definition iteration_count (config : BenchmarkConfig) : nat :=
  match iterations config with
  | Some n => Z.to_nat n
  | None => O
  end.

Fixpoint iteration_loop (remaining : nat) (crawlerType : CrawlerType)
    (config : BenchmarkConfig) (i : Z) (results : list BenchmarkResult)
  : M (list BenchmarkResult) :=
  match remaining with
  | O => ret results
  | S k =>
      result <- runBenchmark crawlerType config i ;;
      iteration_loop k crawlerType config (i + 1) (results ++ [result])
  end.

Fixpoint crawler_loop (crawlersToTest : list CrawlerType)
    (config : BenchmarkConfig) (results : list BenchmarkResult)
  : M (list BenchmarkResult) :=
  match crawlersToTest with
  | [] => ret results
  | crawlerType :: rest =>
      results' <- iteration_loop (iteration_count config) crawlerType config 0 results ;;
      crawler_loop rest config results'
  end.

(** [runBenchmarks], from the resolved [config] on: the run loop and the
    assembly of the report.  Writing the report files is left out. *)
Definition runBenchmarks (crawler : CrawlerSelection) (config : BenchmarkConfig)
  : M (Completion BenchmarkReport) :=
  let results : list BenchmarkResult := [] in
  let crawlersToTest :=
    match crawler with
    | both => [playwright; cheerio]
    | only c => [c]
    end in
  results <- crawler_loop crawlersToTest config results ;;
  now_iso <- toISOString_now ;;
  ret (generateReport now_iso results config).

End Runner.

(** ** Reference notions the statements are phrased with *)

Definition Zsum (l : list Z) : Z := fold_right Z.add 0 l.

Definition Qsum (l : list Q) : Q := fold_right Qplus 0%Q l.

(** Arithmetic mean of a list of integers, and of a list of rationals. *)
Definition mean_Z (l : list Z) : Q := (inject_Z (Zsum l) / inject_Z (length_Z l))%Q.

Definition mean_Q (l : list Q) : Q := (Qsum l / inject_Z (length_Z l))%Q.

(** [z] is [x] rounded to the nearest integer (a tie goes to the larger
    neighbour, which makes [z] unique). *)
Definition nearest_integer (x : Q) (z : Z) : Prop :=
  (inject_Z z - (1 # 2) <= x /\ x < inject_Z z + (1 # 2))%Q.

(** [y] is [x] rounded to two decimal places. *)
Definition rounded_2dp (x y : Q) : Prop :=
  exists k : Z, (y == inject_Z k / 100)%Q /\ nearest_integer (x * 100)%Q k.


Definition durations (rs : list BenchmarkResult) : list Z :=
  map (fun r => duration (metrics r)) rs.

Definition pages_processed (rs : list BenchmarkResult) : list Z :=
  map (fun r => pagesProcessed (metrics r)) rs.

Definition pages_failed (rs : list BenchmarkResult) : list Z :=
  map (fun r => pagesFailed (metrics r)) rs.

(** The memory figures, an absent one counting as 0 as in the code. *)
Definition memories (rs : list BenchmarkResult) : list Q :=
  map (fun r => orZero (memoryUsed (metrics r))) rs.

Definition error_lists (rs : list BenchmarkResult) : list (list string) :=
  map (fun r => errors (metrics r)) rs.

(** Provider and iteration index of a result. *)
Definition label (r : BenchmarkResult) : CrawlerType * Z :=
  (crawlerType r, iteration r).

Definition has_crawler (c : CrawlerType) (rs : list BenchmarkResult) : Prop :=
  exists r, In r rs /\ crawlerType r = c.

(** The memory reading number [n], as [getMemoryUsage] reports it. *)
Definition memory_reading (env : Env) (n : nat) : Q :=
  if has_memoryUsage env then
    (inject_Z (Math_round (inject_Z (heapUsed_at env n) / 1024 / 1024 * 100)) / 100)%Q
  else 0%Q.

(** The number of the reading that follows reading [h]: without
    [process.memoryUsage] nothing is read and every figure is 0. *)
Definition next_heap (env : Env) (h : nat) : nat :=
  if has_memoryUsage env then S h else h.

(** The [count] successive memory figures starting at reading [h]. *)
Fixpoint samples_from (env : Env) (h : nat) (count : nat) : list Q :=
  match count with
  | O => []
  | S k => memory_reading env h :: samples_from env (next_heap env h) k
  end.

(** The largest of [baseline] and the [samples]. *)
Definition peak_of (baseline : Q) (samples : list Q) : Q :=
  fold_left Qmax samples baseline.

(** What [averageResults] returns on a non-empty list, in closed form. *)
Definition average_of (r : BenchmarkResult) (rs : list BenchmarkResult)
  : BenchmarkMetrics :=
  let sum := fold_left sum_step (r :: rs) sum_init in
  let n := inject_Z (length_Z (r :: rs)) in
  {| startTime := startTime (metrics r);
     endTime := endTime (metrics (last (r :: rs) r));
     duration := Math_round (inject_Z (sum_duration sum) / n);
     pagesProcessed := Math_round (inject_Z (sum_pagesProcessed sum) / n);
     pagesFailed := Math_round (inject_Z (sum_pagesFailed sum) / n);
     memoryUsed :=
       Some (inject_Z (Math_round ((sum_memoryUsed sum / n) * 100)) / 100)%Q;
     errors := sum_errors sum |}.

(** What [generateComparison] returns on two non-empty lists. *)
Definition comparison_of (p : BenchmarkResult) (ps : list BenchmarkResult)
    (c : BenchmarkResult) (cs : list BenchmarkResult) : ComparisonResult :=
  let playwrightAvg := average_of p ps in
  let cheerioAvg := average_of c cs in
  {| cmp_playwright := with_metrics p playwrightAvg;
     cmp_cheerio := with_metrics c cheerioAvg;
     speedup := js_div (duration playwrightAvg) (duration cheerioAvg);
     memoryDifference :=
       (orZero (memoryUsed cheerioAvg) - orZero (memoryUsed playwrightAvg))%Q;
     pagesDifference := pagesProcessed cheerioAvg - pagesProcessed playwrightAvg |}.

(** Two optional numbers are the same: both absent, or both present and
    equal as numbers. *)
Definition same_memory (a b : option Q) : Prop :=
  match a, b with
  | Some x, Some y => (x == y)%Q
  | None, None => True
  | _, _ => False
  end.

(** Two metrics records agree field by field. *)
Definition same_metrics (a b : BenchmarkMetrics) : Prop :=
  startTime a = startTime b /\
  endTime a = endTime b /\
  duration a = duration b /\
  pagesProcessed a = pagesProcessed b /\
  pagesFailed a = pagesFailed b /\
  same_memory (memoryUsed a) (memoryUsed b) /\
  errors a = errors b.

(** The options object of the [crawl] call in [runBenchmark]. *)
Definition crawl_options (config : BenchmarkConfig) : CrawlerOptions :=
  {| opt_maxPages := maxPages config;
     opt_maxDepth := maxDepth config;
     opt_timeout := timeout config |}.

(** The update of [peakMemory] by one call of [trackPeakMemory]. *)
Definition raise (peak current : Q) : Q :=
  if gtb current peak then current else peak.

(** The state after one call of [trackPeakMemory]. *)
Definition track_state (env : Env) (s : State) : State :=
  {| clock_reads := clock_reads s;
     heap_reads := next_heap env (heap_reads s);
     iso_reads := iso_reads s;
     crawl_calls := crawl_calls s;
     peakMemory := raise (peakMemory s) (memory_reading env (heap_reads s)) |}.

(** The state after [n] calls of [trackPeakMemory]. *)
Fixpoint ticks_state (env : Env) (n : nat) (s : State) : State :=
  match n with
  | O => s
  | S k => ticks_state env k (track_state env s)
  end.

(** The result of one iteration, from what the environment showed: the two
    clock readings, the baseline, the peak and how the crawl settled. *)
Definition iteration_result (crawlerType : CrawlerType) (config : BenchmarkConfig)
    (iteration t0 t1 : Z) (baseline peak : Q) (settled : Settlement)
  : BenchmarkResult :=
  match settled with
  | Resolved items =>
      {| crawlerType := crawlerType;
         config := config;
         metrics :=
           {| startTime := t0;
              endTime := t1;
              duration := t1 - t0;
              pagesProcessed := length_Z items;
              pagesFailed := 0;
              memoryUsed := Some (Math_max 0 (peak - baseline));
              errors := [] |};
         results :=
           map (fun item =>
                  {| cr_url := cr_url item;
                     title := title item;
                     htmlContent := htmlContent item;
                     metadata := metadata item |}) items;
         iteration := iteration |}
  | Rejected error =>
      {| crawlerType := crawlerType;
         config := config;
         metrics :=
           {| startTime := t0;
              endTime := t1;
              duration := t1 - t0;
              pagesProcessed := 0;
              pagesFailed := 1;
              memoryUsed := Some (Math_max 0 (peak - baseline));
              errors := [thrown_message error] |};
         results := [];
         iteration := iteration |}
  end.

(** The labels of [n] iterations of provider [c], indices ascending from
    [first]. *)
Definition iteration_labels (c : CrawlerType) (first : Z) (n : nat)
  : list (CrawlerType * Z) :=
  map (fun j => (c, first + Z.of_nat j)) (seq 0 n).

(** ** Concrete data for the examples *)

Definition example_config : BenchmarkConfig :=
  {| url := "https://example.com";
     maxPages := Some 5;
     maxDepth := Some 1;
     iterations := Some 1;
     timeout := Some 30000 |}.

Definition example_result (c : CrawlerType) (i start stop pages failed : Z)
    (mem : option Q) (errs : list string) : BenchmarkResult :=
  {| crawlerType := c;
     config := example_config;
     metrics :=
       {| startTime := start;
          endTime := stop;
          duration := stop - start;
          pagesProcessed := pages;
          pagesFailed := failed;
          memoryUsed := mem;
          errors := errs |};
     results := [];
     iteration := i |}.

(** One playwright iteration of 3000 ms, 40 MB, 5 pages and one cheerio
    iteration of 1200 ms, 10 MB, 5 pages. *)
Definition scenario_playwright : BenchmarkResult :=
  example_result playwright 0 1000 4000 5 0 (Some 40%Q) [].

Definition scenario_cheerio : BenchmarkResult :=
  example_result cheerio 0 5000 6200 5 0 (Some 10%Q) [].

(** A result whose metrics carry no [memoryUsed]. *)
Definition result_without_memory : BenchmarkResult :=
  example_result playwright 0 1000 4000 5 0 None [].

(** A result whose [memoryUsed] has three decimals. *)
Definition result_three_decimals : BenchmarkResult :=
  example_result playwright 0 1000 4000 5 0 (Some (1234 # 1000)) [].

Definition three_durations : list BenchmarkResult :=
  [ example_result playwright 0 0 100 5 0 (Some 1%Q) [];
    example_result playwright 1 100 300 5 0 (Some 2%Q) [];
    example_result playwright 2 300 600 5 0 (Some 4%Q) [] ].

Definition failed_twice : list BenchmarkResult :=
  [ example_result cheerio 0 0 10 0 1 (Some 0%Q) ["connection refused"%string];
    example_result cheerio 1 10 20 0 1 (Some 0%Q) ["connection refused"%string] ].

Definition two_iterations_config : BenchmarkConfig :=
  {| url := "https://example.com";
     maxPages := Some 5;
     maxDepth := Some 1;
     iterations := Some 2;
     timeout := Some 30000 |}.

(** An environment in which every crawl is refused after two timer ticks,
    the clock advances by 50 ms per reading and the heap shrinks by 1 MiB
    per reading from 50 MiB. *)
Definition refusing_env : Env :=
  {| has_memoryUsage := true;
     Date_now_at := fun n => 1000 + 50 * Z.of_nat n;
     heapUsed_at := fun n => 52428800 - 1048576 * Z.of_nat n;
     toISOString_at := fun _ => "2024-01-01T00:00:00.000Z"%string;
     crawl_at := fun _ _ _ _ =>
       (2%nat, Rejected (ErrorObject "connection refused")) |}.

(** The largest of a non-empty list of samples, the baseline left out. *)
Definition largest_sample (samples : list Q) : Q :=
  match samples with
  | [] => 0%Q
  | x :: xs => fold_left Qmax xs x
  end.

(** ** Further notions for the runner *)

(** The clock never goes back. *)
Definition monotone_clock (env : Env) : Prop :=
  forall a b : nat, (a <= b)%nat -> Date_now_at env a <= Date_now_at env b.

(** The provider list of the run loop. *)
Definition crawlers_to_test (crawler : CrawlerSelection) : list CrawlerType :=
  match crawler with
  | both => [playwright; cheerio]
  | only c => [c]
  end.

(** How many memory readings one iteration takes: the baseline, one per
    timer tick, the forced final sample and, on success, [endMemory]. *)
Definition heap_reads_of (ticks : nat) (settled : Settlement) : nat :=
  match settled with
  | Resolved _ => (ticks + 3)%nat
  | Rejected _ => (ticks + 2)%nat
  end.

(** The state in which [runBenchmark] leaves the environment. *)
Definition iteration_state (env : Env) (ticks : nat) (settled : Settlement)
    (s : State) : State :=
  {| clock_reads := S (S (clock_reads s));
     heap_reads := Nat.iter (heap_reads_of ticks settled) (next_heap env) (heap_reads s);
     iso_reads := iso_reads s;
     crawl_calls := S (crawl_calls s);
     peakMemory :=
       fold_left raise
         (samples_from env (next_heap env (heap_reads s)) (S ticks))
         (memory_reading env (heap_reads s)) |}.

(** Result number [k] of a run that starts in state [s] was timed by the
    runner's own clock readings [2k] and [2k + 1] after those it had already
    taken, and settled as crawl call number [k] after those already made
    did. *)
Definition placed_in_run (env : Env) (cfg : BenchmarkConfig) (s : State)
    (k : nat) (r : BenchmarkResult) : Prop :=
  config r = cfg /\
  startTime (metrics r) = Date_now_at env (clock_reads s + 2 * k) /\
  endTime (metrics r) = Date_now_at env (S (clock_reads s + 2 * k)) /\
  duration (metrics r) = endTime (metrics r) - startTime (metrics r) /\
  match snd (crawl_at env (crawl_calls s + k) (crawlerType r) (url cfg)
               (crawl_options cfg)) with
  | Resolved items =>
      pagesFailed (metrics r) = 0 /\ errors (metrics r) = [] /\
      pagesProcessed (metrics r) = length_Z items /\ results r = items
  | Rejected error =>
      pagesFailed (metrics r) = 1 /\ errors (metrics r) = [thrown_message error] /\
      pagesProcessed (metrics r) = 0 /\ results r = []
  end.

(** Result number [k] of a run that starts in state [s] settled as crawl call
    number [k] after those already made did: the pages of the items it
    resolved to, or the one message of its failure. *)
Definition settled_as (env : Env) (cfg : BenchmarkConfig) (s : State)
    (k : nat) (r : BenchmarkResult) : Prop :=
  config r = cfg /\
  duration (metrics r) = endTime (metrics r) - startTime (metrics r) /\
  match snd (crawl_at env (crawl_calls s + k) (crawlerType r) (url cfg)
               (crawl_options cfg)) with
  | Resolved items =>
      pagesFailed (metrics r) = 0 /\ errors (metrics r) = [] /\
      pagesProcessed (metrics r) = length_Z items /\ results r = items
  | Rejected (ErrorObject message) =>
      pagesFailed (metrics r) = 1 /\ errors (metrics r) = [message] /\
      pagesProcessed (metrics r) = 0 /\ results r = []
  | Rejected (OtherValue rendering) =>
      pagesFailed (metrics r) = 1 /\ errors (metrics r) = [rendering] /\
      pagesProcessed (metrics r) = 0 /\ results r = []
  end.

(** The results [rs] are the results number [k], [k + 1], ... of the run. *)
Fixpoint all_placed (env : Env) (cfg : BenchmarkConfig) (s : State) (k : nat)
    (rs : list BenchmarkResult) : Prop :=
  match rs with
  | [] => True
  | r :: rest => placed_in_run env cfg s k r /\ all_placed env cfg s (S k) rest
  end.

(** Every call of [crawl] rejects. *)
Definition always_rejects (env : Env) : Prop :=
  forall n c u o, exists ticks error, crawl_at env n c u o = (ticks, Rejected error).

(** What [generateReport] puts in the [comparison] field. *)
Definition comparison_for (results : list BenchmarkResult) : option ComparisonResult :=
  match filter (fun r => CrawlerType_eqb (crawlerType r) playwright) results,
        filter (fun r => CrawlerType_eqb (crawlerType r) cheerio) results with
  | p :: ps, c :: cs => Some (comparison_of p ps c cs)
  | _, _ => None
  end.

Definition example_page (n : Z) : CrawlResult :=
  {| cr_url := "https://example.com";
     title := "Example Domain";
     htmlContent := "<html></html>";
     metadata := {| statusCode := 200 + n; md_timestamp := "2024-01-01T00:00:00.000Z" |} |}.

(** An environment in which every crawl returns two pages after one timer
    tick, the clock advances by 50 ms per reading and the heap grows by
    1 MiB per reading from 50 MiB. *)
Definition serving_env : Env :=
  {| has_memoryUsage := true;
     Date_now_at := fun n => 1000 + 50 * Z.of_nat n;
     heapUsed_at := fun n => 52428800 + 1048576 * Z.of_nat n;
     toISOString_at := fun _ => "2024-01-01T00:00:00.000Z"%string;
     crawl_at := fun _ _ _ _ =>
       (1%nat, Resolved [example_page 0; example_page 1]) |}.

(** What the loops keep true of the results collected so far and of the
    state. *)
Definition run_invariant (env : Env) (cfg : BenchmarkConfig) (s0 : State)
    (rs : list BenchmarkResult) (s : State) : Prop :=
  all_placed env cfg s0 0 rs /\
  clock_reads s = (clock_reads s0 + 2 * List.length rs)%nat /\
  crawl_calls s = (crawl_calls s0 + List.length rs)%nat /\
  iso_reads s = iso_reads s0.

(** Results of both providers, cheerio first. *)
Definition interleaved_results : list BenchmarkResult :=
  [ scenario_cheerio; scenario_playwright;
    example_result cheerio 1 6200 7000 5 0 (Some 12%Q) [];
    example_result playwright 1 7000 9000 5 0 (Some 44%Q) [] ].

(** ** The summary printed at the end of a run *)

(** [x > 1]. *)
Definition js_gt_one (x : JsNumber) : bool :=
  match x with
  | Finite q => negb (Qle_bool q 1)
  | PosInfinity => true
  | NegInfinity => false
  | NaN => false
  end.

(** [speedup > 1 ? "(Cheerio faster)" : "(Playwright faster)"], as the text
    report and the summary both have it. *)
Definition faster_label (speedup : JsNumber) : string :=
  if js_gt_one speedup then "(Cheerio faster)" else "(Playwright faster)".

Fixpoint repeat_string (s : string) (n : nat) : string :=
  match n with
  | O => EmptyString
  | S k => (s ++ repeat_string s k)%string
  end.

Definition newline : string := String (Ascii.ascii_of_nat 10) EmptyString.

Section Summary.

(** The renderings of numbers in template literals and of [toFixed(2)] are
    left open. *)
Variable String_of_number : Z -> string.
Variable String_of_memory : option Q -> string.
Variable toFixed2 : JsNumber -> string.

(** The lines [printSummary] writes to the console. *)
Definition printSummary (report : BenchmarkReport) : list string :=
  match comparison report with
  | Some cmp =>
      let playwright := cmp_playwright cmp in
      let cheerio := cmp_cheerio cmp in
      let speedup := speedup cmp in
      [ (newline ++ repeat_string "=" 60)%string;
        "Summary"%string;
        repeat_string "=" 60;
        ("Playwright: " ++ String_of_number (duration (metrics playwright)) ++ "ms | "
           ++ String_of_number (pagesProcessed (metrics playwright)) ++ " pages | "
           ++ String_of_memory (memoryUsed (metrics playwright)) ++ "MB")%string;
        ("Cheerio:   " ++ String_of_number (duration (metrics cheerio)) ++ "ms | "
           ++ String_of_number (pagesProcessed (metrics cheerio)) ++ " pages | "
           ++ String_of_memory (memoryUsed (metrics cheerio)) ++ "MB")%string;
        ("Speedup: " ++ toFixed2 speedup ++ "x " ++ faster_label speedup)%string;
        repeat_string "=" 60 ]
  | None => []
  end.

End Summary.

(** ** Test scenarios *)

Record TestScenario : Type := {
  sc_name : string;
  sc_url : string;
  sc_maxPages : Z;
  sc_maxDepth : Z;
  description : string
}.

Definition SCENARIOS : list TestScenario :=
  [ {| sc_name := "simple-static";
       sc_url := "https://example.com";
       sc_maxPages := 5;
       sc_maxDepth := 1;
       description := "Simple static website with minimal JavaScript" |};
    {| sc_name := "medium-site";
       sc_url := "https://httpbin.org";
       sc_maxPages := 10;
       sc_maxDepth := 2;
       description := "Medium complexity site with multiple pages" |};
    {| sc_name := "documentation";
       sc_url := "https://crawlee.dev";
       sc_maxPages := 20;
       sc_maxDepth := 2;
       description := "Documentation site with structured content" |} ].

Definition getScenario (name : string) : option TestScenario :=
  find (fun s => String.eqb (sc_name s) name) SCENARIOS.

(** ** Chromium detection ([playwright/crawler.ts]) *)

(** The file system as the three [fs] calls see it; [statSync] and
    [accessSync] may throw. *)
Record FileSystem : Type := {
  existsSync : string -> bool;
  statSync_isFile : string -> Completion bool;
  accessSync : string -> Completion unit
}.

(** The two environment variables read; [None] is an unset variable. *)
Record ProcessEnv : Type := {
  PLAYWRIGHT_CHROMIUM_EXECUTABLE_PATH : option string;
  PLAYWRIGHT_HEADLESS : option string
}.

(** Truthiness of an environment variable: set and not empty. *)
Definition truthy_string (x : option string) : bool :=
  match x with
  | Some s => negb (String.eqb s "")
  | None => false
  end.

Definition possiblePaths : list string :=
  [ "/usr/bin/chromium"%string;
    "/usr/bin/chromium-browser"%string;
    "/usr/bin/google-chrome"%string;
    "/usr/bin/google-chrome-stable"%string;
    "/usr/bin/chrome"%string;
    "/usr/bin/chromium-browser-stable"%string ].

(** One pass of the loop body: [true] when it returns [path], [false] when
    it goes on to the next path, by the test failing or by the [catch]. *)
Definition path_accepted (fs : FileSystem) (path : string) : bool :=
  if existsSync fs path then
    match statSync_isFile fs path with
    | Return true =>
        match accessSync fs path with
        | Return _ => true
        | Throw _ => false
        end
    | Return false => false
    | Throw _ => false
    end
  else false.

Fixpoint search_paths (fs : FileSystem) (paths : list string) : option string :=
  match paths with
  | [] => None
  | path :: rest =>
      if path_accepted fs path then Some path else search_paths fs rest
  end.

Definition detectChromiumPath (fs : FileSystem) (penv : ProcessEnv) : string :=
  let from_candidates :=
    match search_paths fs possiblePaths with
    | Some path => path
    | None => "/usr/bin/chromium"%string
    end in
  if truthy_string (PLAYWRIGHT_CHROMIUM_EXECUTABLE_PATH penv) then
    match PLAYWRIGHT_CHROMIUM_EXECUTABLE_PATH penv with
    | Some path => if existsSync fs path then path else from_candidates
    | None => from_candidates
    end
  else from_candidates.

Record LaunchOptions : Type := {
  headless : bool;
  executablePath : option string;
  args : list string
}.

Definition launch_args : list string :=
  [ "--no-sandbox"; "--disable-setuid-sandbox"; "--disable-dev-shm-usage";
    "--disable-gpu"; "--disable-web-security"; "--disable-accelerated-2d-canvas";
    "--no-first-run"; "--no-zygote"; "--disable-features=VizDisplayCompositor";
    "--disable-background-timer-throttling";
    "--disable-backgrounding-occluded-windows"; "--disable-renderer-backgrounding";
    "--disable-field-trial-config"; "--disable-ipc-flooding-protection";
    "--single-process"; "--disable-extensions"; "--disable-plugins";
    "--disable-default-apps"; "--disable-sync"; "--disable-translate";
    "--hide-scrollbars"; "--mute-audio"; "--no-default-browser-check";
    "--disable-logging"; "--disable-gpu-logging"; "--silent";
    "--disable-background-networking"; "--disable-client-side-phishing-detection";
    "--disable-component-extensions-with-background-pages";
    "--disable-component-update"; "--disable-domain-reliability";
    "--disable-features=TranslateUI"; "--disable-hang-monitor";
    "--disable-popup-blocking"; "--disable-prompt-on-repost";
    "--disable-sync-preferences"; "--metrics-recording-only";
    "--safebrowsing-disable-auto-update"; "--enable-automation";
    "--password-store=basic"; "--use-mock-keychain";
    "--disable-software-rasterizer"; "--force-color-profile=srgb";
    "--disable-features=BlinkGenPropertyTrees" ]%string.

(** [detectChromiumPath] cannot throw, so the [catch] of the source is
    never entered. *)
Definition getLaunchOptions (fs : FileSystem) (penv : ProcessEnv) : LaunchOptions :=
  let headless :=
    match PLAYWRIGHT_HEADLESS penv with
    | Some v => negb (String.eqb v "false")
    | None => true
    end in
  let detectedPath := detectChromiumPath fs penv in
  let executablePath :=
    if existsSync fs detectedPath then Some detectedPath else None in
  {| headless := headless;
     executablePath :=
       match executablePath with
       | Some path => if negb (String.eqb path "") then Some path else None
       | None => None
       end;
     args := launch_args |}.

(** A file system with a packaged Chromium that is a directory and a Chrome
    that is a regular, accessible file. *)
Definition example_fs : FileSystem :=
  {| existsSync := fun p =>
       String.eqb p "/usr/bin/chromium" || String.eqb p "/usr/bin/google-chrome"
       || String.eqb p "/opt/chrome";
     statSync_isFile := fun p =>
       if String.eqb p "/usr/bin/chromium" then Return false else Return true;
     accessSync := fun p =>
       if String.eqb p "/usr/bin/google-chrome" then Return tt
       else Throw (ErrorObject "EACCES") |}.

(** ** The crawlers ([cheerio/crawler.ts], [playwright/crawler.ts]) *)

(** A key of an options object: absent, or present with a number or with
    [undefined] ([None]). *)
Inductive Key : Type :=
| Absent
| Present (v : option Z).

(** The [options] argument of [crawl] and [scrap]. *)
Record CrawlerOptionsArg : Type := {
  arg_maxPages : Key;
  arg_maxDepth : Key;
  arg_timeout : Key;
  arg_maxConcurrency : Key
}.

(** [opts], the merged options. *)
Record MergedOptions : Type := {
  merged_maxPages : option Z;
  merged_maxDepth : option Z;
  merged_timeout : option Z;
  merged_maxConcurrency : option Z
}.

(** [DEFAULT_OPTIONS]; the default concurrency is parsed from the
    environment when the module loads and is taken as given. *)
Definition DEFAULT_OPTIONS (default_maxConcurrency : option Z) : MergedOptions :=
  {| merged_maxPages := Some 10;
     merged_maxDepth := Some 2;
     merged_timeout := Some 30000;
     merged_maxConcurrency := default_maxConcurrency |}.

(** One key of [{ ...DEFAULT_OPTIONS, ...options }]: a key that is present
    is copied, whatever its value. *)
Definition spread_key (default : option Z) (k : Key) : option Z :=
  match k with
  | Absent => default
  | Present v => v
  end.

Definition merge_options (default_maxConcurrency : option Z)
    (options : option CrawlerOptionsArg) : MergedOptions :=
  let d := DEFAULT_OPTIONS default_maxConcurrency in
  match options with
  | None => d
  | Some o =>
      {| merged_maxPages := spread_key (merged_maxPages d) (arg_maxPages o);
         merged_maxDepth := spread_key (merged_maxDepth d) (arg_maxDepth o);
         merged_timeout := spread_key (merged_timeout d) (arg_timeout o);
         merged_maxConcurrency :=
           spread_key (merged_maxConcurrency d) (arg_maxConcurrency o) |}
  end.

(** [Math.floor(opts.timeout / 1000)], the value passed as
    [requestHandlerTimeoutSecs]: [undefined / 1000] is NaN, and so is its
    floor. *)
Definition requestHandlerTimeoutSecs (opts : MergedOptions) : JsNumber :=
  match merged_timeout opts with
  | Some t => Finite (inject_Z (t / 1000))
  | None => NaN
  end.

(** The object literal [runBenchmark] passes: three keys, always present. *)
Definition as_argument (o : CrawlerOptions) : CrawlerOptionsArg :=
  {| arg_maxPages := Present (opt_maxPages o);
     arg_maxDepth := Present (opt_maxDepth o);
     arg_timeout := Present (opt_timeout o);
     arg_maxConcurrency := Absent |}.

(** *** The request handler of [crawl] *)

(** The two variables the handler closes over, and the invocations that
    have passed the two checks and wait at an [await] of the [try] block. *)
Record HandlerState : Type := {
  processedUrls : list string;
  processedCount : Z;
  in_flight : list string
}.

Definition handler_start : HandlerState :=
  {| processedUrls := []; processedCount := 0; in_flight := [] |}.

(** [opts.maxPages && processedCount.value >= opts.maxPages]. *)
Definition limit_reached (maxPages : option Z) (count : Z) : bool :=
  match maxPages with
  | Some m => negb (m =? 0) && (m <=? count)
  | None => false
  end.

(** [Set.has] and [Set.add]. *)
Definition set_has (set : list string) (u : string) : bool :=
  existsb (String.eqb u) set.

Definition set_add (set : list string) (u : string) : list string :=
  if set_has set u then set else set ++ [u].

Fixpoint remove_one (u : string) (l : list string) : list string :=
  match l with
  | [] => []
  | x :: rest => if String.eqb u x then rest else x :: remove_one u rest
  end.

(** The handler runs in two stretches.  [Invoked]: from its start to the
    first [await], that is, the two checks.  [Settled]: from the point where
    the awaited calls up to [Dataset.pushData] have all fulfilled, or one
    has rejected, to the end.  Stretches of different invocations
    interleave. *)
Inductive HandlerEvent : Type :=
| Invoked (currentUrl : string)
| Settled (currentUrl : string) (fulfilled : bool).

Definition handler_step (maxPages : option Z) (st : HandlerState)
    (e : HandlerEvent) : HandlerState :=
  match e with
  | Invoked u =>
      if limit_reached maxPages (processedCount st) then st
      else if set_has (processedUrls st) u then st
      else {| processedUrls := processedUrls st;
              processedCount := processedCount st;
              in_flight := u :: in_flight st |}
  | Settled u fulfilled =>
      if set_has (in_flight st) u then
        if fulfilled then
          {| processedUrls := set_add (processedUrls st) u;
             processedCount := processedCount st + 1;
             in_flight := remove_one u (in_flight st) |}
        else
          {| processedUrls := processedUrls st;
             processedCount := processedCount st;
             in_flight := remove_one u (in_flight st) |}
      else st
  end.

Definition handler_run (maxPages : option Z) (st : HandlerState)
    (events : list HandlerEvent) : HandlerState :=
  fold_left (handler_step maxPages) events st.

(** At most [c] invocations are ever between their two stretches. *)
Fixpoint concurrency_respected (maxPages : option Z) (c : nat)
    (st : HandlerState) (events : list HandlerEvent) : Prop :=
  match events with
  | [] => True
  | e :: rest =>
      (List.length (in_flight (handler_step maxPages st e)) <= c)%nat /\
      concurrency_respected maxPages c (handler_step maxPages st e) rest
  end.

(** Invocations that run one after the other, each to its end. *)
Definition one_at_a_time (pages : list (string * bool)) : list HandlerEvent :=
  flat_map (fun page => [Invoked (fst page); Settled (fst page) (snd page)]) pages.

(** *** The result of [crawl] and [scrap] *)

Inductive JsValue : Type :=
| JsUndefined
| JsNull
| JsBoolean (b : bool)
| JsNum (n : Z)
| JsStr (s : string).

(** An object, by the value of each of its keys. *)
Definition JsObject : Type := string -> option JsValue.

Definition js_truthy (v : JsValue) : bool :=
  match v with
  | JsUndefined => false
  | JsNull => false
  | JsBoolean b => b
  | JsNum n => negb (n =? 0)
  | JsStr s => negb (String.eqb s "")
  end.

(** [o.k]. *)
Definition js_get (o : JsObject) (k : string) : JsValue :=
  match o k with
  | Some v => v
  | None => JsUndefined
  end.

(** [a || b]. *)
Definition js_or (a b : JsValue) : JsValue := if js_truthy a then a else b.

(** [{ statusCode: a, timestamp: b, ...m }]. *)
Definition metadata_literal (a b : JsValue) (m : JsObject) : JsObject :=
  fun k =>
    match m k with
    | Some v => Some v
    | None =>
        if String.eqb k "statusCode" then Some a
        else if String.eqb k "timestamp" then Some b
        else None
    end.

Record DatasetItem : Type := {
  item_url : string;
  item_title : string;
  item_htmlContent : string;
  item_metadata : JsObject
}.

Record ExtractedMetadata : Type := {
  originalUrl : string;
  totalPages : Z;
  completedAt : string;
  executionTime : Z
}.

Record ExtractedData : Type := {
  items : list DatasetItem;
  data_metadata : ExtractedMetadata
}.

(** [items.map(...)]; [now_iso_at i] is [new Date().toISOString()] as it
    would read while item [i] is mapped. *)
Fixpoint map_items (now_iso_at : nat -> string) (i : nat)
    (items : list DatasetItem) : list DatasetItem :=
  match items with
  | [] => []
  | item :: rest =>
      {| item_url := item_url item;
         item_title := item_title item;
         item_htmlContent := item_htmlContent item;
         item_metadata :=
           metadata_literal
             (js_or (js_get (item_metadata item) "statusCode") (JsNum 200))
             (js_or (js_get (item_metadata item) "timestamp")
                    (JsStr (now_iso_at i)))
             (item_metadata item) |}
      :: map_items now_iso_at (S i) rest
  end.

(** The tail of [crawl] and of [scrap], from [Dataset.getData()] on:
    [dataset] is [None] when [dataset?.items] is [undefined]. *)
Definition extracted (originalUrl0 : string) (dataset : option (list DatasetItem))
    (now_iso_at : nat -> string) (completed_iso : string) (startTime0 now : Z)
  : ExtractedData :=
  let items :=
    match dataset with
    | Some l => l
    | None => []
    end in
  {| items := map_items now_iso_at 0 items;
     data_metadata :=
       {| originalUrl := originalUrl0;
          totalPages := length_Z items;
          completedAt := completed_iso;
          executionTime := now - startTime0 |} |}.

(** [urls[0] || ""]. *)
Definition scrap_originalUrl (urls : list string) : string :=
  match urls with
  | u :: _ => u
  | [] => ""%string
  end.

Definition example_stored_item : DatasetItem :=
  {| item_url := "https://example.com";
     item_title := "Example Domain";
     item_htmlContent := "<html></html>";
     item_metadata := fun k =>
       if String.eqb k "statusCode" then Some (JsNum 0)
       else if String.eqb k "depth" then Some (JsNum 1)
       else None |}.

(** ** Reference notions for the binary64 embedding *)

(** The statements below are phrased with the standard library's
    operations on [spec_float] at precision 53 and [emax] 1024, not with
    the definitions of [Binary64]. *)

(** The doubles of the representation: mantissa and exponent in canonical
    form. *)
Definition valid_double (x : spec_float) : Prop :=
  valid_binary 53 1024 x = true.

(** The double of an integer. *)
Definition double_of_Z (z : Z) : spec_float := binary_normalize 53 1024 z 0 false.

(** The double written as the decimal literal [a/b]: the quotient of two
    integers is rounded once, as the literal is. *)
Definition decimal (a b : Z) : spec_float :=
  SFdiv 53 1024 (double_of_Z a) (double_of_Z b).

(** The exact value of a finite double, as a rational; 0 for the others. *)
Definition exact_of (x : spec_float) : Q :=
  match x with
  | S754_finite s m e =>
      let signed := if s then Zneg m else Zpos m in
      if 0 <=? e then inject_Z (signed * 2 ^ e)
      else (inject_Z signed / inject_Z (2 ^ (- e)))%Q
  | _ => 0%Q
  end.

(** [y] is [x] rounded to an integer the way [Math.round] does: an
    integral double, an infinity and NaN stay; a double with a fractional
    part goes to the integer nearest to its exact value, a tie going up,
    and a result zero has the sign of [x]. *)
Definition rounds_to (x y : spec_float) : Prop :=
  match x with
  | S754_finite s m e =>
      if 0 <=? e then y = x
      else exists z : Z,
             nearest_integer (exact_of x) z /\
             y = (if z =? 0 then S754_zero s else double_of_Z z)
  | _ => y = x
  end.

(** [y] is [Math.round(x * 100) / 100], product and quotient rounded. *)
Definition rounds_to_2dp (x y : spec_float) : Prop :=
  exists k : spec_float,
    rounds_to (SFmul 53 1024 x (double_of_Z 100)) k /\
    y = SFdiv 53 1024 k (double_of_Z 100).

(** The sum of a list of doubles, added to [acc] one by one from the
    left. *)
Fixpoint double_sum_from (acc : spec_float) (l : list spec_float) : spec_float :=
  match l with
  | [] => acc
  | x :: l' => double_sum_from (SFadd 53 1024 acc x) l'
  end.

(** The mean as the doubles give it: the sum from [+0], divided by the
    length. *)
Definition double_mean (l : list spec_float) : spec_float :=
  SFdiv 53 1024 (double_sum_from (S754_zero false) l) (double_of_Z (length_Z l)).

(** A memory figure as it is counted: an absent one, NaN and the zeros count
    as [+0]. *)
Definition counted_memory (x : option spec_float) : spec_float :=
  match x with
  | None => S754_zero false
  | Some v =>
      match v with
      | S754_finite _ _ _ | S754_infinity _ => v
      | S754_zero _ | S754_nan => S754_zero false
      end
  end.

(** The sum of the memory figures: as [double_sum_from], but a partial sum
    that is NaN (or [-0]) is replaced by [+0] before the next figure is
    added. *)
Fixpoint memory_sum_from (acc : spec_float) (l : list (option spec_float))
  : spec_float :=
  match l with
  | [] => acc
  | x :: l' =>
      memory_sum_from
        (SFadd 53 1024 (counted_memory (Some acc)) (counted_memory x)) l'
  end.

Definition memory_mean (l : list (option spec_float)) : spec_float :=
  SFdiv 53 1024 (memory_sum_from (S754_zero false) l) (double_of_Z (length_Z l)).

Definition double_durations (rs : list Binary64.BenchmarkResult) : list spec_float :=
  map (fun r => Binary64.duration (Binary64.metrics r)) rs.

Definition double_pages_processed (rs : list Binary64.BenchmarkResult)
  : list spec_float :=
  map (fun r => Binary64.pagesProcessed (Binary64.metrics r)) rs.

Definition double_pages_failed (rs : list Binary64.BenchmarkResult)
  : list spec_float :=
  map (fun r => Binary64.pagesFailed (Binary64.metrics r)) rs.

Definition double_memories (rs : list Binary64.BenchmarkResult)
  : list (option spec_float) :=
  map (fun r => Binary64.memoryUsed (Binary64.metrics r)) rs.

(** The exact values of the memory figures, an absent one counting as 0. *)
Definition exact_memories (rs : list Binary64.BenchmarkResult) : list Q :=
  map (fun r => match Binary64.memoryUsed (Binary64.metrics r) with
                | Some x => exact_of x
                | None => 0%Q
                end) rs.

(** [0 + x]: [x], but [+0] for [-0]. *)
Definition unsigned_zero (x : spec_float) : spec_float :=
  match x with
  | S754_zero _ => S754_zero false
  | _ => x
  end.

(** The numeric fields of a metrics record are doubles of the
    representation. *)
Definition valid_metrics (m : Binary64.BenchmarkMetrics) : Prop :=
  valid_double (Binary64.duration m) /\
  valid_double (Binary64.pagesProcessed m) /\
  valid_double (Binary64.pagesFailed m) /\
  match Binary64.memoryUsed m with
  | Some x => valid_double x
  | None => True
  end.

(** What [Binary64.averageResults] returns on a non-empty list. *)
Definition double_average_of (r : Binary64.BenchmarkResult)
    (rs : list Binary64.BenchmarkResult) : Binary64.BenchmarkMetrics :=
  let sum := fold_left Binary64.sum_step (r :: rs) Binary64.sum_init in
  let n := Binary64.of_Z (length_Z (r :: rs)) in
  {| Binary64.startTime := Binary64.startTime (Binary64.metrics r);
     Binary64.endTime := Binary64.endTime (Binary64.metrics (last (r :: rs) r));
     Binary64.duration :=
       Binary64.Math_round (Binary64.div (Binary64.sum_duration sum) n);
     Binary64.pagesProcessed :=
       Binary64.Math_round (Binary64.div (Binary64.sum_pagesProcessed sum) n);
     Binary64.pagesFailed :=
       Binary64.Math_round (Binary64.div (Binary64.sum_pagesFailed sum) n);
     Binary64.memoryUsed :=
       Some (Binary64.div
               (Binary64.Math_round
                  (Binary64.mul (Binary64.div (Binary64.sum_memoryUsed sum) n)
                     Binary64.hundred))
               Binary64.hundred);
     Binary64.errors := Binary64.sum_errors sum |}.

(** What [Binary64.generateComparison] returns on two non-empty lists. *)
Definition double_comparison_of
    (p : Binary64.BenchmarkResult) (ps : list Binary64.BenchmarkResult)
    (c : Binary64.BenchmarkResult) (cs : list Binary64.BenchmarkResult)
  : Binary64.ComparisonResult :=
  let playwrightAvg := double_average_of p ps in
  let cheerioAvg := double_average_of c cs in
  {| Binary64.cmp_playwright := Binary64.with_metrics p playwrightAvg;
     Binary64.cmp_cheerio := Binary64.with_metrics c cheerioAvg;
     Binary64.speedup :=
       Binary64.div (Binary64.duration playwrightAvg) (Binary64.duration cheerioAvg);
     Binary64.memoryDifference :=
       Binary64.sub (Binary64.orZero (Binary64.memoryUsed cheerioAvg))
                    (Binary64.orZero (Binary64.memoryUsed playwrightAvg));
     Binary64.pagesDifference :=
       Binary64.sub (Binary64.pagesProcessed cheerioAvg)
                    (Binary64.pagesProcessed playwrightAvg) |}.

(** A result with the given metrics, for the examples. *)
Definition double_result (crawlerType : CrawlerType)
    (duration pagesProcessed pagesFailed : spec_float)
    (memoryUsed : option spec_float) : Binary64.BenchmarkResult :=
  {| Binary64.crawlerType := crawlerType;
     Binary64.config :=
       {| url := "https://example.com"; maxPages := Some 5; maxDepth := Some 1;
          iterations := Some 1; timeout := Some 30000 |};
     Binary64.metrics :=
       {| Binary64.startTime := double_of_Z 1000;
          Binary64.endTime := SFadd 53 1024 (double_of_Z 1000) duration;
          Binary64.duration := duration;
          Binary64.pagesProcessed := pagesProcessed;
          Binary64.pagesFailed := pagesFailed;
          Binary64.memoryUsed := memoryUsed;
          Binary64.errors := [] |};
     Binary64.results := [];
     Binary64.iteration := 0 |}.

(** Two iterations with memory figures 1 and 1.01. *)
Definition memory_1_and_1_01 : list Binary64.BenchmarkResult :=
  [ double_result playwright (double_of_Z 100) (double_of_Z 1) (double_of_Z 0)
      (Some (double_of_Z 1));
    double_result playwright (double_of_Z 100) (double_of_Z 1) (double_of_Z 0)
      (Some (decimal 101 100)) ].

(** Three iterations of 100, 200 and 300 ms. *)
Definition double_three_durations : list Binary64.BenchmarkResult :=
  [ double_result playwright (double_of_Z 100) (double_of_Z 1) (double_of_Z 0)
      (Some (double_of_Z 1));
    double_result playwright (double_of_Z 200) (double_of_Z 1) (double_of_Z 0)
      (Some (double_of_Z 1));
    double_result playwright (double_of_Z 300) (double_of_Z 1) (double_of_Z 0)
      (Some (double_of_Z 1)) ].

(** One playwright iteration of 3000 ms, 40 MB, 5 pages, and one cheerio
    iteration of 1200 ms, 10 MB, 5 pages. *)
Definition double_scenario_playwright : Binary64.BenchmarkResult :=
  double_result playwright (double_of_Z 3000) (double_of_Z 5) (double_of_Z 0)
    (Some (double_of_Z 40)).


(** ** Arithmetic lemmas *)


Lemma nearest_integer_unique (x : Q) (a b : Z) :
  nearest_integer x a -> nearest_integer x b -> a = b.
Proof.
  unfold nearest_integer. intros [Ha1 Ha2] [Hb1 Hb2].
  assert (Hab : (inject_Z a < inject_Z b + 1)%Q) by lra.
  assert (Hba : (inject_Z b < inject_Z a + 1)%Q) by lra.
  change 1%Q with (inject_Z 1) in Hab, Hba.
  rewrite <- inject_Z_plus in Hab, Hba.
  rewrite <- Zlt_Qlt in Hab, Hba. lia.
Qed.


Lemma Math_round_comp (x y : Q) : (x == y)%Q -> Math_round x = Math_round y.
Proof. intros H. unfold Math_round. now rewrite H. Qed.


Lemma inject_Z_length_nonzero {A} (x : A) (xs : list A) :
  ~ (inject_Z (length_Z (x :: xs)) == 0)%Q.
Proof.
  unfold length_Z. cbn [List.length].
  change 0%Q with (inject_Z 0). rewrite inject_Z_injective. lia.
Qed.

(** ** The [reduce] of [averageResults] *)

Lemma fold_sum_step (rs : list BenchmarkResult) (acc : Sum) :
  let sum := fold_left sum_step rs acc in
  sum_duration sum = sum_duration acc + Zsum (durations rs) /\
  sum_pagesProcessed sum = sum_pagesProcessed acc + Zsum (pages_processed rs) /\
  sum_pagesFailed sum = sum_pagesFailed acc + Zsum (pages_failed rs) /\
  (sum_memoryUsed sum == sum_memoryUsed acc + Qsum (memories rs))%Q /\
  sum_errors sum = sum_errors acc ++ List.concat (error_lists rs).
Proof.
  revert acc. induction rs as [|r rs IH]; intros acc.
  - cbn. repeat split; try lia; try ring. now rewrite app_nil_r.
  - destruct (IH (sum_step acc r)) as (Hd & Hp & Hf & Hm & He).
    cbv zeta. cbn [fold_left].
    split; [|split; [|split; [|split]]].
    + rewrite Hd. unfold durations, Zsum.
      cbn [map fold_right sum_step sum_duration]. lia.
    + rewrite Hp. unfold pages_processed, Zsum.
      cbn [map fold_right sum_step sum_pagesProcessed]. lia.
    + rewrite Hf. unfold pages_failed, Zsum.
      cbn [map fold_right sum_step sum_pagesFailed]. lia.
    + rewrite Hm. unfold memories, Qsum.
      cbn [map fold_right sum_step sum_memoryUsed orZero]. ring.
    + rewrite He. unfold error_lists.
      cbn [map List.concat sum_step sum_errors]. now rewrite app_assoc.
Qed.

Lemma index_first {A} (x : A) (xs : list A) : index (x :: xs) 0 = Return x.
Proof. reflexivity. Qed.

Lemma index_last {A} (x : A) (xs : list A) :
  index (x :: xs) (length_Z (x :: xs) - 1) = Return (last (x :: xs) x).
Proof.
  unfold index, length_Z.
  replace (Z.of_nat (List.length (x :: xs)) - 1) with (Z.of_nat (List.length xs))
    by (cbn [List.length]; lia).
  destruct (Z.of_nat (List.length xs) <? 0) eqn:E; [apply Z.ltb_lt in E; lia|].
  rewrite Nat2Z.id.
  assert (H : forall (ys : list A) (y d : A),
             nth_error (y :: ys) (List.length ys) = Some (last (y :: ys) d)).
  { induction ys as [|z ys IH]; intros y d; [reflexivity|].
    cbn [List.length nth_error]. rewrite (IH z d). reflexivity. }
  now rewrite (H xs x x).
Qed.

Lemma averageResults_cons (r : BenchmarkResult) (rs : list BenchmarkResult) :
  averageResults (r :: rs) = Return (average_of r rs).
Proof.
  unfold averageResults.
  destruct (length_Z (r :: rs) =? 0) eqn:E.
  - apply Z.eqb_eq in E. unfold length_Z in E. cbn [List.length] in E. lia.
  - rewrite index_first, index_last. reflexivity.
Qed.

Lemma averageResults_nil :
  averageResults [] = Throw (ErrorObject "Cannot average empty results").
Proof. reflexivity. Qed.

Lemma averageResults_Return_inv (rs : list BenchmarkResult) (m : BenchmarkMetrics) :
  averageResults rs = Return m -> exists r rs', rs = r :: rs'.
Proof.
  destruct rs as [|r rs']; [discriminate|]. intros _. now exists r, rs'.
Qed.

Lemma last_default_irrelevant {A} (x : A) (xs : list A) (d d' : A) :
  last (x :: xs) d = last (x :: xs) d'.
Proof.
  revert x. induction xs as [|y ys IH]; intros x; [reflexivity|].
  change (last (y :: ys) d = last (y :: ys) d'). apply IH.
Qed.

Lemma length_Z_map {A B} (f : A -> B) (xs : list A) :
  length_Z (map f xs) = length_Z xs.
Proof. unfold length_Z. now rewrite length_map. Qed.

(** The fields of the average, in terms of the means of the inputs. *)
Lemma average_of_fields (r : BenchmarkResult) (rs : list BenchmarkResult) :
  let m := average_of r rs in
  let all := r :: rs in
  startTime m = startTime (metrics r) /\
  endTime m = endTime (metrics (last all r)) /\
  duration m = Math_round (mean_Z (durations all)) /\
  pagesProcessed m = Math_round (mean_Z (pages_processed all)) /\
  pagesFailed m = Math_round (mean_Z (pages_failed all)) /\
  (exists q, memoryUsed m = Some q /\
     (q == inject_Z (Math_round (mean_Q (memories all) * 100)) / 100)%Q) /\
  errors m = List.concat (error_lists all).
Proof.
  cbv zeta.
  destruct (fold_sum_step (r :: rs) sum_init) as (Hd & Hp & Hf & Hm & He).
  cbv zeta in Hd, Hp, Hf, Hm, He.
  unfold average_of.
  cbn [startTime endTime duration pagesProcessed pagesFailed memoryUsed errors].
  rewrite Hd, Hp, Hf, He.
  unfold mean_Z, mean_Q, durations, pages_processed, pages_failed, memories.
  rewrite !length_Z_map.
  cbn [sum_init sum_duration sum_pagesProcessed sum_pagesFailed sum_errors app].
  rewrite !Z.add_0_l.
  repeat split.
  eexists; split; [reflexivity|].
  apply Qdiv_comp; [|reflexivity].
  apply inject_Z_injective, Math_round_comp.
  rewrite Hm. cbn [sum_init sum_memoryUsed]. unfold memories.
  rewrite Qplus_0_l. reflexivity.
Qed.



(** ** [generateComparison] and [generateReport] on well-formed input *)

Lemma generateComparison_cons (p : BenchmarkResult) (ps : list BenchmarkResult)
    (c : BenchmarkResult) (cs : list BenchmarkResult) :
  generateComparison (p :: ps) (c :: cs) = Return (comparison_of p ps c cs).
Proof.
  unfold generateComparison. rewrite !averageResults_cons.
  cbn [cbind]. rewrite !index_first. reflexivity.
Qed.

Lemma nonempty_cons {A} (xs : list A) : xs <> [] -> exists y ys, xs = y :: ys.
Proof. destruct xs as [|y ys]; [congruence|]. intros _. now exists y, ys. Qed.

Lemma CrawlerType_eqb_eq (a b : CrawlerType) : CrawlerType_eqb a b = true <-> a = b.
Proof. destruct a, b; cbn; split; congruence. Qed.

Lemma filter_crawler_nonempty (c : CrawlerType) (rs : list BenchmarkResult) :
  has_crawler c rs <->
  filter (fun r => CrawlerType_eqb (crawlerType r) c) rs <> [].
Proof.
  unfold has_crawler. split.
  - intros (r & Hin & Hc) Hnil.
    assert (Hf : In r (filter (fun r => CrawlerType_eqb (crawlerType r) c) rs)).
    { apply filter_In. split; [exact Hin|]. now apply CrawlerType_eqb_eq. }
    rewrite Hnil in Hf. exact Hf.
  - intros Hne. destruct (nonempty_cons _ Hne) as (y & ys & Hy).
    assert (Hf : In y (filter (fun r => CrawlerType_eqb (crawlerType r) c) rs))
      by (rewrite Hy; now left).
    apply filter_In in Hf. destruct Hf as [Hin Hc].
    exists y. split; [exact Hin|]. now apply CrawlerType_eqb_eq.
Qed.

Lemma length_Z_positive {A} (xs : list A) :
  (0 <? length_Z xs) = true <-> xs <> [].
Proof.
  unfold length_Z. destruct xs as [|x xs]; cbn [List.length]; split.
  - discriminate.
  - congruence.
  - discriminate.
  - intros _. apply Z.ltb_lt. lia.
Qed.

(** [generateReport] in closed form: it never throws, and the comparison is
    computed exactly under the guard of the source. *)
Lemma generateReport_Return (now_iso : string) (rs : list BenchmarkResult)
    (cfg : BenchmarkConfig) :
  exists rep,
    generateReport now_iso rs cfg = Return rep /\
    timestamp rep = now_iso /\ rep_config rep = cfg /\ rep_results rep = rs /\
    (comparison rep <> None <-> has_crawler playwright rs /\ has_crawler cheerio rs).
Proof.
  unfold generateReport.
  pose proof (filter_crawler_nonempty playwright rs) as Hpw.
  pose proof (filter_crawler_nonempty cheerio rs) as Hch.
  destruct (filter (fun r => CrawlerType_eqb (crawlerType r) playwright) rs)
    as [|p ps].
  - cbn. eexists. do 4 (split; [reflexivity|]). cbn. split.
    + congruence.
    + intros [H _]. apply Hpw in H. congruence.
  - destruct (filter (fun r => CrawlerType_eqb (crawlerType r) cheerio) rs)
      as [|c cs].
    + cbn -[Z.ltb]. rewrite andb_false_r. cbn.
      eexists. do 4 (split; [reflexivity|]). cbn. split.
      * congruence.
      * intros [_ H]. apply Hch in H. congruence.
    + assert (Hp : (0 <? length_Z (p :: ps)) = true)
        by (apply length_Z_positive; discriminate).
      assert (Hc : (0 <? length_Z (c :: cs)) = true)
        by (apply length_Z_positive; discriminate).
      rewrite Hp, Hc, generateComparison_cons. cbn.
      eexists. do 4 (split; [reflexivity|]). cbn. split.
      * intros _. split; [apply Hpw|apply Hch]; discriminate.
      * discriminate.
Qed.

(** ** The sampler *)

Section RunnerFacts.

Variable env : Env.

Lemma getMemoryUsage_run (s : State) :
  getMemoryUsage env s =
  (memory_reading env (heap_reads s),
   {| clock_reads := clock_reads s;
      heap_reads := next_heap env (heap_reads s);
      iso_reads := iso_reads s;
      crawl_calls := crawl_calls s;
      peakMemory := peakMemory s |}).
Proof.
  unfold getMemoryUsage, memory_reading, next_heap.
  destruct (has_memoryUsage env); [reflexivity|].
  destruct s; reflexivity.
Qed.

Lemma trackPeakMemory_run (s : State) :
  trackPeakMemory env s = (tt, track_state env s).
Proof.
  unfold trackPeakMemory, bind. rewrite getMemoryUsage_run.
  unfold get_peakMemory, track_state, raise.
  cbn [peakMemory].
  destruct (gtb (memory_reading env (heap_reads s)) (peakMemory s)); reflexivity.
Qed.

Lemma interval_ticks_run (n : nat) (s : State) :
  interval_ticks env n s = (tt, ticks_state env n s).
Proof.
  revert s. induction n as [|k IH]; intros s; [reflexivity|].
  cbn [interval_ticks ticks_state]. unfold bind.
  rewrite trackPeakMemory_run. apply IH.
Qed.

Lemma ticks_state_snoc (n : nat) (s : State) :
  ticks_state env (S n) s = track_state env (ticks_state env n s).
Proof.
  revert s. induction n as [|k IH]; intros s; [reflexivity|].
  change (ticks_state env (S (S k)) s)
    with (ticks_state env (S k) (track_state env s)).
  rewrite IH. reflexivity.
Qed.

(** The sampler touches the heap counter and [peakMemory] only, and
    [peakMemory] ends as the running maximum of the figures read. *)
Lemma ticks_state_fields (n : nat) (s : State) :
  clock_reads (ticks_state env n s) = clock_reads s /\
  iso_reads (ticks_state env n s) = iso_reads s /\
  crawl_calls (ticks_state env n s) = crawl_calls s /\
  peakMemory (ticks_state env n s) =
    fold_left raise (samples_from env (heap_reads s) n) (peakMemory s).
Proof.
  revert s. induction n as [|k IH]; intros s; [now repeat split|].
  cbn [ticks_state samples_from fold_left].
  destruct (IH (track_state env s)) as (Hc & Hi & Hr & Hp).
  rewrite Hc, Hi, Hr, Hp. now repeat split.
Qed.

Lemma raise_is_max (peak current : Q) : (raise peak current == Qmax peak current)%Q.
Proof.
  unfold raise, gtb.
  destruct (Qle_bool current peak) eqn:E; cbn [negb].
  - apply Qle_bool_iff in E. symmetry. now apply Q.max_l.
  - symmetry. apply Q.max_r.
    destruct (Qlt_le_dec peak current) as [H|H]; [now apply Qlt_le_weak|].
    apply Qle_bool_iff in H. congruence.
Qed.

Lemma raise_comp (p p' c : Q) : (p == p')%Q -> (raise p c == raise p' c)%Q.
Proof.
  intros H. rewrite !raise_is_max. now rewrite H.
Qed.

Lemma fold_raise_is_peak (samples : list Q) (p p' : Q) :
  (p == p')%Q -> (fold_left raise samples p == peak_of p' samples)%Q.
Proof.
  unfold peak_of. revert p p'.
  induction samples as [|c cs IH]; intros p p' H; [exact H|].
  cbn [fold_left]. apply IH. rewrite raise_is_max. now rewrite H.
Qed.

Lemma peak_of_ge (samples : list Q) (p : Q) : (p <= peak_of p samples)%Q.
Proof.
  unfold peak_of. revert p.
  induction samples as [|c cs IH]; intros p; [apply Qle_refl|].
  cbn [fold_left]. eapply Qle_trans; [|apply IH]. apply Q.le_max_l.
Qed.

(** One iteration in closed form: two clock readings, one baseline reading,
    then one sample per timer tick and the final forced sample. *)
Lemma runBenchmark_run (c : CrawlerType) (cfg : BenchmarkConfig) (i : Z)
    (s : State) (ticks : nat) (settled : Settlement) :
  crawl_at env (crawl_calls s) c (url cfg) (crawl_options cfg) = (ticks, settled) ->
  let baseline := memory_reading env (heap_reads s) in
  let samples := samples_from env (next_heap env (heap_reads s)) (S ticks) in
  fst (runBenchmark env c cfg i s) =
  iteration_result c cfg i
    (Date_now_at env (clock_reads s)) (Date_now_at env (S (clock_reads s)))
    baseline (fold_left raise samples baseline) settled.
Proof.
  intros Hcrawl. cbv zeta.
  unfold runBenchmark, bind, Date_now. rewrite getMemoryUsage_run.
  unfold set_peakMemory, await_crawl.
  cbn [clock_reads heap_reads iso_reads crawl_calls peakMemory].
  fold (crawl_options cfg). rewrite Hcrawl.
  rewrite interval_ticks_run.
  destruct settled as [items|error];
    rewrite trackPeakMemory_run, <- ticks_state_snoc.
  - rewrite getMemoryUsage_run. unfold get_peakMemory, ret.
    cbn [fst peakMemory clock_reads iteration_result].
    destruct (ticks_state_fields (S ticks)
      {| clock_reads := S (clock_reads s);
         heap_reads := next_heap env (heap_reads s);
         iso_reads := iso_reads s;
         crawl_calls := S (crawl_calls s);
         peakMemory := memory_reading env (heap_reads s) |}) as (Hc & _ & _ & Hp).
    rewrite Hc, Hp. reflexivity.
  - unfold get_peakMemory, ret.
    cbn [fst peakMemory clock_reads iteration_result].
    destruct (ticks_state_fields (S ticks)
      {| clock_reads := S (clock_reads s);
         heap_reads := next_heap env (heap_reads s);
         iso_reads := iso_reads s;
         crawl_calls := S (crawl_calls s);
         peakMemory := memory_reading env (heap_reads s) |}) as (Hc & _ & _ & Hp).
    rewrite Hc, Hp. reflexivity.
Qed.

End RunnerFacts.

(** ** The run loop *)

Section RunLoopFacts.

Variable env : Env.

Lemma runBenchmark_label (c : CrawlerType) (cfg : BenchmarkConfig) (i : Z)
    (s : State) :
  label (fst (runBenchmark env c cfg i s)) = (c, i).
Proof.
  destruct (crawl_at env (crawl_calls s) c (url cfg) (crawl_options cfg))
    as [ticks settled] eqn:E.
  rewrite (runBenchmark_run env c cfg i s ticks settled E).
  destruct settled; reflexivity.
Qed.

Lemma iteration_labels_S (c : CrawlerType) (first : Z) (n : nat) :
  iteration_labels c first (S n) = (c, first) :: iteration_labels c (first + 1) n.
Proof.
  unfold iteration_labels. cbn [seq map].
  rewrite Z.add_0_r. f_equal.
  rewrite <- seq_shift, map_map.
  apply map_ext. intros j. f_equal. lia.
Qed.

Lemma iteration_loop_labels (n : nat) (c : CrawlerType) (cfg : BenchmarkConfig)
    (i : Z) (acc : list BenchmarkResult) (s : State) :
  map label (fst (iteration_loop env n c cfg i acc s)) =
  map label acc ++ iteration_labels c i n.
Proof.
  revert i acc s. induction n as [|k IH]; intros i acc s.
  - cbn. now rewrite app_nil_r.
  - cbn [iteration_loop]. unfold bind.
    pose proof (runBenchmark_label c cfg i s) as Hl.
    destruct (runBenchmark env c cfg i s) as [r s1]. cbn [fst] in Hl.
    rewrite IH, map_app, iteration_labels_S. cbn [map].
    rewrite Hl, <- app_assoc. reflexivity.
Qed.

Lemma crawler_loop_labels (cs : list CrawlerType) (cfg : BenchmarkConfig)
    (acc : list BenchmarkResult) (s : State) :
  map label (fst (crawler_loop env cs cfg acc s)) =
  map label acc ++
  flat_map (fun c => iteration_labels c 0 (iteration_count cfg)) cs.
Proof.
  revert acc s. induction cs as [|c cs IH]; intros acc s.
  - cbn. now rewrite app_nil_r.
  - cbn [crawler_loop flat_map]. unfold bind.
    pose proof (iteration_loop_labels (iteration_count cfg) c cfg 0 acc s) as Hl.
    destruct (iteration_loop env (iteration_count cfg) c cfg 0 acc s) as [rs s1].
    cbn [fst] in Hl. rewrite IH, Hl, <- app_assoc. reflexivity.
Qed.

(** A run always ends with a report, whose results are those the loop
    collected. *)
Lemma runBenchmarks_report (crawler : CrawlerSelection) (cfg : BenchmarkConfig)
    (s : State) :
  exists rep,
    fst (runBenchmarks env crawler cfg s) = Return rep /\
    rep_results rep =
      fst (crawler_loop env
             match crawler with both => [playwright; cheerio] | only c => [c] end
             cfg [] s).
Proof.
  unfold runBenchmarks, bind.
  destruct (crawler_loop env _ cfg [] s) as [rs s1].
  unfold toISOString_now, ret. cbn [fst].
  destruct (generateReport_Return (toISOString_at env (iso_reads s1)) rs cfg)
    as (rep & Hrep & _ & _ & Hrs & _).
  exists rep. split; [exact Hrep|exact Hrs].
Qed.

End RunLoopFacts.

(** ** Arithmetic of doubles *)

(** A finite double of the representation is normal, with a mantissa of 53
    bits, or has the smallest exponent. *)
Lemma valid_finite (s : bool) (m : positive) (e : Z) :
  valid_double (S754_finite s m e) ->
  e <= 971 /\
  ((Zpos (digits2_pos m) = 53 /\ -1074 < e) \/
   (Zpos (digits2_pos m) <= 53 /\ e = -1074)).
Proof.
  unfold valid_double, valid_binary, bounded, canonical_mantissa, fexp, emin.
  intros H. apply andb_true_iff in H. destruct H as [Hc Hb].
  apply Z.eqb_eq in Hc. apply Z.leb_le in Hb. lia.
Qed.

(** The mantissa of 1 is [2^52]: shifting by at least 52 bits before
    dividing by it leaves no remainder. *)
Lemma shiftl_div (m : positive) (k : Z) :
  52 <= k ->
  Z.div_eucl (Z.shiftl (Zpos m) k) 4503599627370496 = (Zpos m * 2 ^ (k - 52), 0).
Proof.
  intros Hk. rewrite Z.shiftl_mul_pow2 by lia.
  pose proof (Z.div_eucl_eq (Zpos m * 2 ^ k) 4503599627370496 ltac:(lia)) as Heq.
  pose proof (Z.mod_pos_bound (Zpos m * 2 ^ k) 4503599627370496 ltac:(lia)) as Hb.
  unfold Z.modulo in Hb.
  destruct (Z.div_eucl (Zpos m * 2 ^ k) 4503599627370496) as [q r].
  replace (2 ^ k) with (4503599627370496 * 2 ^ (k - 52)) in Heq
    by (change 4503599627370496 with (2 ^ 52); rewrite <- Z.pow_add_r by lia;
        f_equal; lia).
  assert (Hpos : 0 < 2 ^ (k - 52)) by (apply Z.pow_pos_nonneg; lia).
  assert (q = Zpos m * 2 ^ (k - 52) /\ r = 0) as [-> ->] by nia.
  reflexivity.
Qed.

(** Dividing by 1 is exact. *)
Lemma div_one (x : spec_float) :
  valid_double x -> SFdiv 53 1024 x (double_of_Z 1) = x.
Proof.
  intros Hv.
  change (double_of_Z 1) with (S754_finite false 4503599627370496 (-52)).
  destruct x as [s|s| |s m e]; try reflexivity.
  - cbn. now destruct s.
  - cbn. now destruct s.
  - destruct (valid_finite s m e Hv) as [Hmax Hcases].
    unfold SFdiv, SFdiv_core_binary.
    rewrite xorb_false_r.
    change (Zdigits2 (Zpos m)) with (Zpos (digits2_pos m)).
    change (Zdigits2 4503599627370496) with 53.
    set (d := Zpos (digits2_pos m)) in *.
    destruct Hcases as [[Hd He]|[Hd He]].
    + assert (E' : Z.min (fexp 53 1024 (d + e - (53 + -52)))
                     (e - -52) = e - 1)
        by (unfold fexp, emin; lia).
      rewrite E'. replace (e - -52 - (e - 1)) with 53 by lia.
      cbv beta iota zeta.
      rewrite (shiftl_div m 53) by lia.
      change (2 ^ (53 - 52)) with 2. replace (Zpos m * 2) with (Zpos (xO m)) by lia.
      change (new_location 4503599627370496 0) with loc_Exact.
      unfold binary_round_aux, shr_fexp.
      change (Zdigits2 (Zpos (xO m))) with (Zpos (Pos.succ (digits2_pos m))).
      rewrite Pos2Z.inj_succ. fold d.
      replace (fexp 53 1024 (Z.succ d + (e - 1)) - (e - 1)) with 1
        by (unfold fexp, emin; lia).
      cbn [shr shr_record_of_loc iter_pos shr_1 shr_m shr_r shr_s loc_of_shr_record
           round_nearest_even orb].
      change (Zdigits2 (Zpos m)) with d.
      replace (e - 1 + 1) with e by lia.
      replace (fexp 53 1024 (d + e) - e) with 0
        by (unfold fexp, emin; lia).
      cbn [shr shr_m].
      assert (Hle : (e <=? 1024 - 53) = true)
        by (apply Z.leb_le; lia).
      now rewrite Hle.
    + assert (E' : Z.min (fexp 53 1024 (d + e - (53 + -52)))
                     (e - -52) = -1074)
        by (unfold fexp, emin; lia).
      rewrite E'. replace (e - -52 - -1074) with 52 by lia.
      cbv beta iota zeta.
      rewrite (shiftl_div m 52) by lia.
      change (2 ^ (52 - 52)) with 1. rewrite Z.mul_1_r.
      change (new_location 4503599627370496 0) with loc_Exact.
      unfold binary_round_aux, shr_fexp.
      change (Zdigits2 (Zpos m)) with d.
      replace (fexp 53 1024 (d + -1074) - -1074) with 0
        by (unfold fexp, emin; lia).
      cbn [shr shr_record_of_loc shr_m shr_r shr_s loc_of_shr_record round_nearest_even].
      change (Zdigits2 (Zpos m)) with d.
      replace (fexp 53 1024 (d + -1074) - -1074) with 0
        by (unfold fexp, emin; lia).
      cbn [shr shr_m].
      subst e. reflexivity.
Qed.

(** Adding to [+0] changes nothing but the sign of [-0]. *)
Lemma add_zero_l (x : spec_float) :
  SFadd 53 1024 (S754_zero false) x = unsigned_zero x.
Proof. destruct x as [[|]|[|]| |s m e]; reflexivity. Qed.

Lemma unsigned_zero_valid (x : spec_float) :
  valid_double x -> valid_double (unsigned_zero x).
Proof. destruct x; intros H; try exact H; reflexivity. Qed.

Lemma counted_memory_valid (x : option spec_float) :
  match x with Some v => valid_double v | None => True end ->
  valid_double (counted_memory x).
Proof. destruct x as [[ | | | ]|]; intros H; try exact H; reflexivity. Qed.

Lemma counted_memory_unsigned (x : option spec_float) :
  unsigned_zero (counted_memory x) = counted_memory x.
Proof. destruct x as [[ | | | ]|]; reflexivity. Qed.

Lemma orZero_counted (x : option spec_float) :
  Binary64.orZero x = counted_memory x.
Proof. destruct x as [[ | | | ]|]; reflexivity. Qed.

(** [Binary64.Math_round] rounds. *)
Lemma Math_round_rounds (x : spec_float) : rounds_to x (Binary64.Math_round x).
Proof.
  destruct x as [s|s| |s m e]; try reflexivity.
  destruct e as [|p|p]; [reflexivity|reflexivity|].
  unfold rounds_to, Binary64.Math_round.
  change (0 <=? Zneg p) with false. cbv beta iota zeta.
  set (signed := if s then Zneg m else Zpos m).
  set (z := (2 * signed + 2 ^ Zpos p) / 2 ^ (Zpos p + 1)).
  exists z. split; [|reflexivity].
  unfold exact_of. change (0 <=? Zneg p) with false. cbv beta iota zeta.
  fold signed. change (- Zneg p) with (Zpos p).
  assert (HD : 0 < 2 ^ Zpos p) by (apply Z.pow_pos_nonneg; lia).
  assert (Hpow : 2 ^ (Zpos p + 1) = 2 * 2 ^ Zpos p)
    by (rewrite Z.pow_add_r by lia; change (2 ^ 1) with 2; lia).
  pose proof (Z.mul_div_le (2 * signed + 2 ^ Zpos p) (2 ^ (Zpos p + 1)) ltac:(lia)) as Hlo.
  pose proof (Z.mul_succ_div_gt (2 * signed + 2 ^ Zpos p) (2 ^ (Zpos p + 1)) ltac:(lia)) as Hhi.
  fold z in Hlo, Hhi. rewrite Hpow in Hlo, Hhi.
  set (D := 2 ^ Zpos p) in *. clearbody D z signed.
  assert (HDq : (0 < inject_Z D)%Q) by (change 0%Q with (inject_Z 0); now rewrite <- Zlt_Qlt).
  unfold nearest_integer. split.
  - apply Qle_shift_div_l; [exact HDq|].
    assert (H : 2 * z * D <= 2 * signed + D) by nia.
    rewrite Zle_Qle in H. rewrite inject_Z_plus, !inject_Z_mult in H.
    change (inject_Z 2) with 2%Q in H. change (inject_Z 1) with 1%Q in H. lra.
  - apply Qlt_shift_div_r; [exact HDq|].
    assert (H : 2 * signed < 2 * z * D + D) by nia.
    rewrite Zlt_Qlt in H. rewrite inject_Z_plus, !inject_Z_mult in H.
    change (inject_Z 2) with 2%Q in H. change (inject_Z 1) with 1%Q in H. lra.
Qed.

Lemma rounds_to_unique (x y y' : spec_float) :
  rounds_to x y -> rounds_to x y' -> y = y'.
Proof.
  unfold rounds_to. destruct x as [s|s| |s m e]; try congruence.
  destruct (0 <=? e); [congruence|].
  intros (z & Hz & ->) (z' & Hz' & ->).
  now rewrite (nearest_integer_unique _ _ _ Hz Hz').
Qed.

Lemma rounds_to_2dp_unique (x y y' : spec_float) :
  rounds_to_2dp x y -> rounds_to_2dp x y' -> y = y'.
Proof.
  intros (k & Hk & ->) (k' & Hk' & ->).
  now rewrite (rounds_to_unique _ _ _ Hk Hk').
Qed.

(** ** The [reduce] of [Binary64.averageResults] *)

Lemma fold_double_sum_step (rs : list Binary64.BenchmarkResult) (acc : Binary64.Sum) :
  let sum := fold_left Binary64.sum_step rs acc in
  Binary64.sum_duration sum
    = double_sum_from (Binary64.sum_duration acc) (double_durations rs) /\
  Binary64.sum_pagesProcessed sum
    = double_sum_from (Binary64.sum_pagesProcessed acc) (double_pages_processed rs) /\
  Binary64.sum_pagesFailed sum
    = double_sum_from (Binary64.sum_pagesFailed acc) (double_pages_failed rs) /\
  Binary64.sum_memoryUsed sum
    = memory_sum_from (Binary64.sum_memoryUsed acc) (double_memories rs).
Proof.
  revert acc. induction rs as [|r rs IH]; intros acc; [now repeat split|].
  destruct (IH (Binary64.sum_step acc r)) as (Hd & Hp & Hf & Hm).
  cbv zeta in *. cbn [fold_left].
  rewrite Hd, Hp, Hf, Hm.
  unfold double_durations, double_pages_processed, double_pages_failed, double_memories.
  cbn [map double_sum_from memory_sum_from Binary64.sum_step Binary64.sum_duration
       Binary64.sum_pagesProcessed Binary64.sum_pagesFailed Binary64.sum_memoryUsed].
  rewrite !orZero_counted. now repeat split.
Qed.

Lemma double_averageResults_cons (r : Binary64.BenchmarkResult)
    (rs : list Binary64.BenchmarkResult) :
  Binary64.averageResults (r :: rs) = Return (double_average_of r rs).
Proof.
  unfold Binary64.averageResults.
  destruct (length_Z (r :: rs) =? 0) eqn:E.
  - apply Z.eqb_eq in E. unfold length_Z in E. cbn [List.length] in E. lia.
  - rewrite index_first, index_last. reflexivity.
Qed.

Lemma double_generateComparison_cons
    (p : Binary64.BenchmarkResult) (ps : list Binary64.BenchmarkResult)
    (c : Binary64.BenchmarkResult) (cs : list Binary64.BenchmarkResult) :
  Binary64.generateComparison (p :: ps) (c :: cs)
  = Return (double_comparison_of p ps c cs).
Proof.
  unfold Binary64.generateComparison. rewrite !double_averageResults_cons.
  cbn [cbind]. rewrite !index_first. reflexivity.
Qed.

(** The fields of the average, in terms of the means of the inputs. *)
Lemma double_average_of_fields (r : Binary64.BenchmarkResult)
    (rs : list Binary64.BenchmarkResult) :
  let m := double_average_of r rs in
  let all := r :: rs in
  Binary64.startTime m = Binary64.startTime (Binary64.metrics r) /\
  Binary64.endTime m = Binary64.endTime (Binary64.metrics (last all r)) /\
  Binary64.duration m = Binary64.Math_round (double_mean (double_durations all)) /\
  Binary64.pagesProcessed m
    = Binary64.Math_round (double_mean (double_pages_processed all)) /\
  Binary64.pagesFailed m
    = Binary64.Math_round (double_mean (double_pages_failed all)) /\
  Binary64.memoryUsed m
    = Some (SFdiv 53 1024
              (Binary64.Math_round
                 (SFmul 53 1024 (memory_mean (double_memories all)) (double_of_Z 100)))
              (double_of_Z 100)).
Proof.
  cbv zeta.
  destruct (fold_double_sum_step (r :: rs) Binary64.sum_init) as (Hd & Hp & Hf & Hm).
  cbv zeta in Hd, Hp, Hf, Hm.
  unfold double_average_of.
  cbn [Binary64.startTime Binary64.endTime Binary64.duration Binary64.pagesProcessed
       Binary64.pagesFailed Binary64.memoryUsed].
  rewrite Hd, Hp, Hf, Hm.
  unfold double_mean, memory_mean, double_durations, double_pages_processed,
    double_pages_failed, double_memories.
  rewrite !length_Z_map. now repeat split.
Qed.

(** The average of a single result whose numbers are doubles of the
    representation. *)
Lemma double_average_of_singleton (r : Binary64.BenchmarkResult) :
  valid_metrics (Binary64.metrics r) ->
  let m := double_average_of r [] in
  Binary64.startTime m = Binary64.startTime (Binary64.metrics r) /\
  Binary64.endTime m = Binary64.endTime (Binary64.metrics r) /\
  Binary64.errors m = Binary64.errors (Binary64.metrics r) /\
  Binary64.duration m
    = Binary64.Math_round (unsigned_zero (Binary64.duration (Binary64.metrics r))) /\
  Binary64.pagesProcessed m
    = Binary64.Math_round (unsigned_zero (Binary64.pagesProcessed (Binary64.metrics r))) /\
  Binary64.pagesFailed m
    = Binary64.Math_round (unsigned_zero (Binary64.pagesFailed (Binary64.metrics r))) /\
  Binary64.memoryUsed m
    = Some (SFdiv 53 1024
              (Binary64.Math_round
                 (SFmul 53 1024 (counted_memory (Binary64.memoryUsed (Binary64.metrics r)))
                    (double_of_Z 100)))
              (double_of_Z 100)).
Proof.
  intros (Vd & Vp & Vf & Vm). cbv zeta.
  destruct (double_average_of_fields r []) as (Hs & He & Hd & Hp & Hf & Hm).
  cbv zeta in Hs, He, Hd, Hp, Hf, Hm.
  rewrite Hs, He, Hd, Hp, Hf, Hm.
  unfold double_mean, memory_mean, double_durations, double_pages_processed,
    double_pages_failed, double_memories.
  cbn [map double_sum_from memory_sum_from last length_Z List.length Z.of_nat
       Pos.of_succ_nat counted_memory].
  rewrite !add_zero_l.
  rewrite counted_memory_unsigned.
  rewrite !div_one
    by (apply unsigned_zero_valid; assumption) || (now apply counted_memory_valid).
  repeat split.
Qed.

(** ** The aggregator *)

(** C2, as stated: [memoryUsed] of the average is the mean of the inputs'
    [memoryUsed] rounded to two decimal places.  With memory figures 1 and
    1.01 the mean is a little above 1.005, which rounds to 1.01; the code
    computes the mean times 100 as a double just below 100.5 and returns
    1. *)
Lemma averageResults_memory_not_rounded_mean :
  ~ (exists m q,
       Binary64.averageResults memory_1_and_1_01 = Return m /\
       Binary64.memoryUsed m = Some q /\
       rounded_2dp (mean_Q (exact_memories memory_1_and_1_01)) (exact_of q)).
Proof.
  intros (m & q & Hm & Hq & k & Hk & _ & Hlt).
  unfold memory_1_and_1_01 in Hm. rewrite double_averageResults_cons in Hm.
  injection Hm as <-. vm_compute in Hq. injection Hq as <-.
  assert (Ek : k = 100).
  { apply inject_Z_injective.
    assert (H1 : (exact_of (S754_finite false 4503599627370496 (-52)) == 1)%Q)
      by reflexivity.
    rewrite H1 in Hk.
    transitivity (inject_Z k / 100 * 100)%Q; [field|].
    rewrite <- Hk. reflexivity. }
  subst k. revert Hlt. apply Qle_not_lt. vm_compute. discriminate.
Qed.

(** What the code returns there: 1. *)
Example averageResults_memory_1_and_1_01 :
  exists m,
    Binary64.averageResults memory_1_and_1_01 = Return m /\
    Binary64.memoryUsed m = Some (double_of_Z 1).
Proof.
  eexists. split; [apply double_averageResults_cons|]. vm_compute. reflexivity.
Qed.

(** C2, amended.  On every non-empty list [averageResults] returns metrics
    whose [duration], [pagesProcessed] and [pagesFailed] are each the mean
    of the inputs' field rounded to the nearest integer, and whose
    [memoryUsed] is the mean times 100, rounded to the nearest integer,
    divided by 100; the mean is the one double arithmetic gives (the inputs
    added one by one from the left to 0, every sum rounded, then divided by
    the number of results; for memory an absent figure, NaN and a partial
    sum that is NaN count as 0), and product and quotient by 100 are rounded
    too.  [startTime] is that of the first result and [endTime] that of the
    last result in list order; durations 100, 200, 300 average to 200. *)
Theorem averageResults_means (results : list Binary64.BenchmarkResult)
    (d : Binary64.BenchmarkResult) (Hne : results <> []) :
  exists m,
    Binary64.averageResults results = Return m /\
    rounds_to (double_mean (double_durations results)) (Binary64.duration m) /\
    rounds_to (double_mean (double_pages_processed results))
      (Binary64.pagesProcessed m) /\
    rounds_to (double_mean (double_pages_failed results)) (Binary64.pagesFailed m) /\
    (exists q, Binary64.memoryUsed m = Some q /\
               rounds_to_2dp (memory_mean (double_memories results)) q) /\
    Binary64.startTime m = Binary64.startTime (Binary64.metrics (hd d results)) /\
    Binary64.endTime m = Binary64.endTime (Binary64.metrics (last results d)) /\
    (double_durations results
       = [double_of_Z 100; double_of_Z 200; double_of_Z 300] ->
     Binary64.duration m = double_of_Z 200).
Proof.
  destruct (nonempty_cons results Hne) as (r & rs & ->).
  exists (double_average_of r rs). split; [apply double_averageResults_cons|].
  destruct (double_average_of_fields r rs) as (Hs & He & Hd & Hp & Hf & Hm).
  cbv zeta in Hs, He, Hd, Hp, Hf, Hm.
  rewrite Hd, Hp, Hf, Hs, He, Hm.
  repeat (split; [apply Math_round_rounds|]).
  split; [|split; [reflexivity|split]].
  - eexists. split; [reflexivity|].
    eexists. split; [apply Math_round_rounds|reflexivity].
  - now rewrite (last_default_irrelevant r rs r d).
  - intros H. rewrite H. vm_compute. reflexivity.
Qed.

Lemma averageResults_means_witness :
  double_three_durations <> [] /\
  exists m,
    Binary64.averageResults double_three_durations = Return m /\
    Binary64.duration m = double_of_Z 200.
Proof.
  split; [discriminate|].
  destruct (averageResults_means double_three_durations double_scenario_playwright)
    as (m & Hm & _ & _ & _ & _ & _ & _ & H200); [discriminate|].
  exists m. split; [exact Hm|]. apply H200. reflexivity.
Defined.

(** The integer fields are rounded means of doubles in the same way: for
    durations 1 and 2 - 2^-52 the mean is just below 1.5, which rounds to 1;
    the sum of the two doubles is rounded to 3, and the code returns 2. *)
Example averageResults_duration_not_rounded_mean :
  let d1 := double_of_Z 1 in
  let d2 := S754_finite false 9007199254740991 (-52) in
  exists m,
    Binary64.averageResults
      [double_result playwright d1 (double_of_Z 1) (double_of_Z 0) None;
       double_result playwright d2 (double_of_Z 1) (double_of_Z 0) None]
      = Return m /\
    Binary64.duration m = double_of_Z 2 /\
    nearest_integer (mean_Q [exact_of d1; exact_of d2]) 1.
Proof.
  cbv zeta. eexists. split; [apply double_averageResults_cons|].
  split; [vm_compute; reflexivity|].
  split; vm_compute; [discriminate|reflexivity].
Qed.

(** The sum is taken in list order, and the order shows: memory figures
    0.01, 0.01, 0.12, 0.08 average to 0.05, and to 0.06 when the list is
    reversed. *)
Example averageResults_memory_order :
  let figures := [decimal 1 100; decimal 1 100; decimal 12 100; decimal 8 100] in
  let iterations l :=
    map (fun x => double_result playwright (double_of_Z 100) (double_of_Z 1)
                    (double_of_Z 0) (Some x)) l in
  exists m m',
    Binary64.averageResults (iterations figures) = Return m /\
    Binary64.averageResults (iterations (rev figures)) = Return m' /\
    Binary64.memoryUsed m = Some (decimal 5 100) /\
    Binary64.memoryUsed m' = Some (decimal 6 100).
Proof.
  cbv zeta. eexists. eexists.
  split; [apply double_averageResults_cons|].
  split; [apply double_averageResults_cons|].
  split; vm_compute; reflexivity.
Qed.

(** The first and last results are taken by position, not by value: with
    start times 50 then 10 and end times 90 then 20, the average starts at
    50 and ends at 20. *)
Example averageResults_by_list_order :
  exists m,
    averageResults
      [ example_result playwright 0 50 90 1 0 None [];
        example_result playwright 1 10 20 1 0 None [] ] = Return m /\
    startTime m = 50 /\ endTime m = 20.
Proof. eexists. split; [apply averageResults_cons|]. split; reflexivity. Qed.

(** C4.  [averageResults] throws on the empty list, with the message of the
    source, and the empty list is the only input on which it throws. *)
Theorem averageResults_empty_throws :
  averageResults [] = Throw (ErrorObject "Cannot average empty results") /\
  forall results,
    (exists e, averageResults results = Throw e) <-> results = [].
Proof.
  split; [reflexivity|]. intros results. split.
  - intros [e He]. destruct results as [|r rs]; [reflexivity|].
    rewrite averageResults_cons in He. discriminate.
  - intros ->. eexists. reflexivity.
Qed.

(** C5, as stated: the average of a single result has that result's own
    metrics.  It fails on a result without [memoryUsed]: the average carries
    a [memoryUsed] of 0. *)
Lemma averageResults_singleton_not_identity :
  ~ (exists m, averageResults [result_without_memory] = Return m /\
               same_metrics m (metrics result_without_memory)).
Proof.
  intros (m & Hm & Hsame). rewrite averageResults_cons in Hm.
  injection Hm as <-.
  destruct Hsame as (_ & _ & _ & _ & _ & Hmem & _). exact Hmem.
Qed.

(** It also fails on a present [memoryUsed] with more than two decimals:
    1.234 comes back as 1.23. *)
Example averageResults_singleton_rounds_memory :
  exists m q,
    averageResults [result_three_decimals] = Return m /\
    memoryUsed m = Some q /\ (q == 123 # 100)%Q /\
    ~ same_metrics m (metrics result_three_decimals).
Proof.
  eexists. eexists. split; [apply averageResults_cons|].
  split; [reflexivity|]. split; [reflexivity|].
  intros (_ & _ & _ & _ & _ & Hmem & _). vm_compute in Hmem. discriminate.
Qed.

(** Averaging one result rounds it: a duration of 1.5 comes back as 2 and a
    memory figure of 0.015 as 0.02. *)
Example averageResults_singleton_rounds :
  exists m,
    Binary64.averageResults
      [double_result playwright (decimal 3 2) (double_of_Z 1) (double_of_Z 0)
         (Some (decimal 15 1000))] = Return m /\
    Binary64.duration m = double_of_Z 2 /\
    Binary64.memoryUsed m = Some (decimal 2 100).
Proof.
  eexists. split; [apply double_averageResults_cons|].
  split; vm_compute; reflexivity.
Qed.

(** C5, amended.  The average of a single result keeps its [startTime],
    [endTime] and [errors].  Its [duration], [pagesProcessed] and
    [pagesFailed] are the result's, rounded to the nearest integer (and [+0]
    for [-0]); its [memoryUsed] is the result's [memoryUsed], 0 when absent
    or NaN, times 100, rounded to the nearest integer, divided by 100.  So
    the metrics are the result's own exactly when these roundings change
    nothing and [memoryUsed] is present: durations and counts that
    [Math.round] leaves as they are (integers other than [-0], NaN, the
    infinities), and a memory figure that [Math.round(x * 100) / 100] gives
    back. *)
Theorem averageResults_singleton (r : Binary64.BenchmarkResult)
    (Hvalid : valid_metrics (Binary64.metrics r)) :
  exists m,
    Binary64.averageResults [r] = Return m /\
    Binary64.startTime m = Binary64.startTime (Binary64.metrics r) /\
    Binary64.endTime m = Binary64.endTime (Binary64.metrics r) /\
    Binary64.errors m = Binary64.errors (Binary64.metrics r) /\
    rounds_to (unsigned_zero (Binary64.duration (Binary64.metrics r)))
      (Binary64.duration m) /\
    rounds_to (unsigned_zero (Binary64.pagesProcessed (Binary64.metrics r)))
      (Binary64.pagesProcessed m) /\
    rounds_to (unsigned_zero (Binary64.pagesFailed (Binary64.metrics r)))
      (Binary64.pagesFailed m) /\
    (exists q,
       Binary64.memoryUsed m = Some q /\
       rounds_to_2dp
         (match Binary64.memoryUsed (Binary64.metrics r) with
          | None => S754_zero false
          | Some x => counted_memory (Some x)
          end) q) /\
    (m = Binary64.metrics r <->
     rounds_to (unsigned_zero (Binary64.duration (Binary64.metrics r)))
       (Binary64.duration (Binary64.metrics r)) /\
     rounds_to (unsigned_zero (Binary64.pagesProcessed (Binary64.metrics r)))
       (Binary64.pagesProcessed (Binary64.metrics r)) /\
     rounds_to (unsigned_zero (Binary64.pagesFailed (Binary64.metrics r)))
       (Binary64.pagesFailed (Binary64.metrics r)) /\
     exists x,
       Binary64.memoryUsed (Binary64.metrics r) = Some x /\
       rounds_to_2dp (counted_memory (Some x)) x).
Proof.
  exists (double_average_of r []). split; [apply double_averageResults_cons|].
  destruct (double_average_of_singleton r Hvalid) as (Hs & He & Hr & Hd & Hp & Hf & Hm).
  cbv zeta in Hs, He, Hr, Hd, Hp, Hf, Hm.
  assert (Hround2 :
    rounds_to_2dp (counted_memory (Binary64.memoryUsed (Binary64.metrics r)))
      (SFdiv 53 1024
         (Binary64.Math_round
            (SFmul 53 1024 (counted_memory (Binary64.memoryUsed (Binary64.metrics r)))
               (double_of_Z 100)))
         (double_of_Z 100))).
  { eexists. split; [apply Math_round_rounds|reflexivity]. }
  remember (SFdiv 53 1024
              (Binary64.Math_round
                 (SFmul 53 1024
                    (counted_memory (Binary64.memoryUsed (Binary64.metrics r)))
                    (double_of_Z 100)))
              (double_of_Z 100)) as q0 eqn:Eq0.
  clear Eq0.
  do 3 (split; [assumption|]).
  split; [rewrite Hd; apply Math_round_rounds|].
  split; [rewrite Hp; apply Math_round_rounds|].
  split; [rewrite Hf; apply Math_round_rounds|].
  split.
  - eexists. split; [exact Hm|].
    destruct (Binary64.memoryUsed (Binary64.metrics r)); exact Hround2.
  - split.
    + intros E.
      pose proof (f_equal Binary64.duration E) as Ed.
      pose proof (f_equal Binary64.pagesProcessed E) as Ep.
      pose proof (f_equal Binary64.pagesFailed E) as Ef.
      pose proof (f_equal Binary64.memoryUsed E) as Em.
      rewrite Hd in Ed. rewrite Hp in Ep. rewrite Hf in Ef. rewrite Hm in Em.
      pose proof (Math_round_rounds
                    (unsigned_zero (Binary64.duration (Binary64.metrics r)))) as Rd.
      pose proof (Math_round_rounds
                    (unsigned_zero (Binary64.pagesProcessed (Binary64.metrics r)))) as Rp.
      pose proof (Math_round_rounds
                    (unsigned_zero (Binary64.pagesFailed (Binary64.metrics r)))) as Rf.
      rewrite Ed in Rd. rewrite Ep in Rp. rewrite Ef in Rf.
      do 3 (split; [assumption|]).
      destruct (Binary64.memoryUsed (Binary64.metrics r)) as [x|]; [|discriminate].
      exists x. split; [reflexivity|].
      injection Em as ->. exact Hround2.
    + intros (Rd & Rp & Rf & x & Ex & Rx).
      rewrite Ex in Hround2.
      rewrite (rounds_to_2dp_unique _ _ _ Hround2 Rx) in Hm.
      rewrite (rounds_to_unique _ _ _ (Math_round_rounds _) Rd) in Hd.
      rewrite (rounds_to_unique _ _ _ (Math_round_rounds _) Rp) in Hp.
      rewrite (rounds_to_unique _ _ _ (Math_round_rounds _) Rf) in Hf.
      rewrite <- Ex in Hm.
      destruct (double_average_of r []), (Binary64.metrics r).
      cbn in Hs, He, Hr, Hd, Hp, Hf, Hm. congruence.
Qed.

Lemma averageResults_singleton_witness :
  valid_metrics (Binary64.metrics double_scenario_playwright) /\
  exists m,
    Binary64.averageResults [double_scenario_playwright] = Return m /\
    m = Binary64.metrics double_scenario_playwright.
Proof.
  assert (Hvalid : valid_metrics (Binary64.metrics double_scenario_playwright))
    by (repeat split; reflexivity).
  split; [exact Hvalid|].
  destruct (averageResults_singleton double_scenario_playwright Hvalid)
    as (m & Hm & _ & _ & _ & _ & _ & _ & _ & Hsame).
  exists m. split; [exact Hm|].
  apply Hsame.
  assert (Hfix : forall x, Binary64.Math_round x = x -> rounds_to x x)
    by (intros x Hx; rewrite <- Hx at 2; apply Math_round_rounds).
  repeat (split; [apply Hfix; reflexivity|]).
  eexists. split; [reflexivity|].
  exists (double_of_Z 4000). split; [|reflexivity].
  replace (double_of_Z 4000)
    with (Binary64.Math_round
            (SFmul 53 1024 (counted_memory (Some (double_of_Z 40))) (double_of_Z 100)))
    by reflexivity.
  apply Math_round_rounds.
Defined.

(** On the result without [memoryUsed] the average differs from the result
    on doubles too: its [memoryUsed] is present, and [+0]. *)
Example averageResults_singleton_absent_memory :
  let r := double_result playwright (double_of_Z 100) (double_of_Z 1)
             (double_of_Z 0) None in
  exists m,
    Binary64.averageResults [r] = Return m /\
    Binary64.memoryUsed m = Some (S754_zero false) /\
    m <> Binary64.metrics r.
Proof.
  cbv zeta. eexists. split; [apply double_averageResults_cons|].
  split; [vm_compute; reflexivity|].
  intros E. apply (f_equal Binary64.memoryUsed) in E. vm_compute in E. discriminate.
Qed.

(** C6.  On every non-empty list the [errors] of the average is the
    concatenation of the inputs' error lists in list order, nothing dropped:
    its length is the sum of their lengths. *)
Theorem averageResults_errors (results : list BenchmarkResult)
    (Hne : results <> []) :
  exists m,
    averageResults results = Return m /\
    errors m = List.concat (error_lists results) /\
    List.length (errors m) = list_sum (map (@List.length string) (error_lists results)).
Proof.
  destruct (nonempty_cons results Hne) as (r & rs & ->).
  exists (average_of r rs). split; [apply averageResults_cons|].
  destruct (average_of_fields r rs) as (_ & _ & _ & _ & _ & _ & He).
  cbv zeta in He. rewrite He. split; [reflexivity|]. apply length_concat.
Qed.

Lemma averageResults_errors_witness :
  failed_twice <> [] /\
  exists m,
    averageResults failed_twice = Return m /\
    errors m = ["connection refused"%string; "connection refused"%string].
Proof.
  split; [discriminate|].
  destruct (averageResults_errors failed_twice) as (m & Hm & He & _);
    [discriminate|].
  exists m. split; [exact Hm|]. rewrite He. reflexivity.
Defined.

(** ** The comparator *)

Lemma js_div_cases (a b : Z) :
  (b <> 0 -> js_div a b = Finite (inject_Z a / inject_Z b)) /\
  (b = 0 ->
     (0 < a -> js_div a b = PosInfinity) /\
     (a = 0 -> js_div a b = NaN) /\
     (a < 0 -> js_div a b = NegInfinity)).
Proof.
  unfold js_div. split.
  - intros Hb. apply Z.eqb_neq in Hb. now rewrite Hb.
  - intros ->. cbn [Z.eqb]. repeat split; intros Ha.
    + apply Z.ltb_lt in Ha. now rewrite Ha.
    + subst a. reflexivity.
    + assert (H0 : (0 <? a) = false) by (apply Z.ltb_ge; lia).
      apply Z.ltb_lt in Ha. now rewrite H0, Ha.
Qed.



(** The sign of a zero divisor counts: cheerio durations of -1 and 0 average
    to [-0], and a playwright average of 5 divided by it is -Infinity. *)
Example generateComparison_negative_zero :
  exists cheerioAvg cmp,
    Binary64.averageResults
      [double_result cheerio (double_of_Z (-1)) (double_of_Z 1) (double_of_Z 0) None;
       double_result cheerio (double_of_Z 0) (double_of_Z 1) (double_of_Z 0) None]
      = Return cheerioAvg /\
    Binary64.duration cheerioAvg = S754_zero true /\
    Binary64.generateComparison
      [double_result playwright (double_of_Z 5) (double_of_Z 1) (double_of_Z 0) None]
      [double_result cheerio (double_of_Z (-1)) (double_of_Z 1) (double_of_Z 0) None;
       double_result cheerio (double_of_Z 0) (double_of_Z 1) (double_of_Z 0) None]
      = Return cmp /\
    Binary64.speedup cmp = S754_infinity true.
Proof.
  eexists. eexists.
  split; [apply double_averageResults_cons|].
  split; [vm_compute; reflexivity|].
  split; [apply double_generateComparison_cons|].
  vm_compute. reflexivity.
Qed.

(** The division is unguarded: two iterations that take no time at all give
    a speedup that is not a number. *)
Example generateComparison_zero_duration :
  exists cmp,
    generateComparison
      [example_result playwright 0 7 7 1 0 (Some 1%Q) []]
      [example_result cheerio 0 9 9 1 0 (Some 1%Q) []] = Return cmp /\
    speedup cmp = NaN.
Proof. eexists. split; [apply generateComparison_cons|reflexivity]. Qed.

(** C10.  The two results embedded in the comparison take [crawlerType],
    [config], the page records and the iteration index from the first
    result of their provider's list, and the averaged metrics as [metrics]:
    the page records are those of the first iteration alone. *)
Theorem generateComparison_frame
    (p : BenchmarkResult) (ps : list BenchmarkResult)
    (c : BenchmarkResult) (cs : list BenchmarkResult) :
  exists cmp playwrightAvg cheerioAvg,
    generateComparison (p :: ps) (c :: cs) = Return cmp /\
    averageResults (p :: ps) = Return playwrightAvg /\
    averageResults (c :: cs) = Return cheerioAvg /\
    crawlerType (cmp_playwright cmp) = crawlerType p /\
    config (cmp_playwright cmp) = config p /\
    results (cmp_playwright cmp) = results p /\
    iteration (cmp_playwright cmp) = iteration p /\
    metrics (cmp_playwright cmp) = playwrightAvg /\
    crawlerType (cmp_cheerio cmp) = crawlerType c /\
    config (cmp_cheerio cmp) = config c /\
    results (cmp_cheerio cmp) = results c /\
    iteration (cmp_cheerio cmp) = iteration c /\
    metrics (cmp_cheerio cmp) = cheerioAvg.
Proof.
  exists (comparison_of p ps c cs), (average_of p ps), (average_of c cs).
  split; [apply generateComparison_cons|].
  split; [apply averageResults_cons|].
  split; [apply averageResults_cons|].
  repeat split.
Qed.

(** ** The report assembler *)

(** C7.  [generateReport] always returns a report, and the report has a
    comparison exactly when the results contain at least one playwright
    result and at least one cheerio result; with one provider only the
    comparison is absent and nothing is thrown. *)
Theorem generateReport_comparison (now_iso : string)
    (results : list BenchmarkResult) (config : BenchmarkConfig) :
  exists rep,
    generateReport now_iso results config = Return rep /\
    (comparison rep <> None <->
     has_crawler playwright results /\ has_crawler cheerio results) /\
    (comparison rep = None <->
     ~ (has_crawler playwright results /\ has_crawler cheerio results)).
Proof.
  destruct (generateReport_Return now_iso results config)
    as (rep & Hrep & _ & _ & _ & Hiff).
  exists rep. split; [exact Hrep|]. split; [exact Hiff|].
  destruct (comparison rep) as [cmp|]; split.
  - discriminate.
  - intros Hnot. exfalso. apply Hnot. apply Hiff. discriminate.
  - intros _ Hboth. apply Hiff in Hboth. now apply Hboth.
  - reflexivity.
Qed.

(** A report over playwright results only has no comparison. *)
Example generateReport_one_provider :
  exists rep,
    generateReport "2024-01-01T00:00:00.000Z" three_durations example_config
      = Return rep /\
    comparison rep = None.
Proof. eexists. split; reflexivity. Qed.

(** ** The iteration runner *)

(** C1.  When the crawl of an iteration rejects, [runBenchmark] still returns
    a result: [pagesFailed] is 1, [pagesProcessed] is 0, [errors] holds the
    failure's message and nothing else (the [message] of a thrown [Error],
    the rendering as a string of any other thrown value), [results] is
    empty, and [duration] is [endTime - startTime], the two clock readings
    the runner takes before the crawl and right after its failure. *)
Theorem runBenchmark_failure_shape (env : Env) (crawlerType : CrawlerType)
    (config : BenchmarkConfig) (iteration : Z) (s : State)
    (ticks : nat) (error : Thrown)
    (Hrejects :
       crawl_at env (crawl_calls s) crawlerType (url config) (crawl_options config)
       = (ticks, Rejected error)) :
  exists r s',
    runBenchmark env crawlerType config iteration s = (r, s') /\
    pagesFailed (metrics r) = 1 /\
    pagesProcessed (metrics r) = 0 /\
    errors (metrics r) =
      [match error with
       | ErrorObject message => message
       | OtherValue rendering => rendering
       end] /\
    results r = [] /\
    startTime (metrics r) = Date_now_at env (clock_reads s) /\
    endTime (metrics r) = Date_now_at env (S (clock_reads s)) /\
    duration (metrics r) = endTime (metrics r) - startTime (metrics r).
Proof.
  pose proof (runBenchmark_run env crawlerType config iteration s ticks
                (Rejected error) Hrejects) as Hrun.
  cbv zeta in Hrun.
  destruct (runBenchmark env crawlerType config iteration s) as [r s'].
  cbn [fst] in Hrun. exists r, s'. split; [reflexivity|].
  rewrite Hrun. cbn. destruct error; now repeat split.
Qed.

Lemma runBenchmark_failure_shape_witness :
  crawl_at refusing_env (crawl_calls initial_state) playwright
    (url example_config) (crawl_options example_config)
  = (2%nat, Rejected (ErrorObject "connection refused")) /\
  exists r s',
    runBenchmark refusing_env playwright example_config 0 initial_state = (r, s') /\
    pagesFailed (metrics r) = 1 /\
    pagesProcessed (metrics r) = 0 /\
    errors (metrics r) = ["connection refused"%string] /\
    results r = [] /\
    duration (metrics r) = 50.
Proof.
  split; [reflexivity|].
  destruct (runBenchmark_failure_shape refusing_env playwright example_config 0
              initial_state 2 (ErrorObject "connection refused"))
    as (r & s' & Hrun & Hf & Hp & He & Hr & Hs & Ht & Hd); [reflexivity|].
  exists r, s'. split; [exact Hrun|].
  split; [exact Hf|]. split; [exact Hp|]. split; [exact He|]. split; [exact Hr|].
  rewrite Hd, Hs, Ht. reflexivity.
Defined.

Lemma fold_max_comp (xs : list Q) (p p' : Q) :
  (p == p')%Q -> (fold_left Qmax xs p == fold_left Qmax xs p')%Q.
Proof.
  revert p p'. induction xs as [|y ys IH]; intros p p' H; [exact H|].
  cbn [fold_left]. apply IH. now rewrite H.
Qed.

Lemma fold_max_from_max (xs : list Q) (b x : Q) :
  (fold_left Qmax xs (Qmax b x) == Qmax b (fold_left Qmax xs x))%Q.
Proof.
  revert b x. induction xs as [|y ys IH]; intros b x; [reflexivity|].
  cbn [fold_left]. rewrite <- IH.
  apply fold_max_comp. now rewrite Q.max_assoc.
Qed.

Lemma peak_of_largest_sample (baseline x : Q) (xs : list Q) :
  (peak_of baseline (x :: xs) == Qmax baseline (largest_sample (x :: xs)))%Q.
Proof. unfold peak_of, largest_sample. cbn [fold_left]. apply fold_max_from_max. Qed.

Lemma max_zero_shift (b l : Q) :
  (Qmax 0 (Qmax b l - b) == Qmax 0 (l - b))%Q.
Proof.
  destruct (Qlt_le_dec b l) as [H|H].
  - rewrite (Q.max_r b l) by now apply Qlt_le_weak. reflexivity.
  - rewrite (Q.max_l b l) by exact H.
    rewrite (Q.max_l 0 (b - b)) by lra.
    rewrite (Q.max_l 0 (l - b)) by lra. reflexivity.
Qed.

(** C9.  On the success path and on the failure path alike, [memoryUsed] is
    present and equals [max(0, peak - baseline)], where the peak is the
    running maximum that starts at the baseline and takes in every sample of
    the iteration; it is the same number when the peak is read as the
    largest sample alone, which may lie below the baseline; and it is never
    negative. *)
Theorem runBenchmark_memory_floor (env : Env) (crawlerType : CrawlerType)
    (config : BenchmarkConfig) (iteration : Z) (s : State) :
  let ticks :=
    fst (crawl_at env (crawl_calls s) crawlerType (url config) (crawl_options config)) in
  let baseline := memory_reading env (heap_reads s) in
  let samples := samples_from env (next_heap env (heap_reads s)) (S ticks) in
  exists m,
    memoryUsed (metrics (fst (runBenchmark env crawlerType config iteration s)))
      = Some m /\
    (m == Qmax 0 (peak_of baseline samples - baseline))%Q /\
    (m == Qmax 0 (largest_sample samples - baseline))%Q /\
    (0 <= m)%Q.
Proof.
  cbv zeta.
  destruct (crawl_at env (crawl_calls s) crawlerType (url config) (crawl_options config))
    as [ticks settled] eqn:E.
  rewrite (runBenchmark_run env crawlerType config iteration s ticks settled E).
  cbn [fst].
  set (baseline := memory_reading env (heap_reads s)).
  set (samples := samples_from env (next_heap env (heap_reads s)) (S ticks)).
  assert (Hpeak : (fold_left raise samples baseline == peak_of baseline samples)%Q)
    by (apply fold_raise_is_peak; reflexivity).
  exists (Math_max 0 (fold_left raise samples baseline - baseline)).
  split; [destruct settled; reflexivity|].
  unfold Math_max. rewrite Hpeak.
  split; [reflexivity|]. split; [|apply Q.le_max_l].
  subst samples. cbn [samples_from].
  rewrite peak_of_largest_sample. apply max_zero_shift.
Qed.

(** With a heap that shrinks throughout the iteration every sample is below
    the baseline, and the reported figure is 0. *)
Example runBenchmark_memory_below_baseline :
  let r := fst (runBenchmark refusing_env cheerio example_config 0 initial_state) in
  let baseline := memory_reading refusing_env 0 in
  let samples := samples_from refusing_env 1 3 in
  (largest_sample samples < baseline)%Q /\
  exists m, memoryUsed (metrics r) = Some m /\ (m == 0)%Q.
Proof.
  cbv zeta. split; [reflexivity|]. eexists. split; reflexivity.
Qed.

(** ** The orchestrator *)

(** C8.  A run that selects both providers with [n] iterations ends with a
    report whose results are ordered provider by provider, playwright before
    cheerio, and within a provider by iteration index 0, 1, ..., n-1; for
    [n = 2] the order is playwright 0, playwright 1, cheerio 0, cheerio 1. *)
Theorem runBenchmarks_order (env : Env) (config : BenchmarkConfig) (s : State)
    (n : Z) (Hn : iterations config = Some n) :
  exists rep s',
    runBenchmarks env both config s = (Return rep, s') /\
    map label (rep_results rep) =
      iteration_labels playwright 0 (Z.to_nat n) ++
      iteration_labels cheerio 0 (Z.to_nat n) /\
    (n = 2 ->
     map label (rep_results rep) =
       [(playwright, 0); (playwright, 1); (cheerio, 0); (cheerio, 1)]).
Proof.
  destruct (runBenchmarks_report env both config s) as (rep & Hrep & Hrs).
  destruct (runBenchmarks env both config s) as [c s'] eqn:E.
  cbn [fst] in Hrep. subst c. exists rep, s'. split; [reflexivity|].
  assert (Hlabels :
    map label (rep_results rep) =
      iteration_labels playwright 0 (Z.to_nat n) ++
      iteration_labels cheerio 0 (Z.to_nat n)).
  { rewrite Hrs, crawler_loop_labels. unfold iteration_count. rewrite Hn.
    cbn [map flat_map app]. now rewrite app_nil_r. }
  split; [exact Hlabels|].
  intros ->. rewrite Hlabels. reflexivity.
Qed.

Lemma runBenchmarks_order_witness :
  iterations two_iterations_config = Some 2 /\
  exists rep s',
    runBenchmarks refusing_env both two_iterations_config initial_state
      = (Return rep, s') /\
    map label (rep_results rep) =
      [(playwright, 0); (playwright, 1); (cheerio, 0); (cheerio, 1)].
Proof.
  split; [reflexivity|].
  destruct (runBenchmarks_order refusing_env two_iterations_config initial_state 2)
    as (rep & s' & Hrun & _ & Horder); [reflexivity|].
  exists rep, s'. split; [exact Hrun|]. apply Horder. reflexivity.
Defined.

(** The index of an iteration is its position within its provider's block:
    iteration [i] of playwright is result number [i], and iteration [i] of
    cheerio is result number [n + i]. *)
Lemma iteration_labels_nth (c : CrawlerType) (n i : nat) :
  (i < n)%nat ->
  nth_error (iteration_labels c 0 n) i = Some (c, Z.of_nat i).
Proof.
  intros Hi. unfold iteration_labels.
  rewrite nth_error_map, nth_error_seq.
  destruct (Nat.ltb_spec i n) as [_|Hge]; [|lia].
  reflexivity.
Qed.

(** ** The memory figures of the runner *)


(** * Further properties of the code *)

(** ** The memory probe and the sampler *)







Lemma peak_of_dominates (samples : list Q) (p : Q) :
  Forall (fun x => (x <= peak_of p samples)%Q) samples.
Proof.
  revert p. induction samples as [|x xs IH]; intros p; constructor.
  - change (peak_of p (x :: xs)) with (peak_of (Qmax p x) xs).
    eapply Qle_trans; [apply Q.le_max_r|apply peak_of_ge].
  - apply IH.
Qed.

(** However often the interval callback fires, [peakMemory] ends as the
    largest of its old value and the figures sampled: it never falls, it is
    at least every sample, and only the heap is read. *)
Theorem interval_ticks_peak (env : Env) (n : nat) (s : State) :
  let s' := snd (interval_ticks env n s) in
  let samples := samples_from env (heap_reads s) n in
  (peakMemory s' == peak_of (peakMemory s) samples)%Q /\
  (peakMemory s <= peakMemory s')%Q /\
  Forall (fun x => (x <= peakMemory s')%Q) samples /\
  clock_reads s' = clock_reads s /\
  crawl_calls s' = crawl_calls s /\
  iso_reads s' = iso_reads s.
Proof.
  cbv zeta. rewrite interval_ticks_run. cbn [snd].
  destruct (ticks_state_fields env n s) as (Hc & Hi & Hr & Hp).
  assert (Hpeak : (peakMemory (ticks_state env n s) ==
                   peak_of (peakMemory s) (samples_from env (heap_reads s) n))%Q)
    by (rewrite Hp; apply fold_raise_is_peak; reflexivity).
  split; [exact Hpeak|]. split; [|split; [|now repeat split]].
  - rewrite Hpeak. apply peak_of_ge.
  - eapply Forall_impl; [|apply (peak_of_dominates _ (peakMemory s))].
    intros x Hx. cbv beta in Hx. now rewrite Hpeak.
Qed.

(** ** One iteration, as a whole *)

Lemma ticks_state_heap (env : Env) (n : nat) (s : State) :
  heap_reads (ticks_state env n s) = Nat.iter n (next_heap env) (heap_reads s).
Proof.
  revert s. induction n as [|k IH]; intros s; [reflexivity|].
  cbn [ticks_state]. rewrite IH, Nat.iter_succ_r. reflexivity.
Qed.

Lemma runBenchmark_full (env : Env) (c : CrawlerType) (cfg : BenchmarkConfig)
    (i : Z) (s : State) (ticks : nat) (settled : Settlement) :
  crawl_at env (crawl_calls s) c (url cfg) (crawl_options cfg) = (ticks, settled) ->
  runBenchmark env c cfg i s =
  (iteration_result c cfg i
     (Date_now_at env (clock_reads s)) (Date_now_at env (S (clock_reads s)))
     (memory_reading env (heap_reads s))
     (fold_left raise
        (samples_from env (next_heap env (heap_reads s)) (S ticks))
        (memory_reading env (heap_reads s)))
     settled,
   iteration_state env ticks settled s).
Proof.
  intros Hcrawl.
  pose proof (runBenchmark_run env c cfg i s ticks settled Hcrawl) as Hres.
  cbv zeta in Hres.
  rewrite (surjective_pairing (runBenchmark env c cfg i s)), Hres. f_equal.
  unfold runBenchmark, bind, Date_now. rewrite getMemoryUsage_run.
  unfold set_peakMemory, await_crawl.
  cbn [clock_reads heap_reads iso_reads crawl_calls peakMemory].
  fold (crawl_options cfg). rewrite Hcrawl, interval_ticks_run.
  set (s1 := {| clock_reads := S (clock_reads s);
                heap_reads := next_heap env (heap_reads s);
                iso_reads := iso_reads s;
                crawl_calls := S (crawl_calls s);
                peakMemory := memory_reading env (heap_reads s) |}).
  destruct (ticks_state_fields env (S ticks) s1) as (Hc & Hi & Hr & Hp).
  pose proof (ticks_state_heap env (S ticks) s1) as Hh.
  destruct settled as [items|error];
    rewrite trackPeakMemory_run, <- ticks_state_snoc.
  - rewrite getMemoryUsage_run. unfold get_peakMemory, ret.
    cbn [snd]. unfold iteration_state, heap_reads_of.
    cbn [clock_reads heap_reads iso_reads crawl_calls peakMemory].
    rewrite Hc, Hi, Hr, Hp, Hh. subst s1.
    cbn [clock_reads heap_reads iso_reads crawl_calls peakMemory].
    f_equal. replace (ticks + 3)%nat with (S (S (S ticks))) by lia.
    cbn [Nat.iter]. now rewrite <- !Nat.iter_succ_r.
  - unfold get_peakMemory, ret. cbn [snd]. unfold iteration_state, heap_reads_of.
    destruct (ticks_state env (S ticks) s1) as [a b c0 d e] eqn:Et.
    cbn [clock_reads heap_reads iso_reads crawl_calls peakMemory] in *.
    rewrite Hc, Hi, Hr, Hp, Hh. subst s1.
    cbn [clock_reads heap_reads iso_reads crawl_calls peakMemory].
    f_equal. replace (ticks + 2)%nat with (S (S ticks)) by lia.
    cbn [Nat.iter]. now rewrite <- !Nat.iter_succ_r.
Qed.

Lemma copy_items (items : list CrawlResult) :
  map (fun item =>
         {| cr_url := cr_url item;
            title := title item;
            htmlContent := htmlContent item;
            metadata := metadata item |}) items = items.
Proof.
  induction items as [|[u t h m] items IH]; [reflexivity|].
  cbn [map cr_url title htmlContent metadata]. now rewrite IH.
Qed.

(** When the crawl resolves, the result reports no failure and no error,
    counts the returned pages and carries them unchanged and in order; it is
    timed by the clock readings before the crawl and after its completion. *)
Theorem runBenchmark_success_shape (env : Env) (crawlerType : CrawlerType)
    (config : BenchmarkConfig) (iteration : Z) (s : State)
    (ticks : nat) (items : list CrawlResult)
    (Hresolves :
       crawl_at env (crawl_calls s) crawlerType (url config) (crawl_options config)
       = (ticks, Resolved items)) :
  let r := fst (runBenchmark env crawlerType config iteration s) in
  pagesFailed (metrics r) = 0 /\
  errors (metrics r) = [] /\
  pagesProcessed (metrics r) = length_Z items /\
  results r = items /\
  startTime (metrics r) = Date_now_at env (clock_reads s) /\
  endTime (metrics r) = Date_now_at env (S (clock_reads s)) /\
  duration (metrics r) = endTime (metrics r) - startTime (metrics r).
Proof.
  cbv zeta.
  rewrite (runBenchmark_full env crawlerType config iteration s ticks _ Hresolves).
  cbn [fst iteration_result pagesFailed errors pagesProcessed results metrics
       startTime endTime duration].
  rewrite copy_items. now repeat split.
Qed.

Lemma runBenchmark_success_shape_witness :
  crawl_at serving_env (crawl_calls initial_state) cheerio
    (url example_config) (crawl_options example_config)
  = (1%nat, Resolved [example_page 0; example_page 1]) /\
  let r := fst (runBenchmark serving_env cheerio example_config 0 initial_state) in
  pagesProcessed (metrics r) = 2 /\
  results r = [example_page 0; example_page 1] /\
  duration (metrics r) = 50.
Proof.
  split; [reflexivity|].
  destruct (runBenchmark_success_shape serving_env cheerio example_config 0
              initial_state 1 [example_page 0; example_page 1])
    as (_ & _ & Hp & Hr & Hs & He & Hd); [reflexivity|].
  cbv zeta. split; [exact Hp|]. split; [exact Hr|].
  rewrite Hd, Hs, He. reflexivity.
Defined.

(** Whatever the crawl does, the result echoes the provider, the config and
    the iteration index it was asked for, its page count is the number of
    page records it carries, and it is either a success (no failure, no
    error) or a failure (one failure, one error message, no page). *)
Theorem runBenchmark_result_invariant (env : Env) (crawlerType0 : CrawlerType)
    (config0 : BenchmarkConfig) (iteration0 : Z) (s : State) :
  let r := fst (runBenchmark env crawlerType0 config0 iteration0 s) in
  crawlerType r = crawlerType0 /\ config r = config0 /\ iteration r = iteration0 /\
  pagesProcessed (metrics r) = length_Z (results r) /\
  duration (metrics r) = endTime (metrics r) - startTime (metrics r) /\
  ((pagesFailed (metrics r) = 0 /\ errors (metrics r) = []) \/
   (pagesFailed (metrics r) = 1 /\ results r = [] /\
    exists message, errors (metrics r) = [message])).
Proof.
  cbv zeta.
  destruct (crawl_at env (crawl_calls s) crawlerType0 (url config0)
              (crawl_options config0)) as [ticks settled] eqn:E.
  rewrite (runBenchmark_full env crawlerType0 config0 iteration0 s ticks settled E).
  cbn [fst]. destruct settled as [items|error];
    cbn [iteration_result crawlerType config iteration pagesFailed errors
         pagesProcessed results metrics startTime endTime duration].
  - rewrite copy_items. repeat split. now left.
  - repeat split. right. repeat split. now eexists.
Qed.

(** With a clock that never goes back, no iteration has a negative
    duration. *)
Theorem runBenchmark_duration_nonneg (env : Env) (c : CrawlerType)
    (cfg : BenchmarkConfig) (i : Z) (s : State)
    (Hclock : monotone_clock env) :
  0 <= duration (metrics (fst (runBenchmark env c cfg i s))).
Proof.
  destruct (crawl_at env (crawl_calls s) c (url cfg) (crawl_options cfg))
    as [ticks settled] eqn:E.
  rewrite (runBenchmark_full env c cfg i s ticks settled E). cbn [fst].
  pose proof (Hclock (clock_reads s) (S (clock_reads s)) (Nat.le_succ_diag_r _)) as H.
  destruct settled; cbn [iteration_result metrics duration]; lia.
Qed.

Lemma refusing_env_monotone : monotone_clock refusing_env.
Proof. intros a b Hab. cbn [refusing_env Date_now_at]. lia. Qed.

Lemma runBenchmark_duration_nonneg_witness :
  monotone_clock refusing_env /\
  0 <= duration (metrics (fst (runBenchmark refusing_env playwright example_config 0
                                 initial_state))).
Proof.
  split; [exact refusing_env_monotone|].
  apply (runBenchmark_duration_nonneg refusing_env playwright example_config 0
           initial_state).
  intros a b Hab. cbn [refusing_env Date_now_at]. lia.
Defined.

(** The peak is reset at the start of every iteration: the result does not
    depend on the value [peakMemory] was left with, nor on how often the
    date was rendered before. *)
Theorem runBenchmark_resets_peak (env : Env) (c : CrawlerType)
    (cfg : BenchmarkConfig) (i : Z) (s1 s2 : State)
    (Hclock : clock_reads s1 = clock_reads s2)
    (Hheap : heap_reads s1 = heap_reads s2)
    (Hcrawl : crawl_calls s1 = crawl_calls s2) :
  fst (runBenchmark env c cfg i s1) = fst (runBenchmark env c cfg i s2).
Proof.
  destruct (crawl_at env (crawl_calls s1) c (url cfg) (crawl_options cfg))
    as [ticks settled] eqn:E1.
  assert (E2 : crawl_at env (crawl_calls s2) c (url cfg) (crawl_options cfg)
               = (ticks, settled)) by (rewrite <- Hcrawl; exact E1).
  rewrite (runBenchmark_full env c cfg i s1 ticks settled E1).
  rewrite (runBenchmark_full env c cfg i s2 ticks settled E2).
  cbn [fst]. now rewrite Hclock, Hheap.
Qed.

Lemma runBenchmark_resets_peak_witness :
  fst (runBenchmark serving_env cheerio example_config 0 initial_state) =
  fst (runBenchmark serving_env cheerio example_config 0
         {| clock_reads := 0; heap_reads := 0; iso_reads := 7; crawl_calls := 0;
            peakMemory := 4096%Q |}).
Proof.
  apply (runBenchmark_resets_peak serving_env cheerio example_config 0
           initial_state
           {| clock_reads := 0; heap_reads := 0; iso_reads := 7; crawl_calls := 0;
              peakMemory := 4096%Q |}); reflexivity.
Defined.

Lemma iter_next_heap (env : Env) (n h : nat) :
  Nat.iter n (next_heap env) h =
  if has_memoryUsage env then (h + n)%nat else h.
Proof.
  unfold next_heap. destruct (has_memoryUsage env);
    (induction n as [|k IH]; [cbn; lia|rewrite Nat.iter_succ, IH; lia]).
Qed.

(** The counters of the runner's own readings over one iteration. *)
Lemma iteration_footprint (env : Env) (c : CrawlerType)
    (cfg : BenchmarkConfig) (i : Z) (s : State) :
  let s' := snd (runBenchmark env c cfg i s) in
  let call := crawl_at env (crawl_calls s) c (url cfg) (crawl_options cfg) in
  clock_reads s' = (clock_reads s + 2)%nat /\
  crawl_calls s' = (crawl_calls s + 1)%nat /\
  iso_reads s' = iso_reads s /\
  heap_reads s' =
    if has_memoryUsage env
    then (heap_reads s + heap_reads_of (fst call) (snd call))%nat
    else heap_reads s.
Proof.
  cbv zeta.
  destruct (crawl_at env (crawl_calls s) c (url cfg) (crawl_options cfg))
    as [ticks settled] eqn:E.
  rewrite (runBenchmark_full env c cfg i s ticks settled E).
  cbn [fst snd iteration_state clock_reads crawl_calls iso_reads heap_reads].
  rewrite iter_next_heap.
  split; [lia|]. split; [lia|]. split; reflexivity.
Qed.

(** One iteration calls [crawl] exactly once, however the call settles:
    a failed crawl is not tried again. *)
Theorem runBenchmark_calls_crawl_once (env : Env) (c : CrawlerType)
    (cfg : BenchmarkConfig) (i : Z) (s : State) :
  crawl_calls (snd (runBenchmark env c cfg i s)) = S (crawl_calls s).
Proof.
  destruct (crawl_at env (crawl_calls s) c (url cfg) (crawl_options cfg))
    as [ticks settled] eqn:E.
  rewrite (runBenchmark_full env c cfg i s ticks settled E).
  reflexivity.
Qed.

(** ** The run as a whole *)

Section RunFacts.

Variable env : Env.

Lemma runBenchmark_placed (c : CrawlerType) (cfg : BenchmarkConfig) (i : Z)
    (s s0 : State) (k : nat) :
  clock_reads s = (clock_reads s0 + 2 * k)%nat ->
  crawl_calls s = (crawl_calls s0 + k)%nat ->
  placed_in_run env cfg s0 k (fst (runBenchmark env c cfg i s)).
Proof.
  intros Hclock Hcalls.
  destruct (crawl_at env (crawl_calls s) c (url cfg) (crawl_options cfg))
    as [ticks settled] eqn:E.
  rewrite (runBenchmark_full env c cfg i s ticks settled E). cbn [fst].
  unfold placed_in_run. rewrite <- Hclock.
  assert (Hc : crawlerType
                 (iteration_result c cfg i (Date_now_at env (clock_reads s))
                    (Date_now_at env (S (clock_reads s)))
                    (memory_reading env (heap_reads s))
                    (fold_left raise
                       (samples_from env (next_heap env (heap_reads s)) (S ticks))
                       (memory_reading env (heap_reads s))) settled) = c)
    by (destruct settled; reflexivity).
  rewrite Hc, <- Hcalls, E. cbn [snd].
  destruct settled as [items|error];
    cbn [iteration_result config metrics startTime endTime duration pagesFailed
         errors pagesProcessed results].
  - rewrite copy_items. now repeat split.
  - now repeat split.
Qed.

Lemma all_placed_app (cfg : BenchmarkConfig) (s0 : State) (k : nat)
    (a b : list BenchmarkResult) :
  all_placed env cfg s0 k (a ++ b) <->
  all_placed env cfg s0 k a /\ all_placed env cfg s0 (k + List.length a) b.
Proof.
  revert k. induction a as [|r a IH]; intros k; cbn [app all_placed List.length].
  - rewrite Nat.add_0_r. tauto.
  - rewrite IH. replace (S k + List.length a)%nat with (k + S (List.length a))%nat by lia.
    tauto.
Qed.

Lemma all_placed_nth (cfg : BenchmarkConfig) (s0 : State) (k j : nat)
    (rs : list BenchmarkResult) (r : BenchmarkResult) :
  all_placed env cfg s0 k rs -> nth_error rs j = Some r ->
  placed_in_run env cfg s0 (k + j) r.
Proof.
  revert k j. induction rs as [|x rs IH]; intros k j Hall Hnth.
  - destruct j; discriminate.
  - destruct Hall as [Hx Hrest]. destruct j as [|j].
    + injection Hnth as <-. now rewrite Nat.add_0_r.
    + cbn [nth_error] in Hnth. replace (k + S j)%nat with (S k + j)%nat by lia.
      now apply IH.
Qed.

Lemma iteration_loop_invariant (n : nat) (c : CrawlerType) (cfg : BenchmarkConfig)
    (i : Z) (acc : list BenchmarkResult) (s s0 : State) :
  run_invariant env cfg s0 acc s ->
  run_invariant env cfg s0 (fst (iteration_loop env n c cfg i acc s))
                       (snd (iteration_loop env n c cfg i acc s)) /\
  List.length (fst (iteration_loop env n c cfg i acc s)) = (List.length acc + n)%nat.
Proof.
  revert i acc s. induction n as [|k IH]; intros i acc s Hinv.
  - cbn. split; [exact Hinv|lia].
  - cbn [iteration_loop]. unfold bind.
    destruct Hinv as (Hall & Hclock & Hcalls & Hiso).
    pose proof (runBenchmark_placed c cfg i s s0 (List.length acc) Hclock Hcalls) as Hr.
    pose proof (iteration_footprint env c cfg i s) as Hfoot. cbv zeta in Hfoot.
    destruct (runBenchmark env c cfg i s) as [r s1]. cbn [fst snd] in Hr, Hfoot.
    destruct Hfoot as (Hc1 & Hk1 & Hi1 & _).
    destruct (IH (i + 1) (acc ++ [r]) s1) as [Hinv' Hlen'].
    + unfold run_invariant. rewrite length_app. cbn [List.length].
      split; [|repeat split; lia].
      apply all_placed_app. split; [exact Hall|]. cbn [all_placed]. now split.
    + split; [exact Hinv'|]. rewrite Hlen', length_app. cbn [List.length]. lia.
Qed.

Lemma crawler_loop_invariant (cs : list CrawlerType) (cfg : BenchmarkConfig)
    (acc : list BenchmarkResult) (s s0 : State) :
  run_invariant env cfg s0 acc s ->
  run_invariant env cfg s0 (fst (crawler_loop env cs cfg acc s))
                       (snd (crawler_loop env cs cfg acc s)) /\
  List.length (fst (crawler_loop env cs cfg acc s)) =
    (List.length acc + List.length cs * iteration_count cfg)%nat.
Proof.
  revert acc s. induction cs as [|c cs IH]; intros acc s Hinv.
  - cbn. split; [exact Hinv|lia].
  - cbn [crawler_loop]. unfold bind.
    destruct (iteration_loop_invariant (iteration_count cfg) c cfg 0 acc s s0 Hinv)
      as [Hinv1 Hlen1].
    destruct (iteration_loop env (iteration_count cfg) c cfg 0 acc s) as [rs s1].
    cbn [fst snd] in Hinv1, Hlen1.
    destruct (IH rs s1 Hinv1) as [Hinv2 Hlen2].
    split; [exact Hinv2|]. rewrite Hlen2, Hlen1. cbn [List.length]. lia.
Qed.

Lemma generateReport_closed (now_iso : string) (rs : list BenchmarkResult)
    (cfg : BenchmarkConfig) :
  generateReport now_iso rs cfg =
  Return {| timestamp := now_iso;
            rep_config := cfg;
            rep_results := rs;
            comparison := comparison_for rs |}.
Proof.
  unfold generateReport, comparison_for.
  destruct (filter (fun r => CrawlerType_eqb (crawlerType r) playwright) rs)
    as [|p ps]; [reflexivity|].
  destruct (filter (fun r => CrawlerType_eqb (crawlerType r) cheerio) rs)
    as [|c cs].
  - cbn -[Z.ltb]. now rewrite andb_false_r.
  - assert (Hp : (0 <? length_Z (p :: ps)) = true)
      by (apply length_Z_positive; discriminate).
    assert (Hc : (0 <? length_Z (c :: cs)) = true)
      by (apply length_Z_positive; discriminate).
    rewrite Hp, Hc, generateComparison_cons. reflexivity.
Qed.

Lemma runBenchmarks_closed (crawler : CrawlerSelection) (cfg : BenchmarkConfig)
    (s : State) :
  let loop := crawler_loop env (crawlers_to_test crawler) cfg [] s in
  runBenchmarks env crawler cfg s =
  (Return {| timestamp := toISOString_at env (iso_reads (snd loop));
             rep_config := cfg;
             rep_results := fst loop;
             comparison := comparison_for (fst loop) |},
   {| clock_reads := clock_reads (snd loop);
      heap_reads := heap_reads (snd loop);
      iso_reads := S (iso_reads (snd loop));
      crawl_calls := crawl_calls (snd loop);
      peakMemory := peakMemory (snd loop) |}).
Proof.
  cbv zeta. unfold runBenchmarks, bind, crawlers_to_test.
  destruct (crawler_loop env _ cfg [] s) as [rs s1].
  unfold toISOString_now, ret. cbn [fst snd].
  now rewrite generateReport_closed.
Qed.

End RunFacts.

Lemma run_trace (env : Env) (crawler : CrawlerSelection)
    (cfg : BenchmarkConfig) (s : State) :
  exists rep s',
    runBenchmarks env crawler cfg s = (Return rep, s') /\
    rep_config rep = cfg /\
    List.length (rep_results rep) =
      (List.length (crawlers_to_test crawler) * iteration_count cfg)%nat /\
    all_placed env cfg s 0 (rep_results rep) /\
    clock_reads s' = (clock_reads s + 2 * List.length (rep_results rep))%nat /\
    crawl_calls s' = (crawl_calls s + List.length (rep_results rep))%nat /\
    timestamp rep = toISOString_at env (iso_reads s) /\
    iso_reads s' = S (iso_reads s).
Proof.
  pose proof (runBenchmarks_closed env crawler cfg s) as Hrun. cbv zeta in Hrun.
  destruct (crawler_loop_invariant env (crawlers_to_test crawler) cfg [] s s)
    as [(Hall & Hclock & Hcalls & Hiso) Hlen].
  { unfold run_invariant. cbn [all_placed List.length]. repeat split; lia. }
  eexists. eexists. split; [exact Hrun|].
  cbn [rep_config rep_results timestamp clock_reads crawl_calls iso_reads].
  rewrite Hiso. cbn [List.length Nat.add] in Hlen. now repeat split.
Qed.

(** A run always ends with a report carrying the config.  It holds one
    result per selected provider and iteration, and the runner has called
    [crawl] once for each; result number [k] settled as the [k]-th of these
    calls did (the pages it returned, or the message of its failure), so a
    rejection marks its own result only. *)
Theorem runBenchmarks_trace (env : Env) (crawler : CrawlerSelection)
    (cfg : BenchmarkConfig) (s : State) :
  exists rep s',
    runBenchmarks env crawler cfg s = (Return rep, s') /\
    rep_config rep = cfg /\
    List.length (rep_results rep) =
      (List.length (crawlers_to_test crawler) * iteration_count cfg)%nat /\
    crawl_calls s' = (crawl_calls s + List.length (rep_results rep))%nat /\
    forall k r,
      nth_error (rep_results rep) k = Some r ->
      settled_as env cfg s k r.
Proof.
  pose proof (runBenchmarks_closed env crawler cfg s) as Hrun. cbv zeta in Hrun.
  destruct (crawler_loop_invariant env (crawlers_to_test crawler) cfg [] s s)
    as [(Hall & Hclock & Hcalls & Hiso) Hlen].
  { unfold run_invariant. cbn [all_placed List.length]. repeat split; lia. }
  eexists. eexists. split; [exact Hrun|].
  cbn [rep_config rep_results crawl_calls].
  cbn [List.length Nat.add] in Hlen.
  split; [reflexivity|]. split; [exact Hlen|]. split; [exact Hcalls|].
  intros k r Hnth.
  destruct (all_placed_nth env cfg s 0 k _ r Hall Hnth) as (Hcfg & _ & _ & Hd & Hsettled).
  cbn [Nat.add] in Hsettled. unfold settled_as.
  split; [exact Hcfg|]. split; [exact Hd|].
  destruct (snd (crawl_at env (crawl_calls s + k) (crawlerType r) (url cfg)
                   (crawl_options cfg))) as [items|[message|rendering]];
    exact Hsettled.
Qed.



(** A failing provider does not stop the run: when every crawl rejects, the
    report still holds one result per provider and iteration, each a failure
    with one error message and no page. *)
Theorem runBenchmarks_survives_failures (env : Env) (crawler : CrawlerSelection)
    (cfg : BenchmarkConfig) (s : State) (Hrejects : always_rejects env) :
  exists rep s',
    runBenchmarks env crawler cfg s = (Return rep, s') /\
    List.length (rep_results rep) =
      (List.length (crawlers_to_test crawler) * iteration_count cfg)%nat /\
    Forall (fun r => pagesFailed (metrics r) = 1 /\
                     pagesProcessed (metrics r) = 0 /\
                     results r = [] /\
                     exists message, errors (metrics r) = [message])
           (rep_results rep).
Proof.
  destruct (run_trace env crawler cfg s)
    as (rep & s' & Hrun & _ & Hlen & Hall & _).
  exists rep, s'. split; [exact Hrun|]. split; [exact Hlen|].
  apply Forall_forall. intros r Hin.
  destruct (In_nth_error _ _ Hin) as [k Hk].
  destruct (all_placed_nth env cfg s 0 k _ r Hall Hk) as (_ & _ & _ & _ & Hsettled).
  destruct (Hrejects (crawl_calls s + (0 + k))%nat (crawlerType r) (url cfg)
              (crawl_options cfg)) as (ticks & error & E).
  rewrite E in Hsettled. cbn [snd] in Hsettled.
  destruct Hsettled as (Hf & He & Hp & Hr).
  split; [exact Hf|]. split; [exact Hp|]. split; [exact Hr|].
  exists (thrown_message error). exact He.
Qed.

Lemma refusing_env_always_rejects : always_rejects refusing_env.
Proof. intros n c u o. eexists. eexists. reflexivity. Qed.

Lemma runBenchmarks_survives_failures_witness :
  always_rejects refusing_env /\
  exists rep s',
    runBenchmarks refusing_env both two_iterations_config initial_state
      = (Return rep, s') /\
    map (fun r => pagesFailed (metrics r)) (rep_results rep) = [1; 1; 1; 1].
Proof.
  split; [exact refusing_env_always_rejects|].
  destruct (runBenchmarks_survives_failures refusing_env both two_iterations_config
              initial_state) as (rep & s' & Hrun & _);
    [intros n c u o; eexists; eexists; reflexivity|].
  exists rep, s'. split; [exact Hrun|].
  vm_compute in Hrun. injection Hrun as <- _. reflexivity.
Defined.

(** ** Provider selection and the comparison *)

Lemma filter_by_label (c : CrawlerType) (rs : list BenchmarkResult) :
  map label (filter (fun r => CrawlerType_eqb (crawlerType r) c) rs) =
  filter (fun l => CrawlerType_eqb (fst l) c) (map label rs).
Proof.
  induction rs as [|r rs IH]; [reflexivity|].
  cbn [filter map label fst].
  destruct (CrawlerType_eqb (crawlerType r) c); cbn [map]; now rewrite IH.
Qed.

Lemma filter_iteration_labels (c c' : CrawlerType) (i : Z) (n : nat) :
  filter (fun l => CrawlerType_eqb (fst l) c) (iteration_labels c' i n) =
  if CrawlerType_eqb c' c then iteration_labels c' i n else [].
Proof.
  unfold iteration_labels.
  induction (seq 0 n) as [|j js IH]; cbn [map filter fst].
  - now destruct (CrawlerType_eqb c' c).
  - rewrite IH. now destruct (CrawlerType_eqb c' c).
Qed.

Lemma run_labels (env : Env) (crawler : CrawlerSelection) (cfg : BenchmarkConfig)
    (s : State) :
  map label (fst (crawler_loop env (crawlers_to_test crawler) cfg [] s)) =
  flat_map (fun c => iteration_labels c 0 (iteration_count cfg))
           (crawlers_to_test crawler).
Proof. now rewrite crawler_loop_labels. Qed.

Lemma labelled_provider (c : CrawlerType) (i : Z) (n : nat)
    (l : list BenchmarkResult) :
  map label l = iteration_labels c i n -> Forall (fun r => crawlerType r = c) l.
Proof.
  intros Hlab. apply Forall_forall. intros r Hin.
  assert (Hin' : In (label r) (map label l)) by now apply in_map.
  rewrite Hlab in Hin'. unfold iteration_labels in Hin'.
  apply in_map_iff in Hin'. destruct Hin' as (j & Hj & _).
  unfold label in Hj. congruence.
Qed.

Lemma filter_provider (c c' : CrawlerType) (l : list BenchmarkResult) :
  Forall (fun r => crawlerType r = c) l ->
  filter (fun r => CrawlerType_eqb (crawlerType r) c') l =
  if CrawlerType_eqb c c' then l else [].
Proof.
  induction 1 as [|r l Hr _ IH]; [now destruct (CrawlerType_eqb c c')|].
  cbn [filter]. rewrite Hr, IH. now destruct (CrawlerType_eqb c c').
Qed.

(** The results of a run of one provider. *)
Lemma single_run (env : Env) (c : CrawlerType) (cfg : BenchmarkConfig) (s : State) :
  let rs := fst (crawler_loop env (crawlers_to_test (only c)) cfg [] s) in
  Forall (fun r => crawlerType r = c) rs /\ comparison_for rs = None.
Proof.
  cbv zeta. pose proof (run_labels env (only c) cfg s) as Hl.
  set (rs := fst (crawler_loop env (crawlers_to_test (only c)) cfg [] s)) in *.
  cbn [crawlers_to_test flat_map] in Hl. rewrite app_nil_r in Hl.
  pose proof (labelled_provider _ _ _ _ Hl) as Hall.
  split; [exact Hall|].
  unfold comparison_for. rewrite !(filter_provider c _ rs Hall).
  destruct c; cbn [CrawlerType_eqb]; [now destruct rs|reflexivity].
Qed.

(** The results of a run of both providers with at least one iteration:
    a block of playwright results, then a block of cheerio results. *)
Lemma both_run (env : Env) (cfg : BenchmarkConfig) (s : State) :
  iteration_count cfg <> O ->
  let rs := fst (crawler_loop env (crawlers_to_test both) cfg [] s) in
  exists p ps c cs,
    rs = (p :: ps) ++ (c :: cs) /\
    filter (fun r => CrawlerType_eqb (crawlerType r) playwright) rs = p :: ps /\
    filter (fun r => CrawlerType_eqb (crawlerType r) cheerio) rs = c :: cs /\
    List.length (p :: ps) = iteration_count cfg /\
    List.length (c :: cs) = iteration_count cfg /\
    label p = (playwright, 0) /\ label c = (cheerio, 0).
Proof.
  intros Hcount. cbv zeta. pose proof (run_labels env both cfg s) as Hl.
  set (rs := fst (crawler_loop env (crawlers_to_test both) cfg [] s)) in *.
  cbn [crawlers_to_test flat_map] in Hl. rewrite app_nil_r in Hl.
  apply map_eq_app in Hl. destruct Hl as (a & b & Hrs & Ha & Hb).
  pose proof (labelled_provider _ _ _ _ Ha) as Hpa.
  pose proof (labelled_provider _ _ _ _ Hb) as Hpb.
  assert (Hblock : forall (c : CrawlerType) (l : list BenchmarkResult),
             map label l = iteration_labels c 0 (iteration_count cfg) ->
             List.length l = iteration_count cfg /\
             exists r l', l = r :: l' /\ label r = (c, 0)).
  { intros c l Hlab. split.
    - rewrite <- (length_map label l), Hlab. unfold iteration_labels.
      now rewrite length_map, length_seq.
    - destruct (iteration_count cfg) as [|m]; [congruence|].
      rewrite iteration_labels_S in Hlab.
      destruct l as [|r l']; [discriminate|].
      cbn [map] in Hlab. exists r, l'. split; [reflexivity|congruence]. }
  destruct (Hblock _ _ Ha) as (Hla & p & ps & Ea & Hp).
  destruct (Hblock _ _ Hb) as (Hlb & c & cs & Eb & Hc).
  exists p, ps, c, cs. rewrite Hrs, !filter_app.
  rewrite !(filter_provider playwright _ a Hpa), !(filter_provider cheerio _ b Hpb).
  cbn [CrawlerType_eqb]. rewrite app_nil_r. subst a b.
  now repeat split.
Qed.

(** A run of one provider yields results of that provider only, and its
    report has no comparison. *)
Theorem runBenchmarks_single_provider (env : Env) (c : CrawlerType)
    (cfg : BenchmarkConfig) (s : State) :
  exists rep s',
    runBenchmarks env (only c) cfg s = (Return rep, s') /\
    Forall (fun r => crawlerType r = c) (rep_results rep) /\
    comparison rep = None.
Proof.
  pose proof (runBenchmarks_closed env (only c) cfg s) as Hrun. cbv zeta in Hrun.
  destruct (single_run env c cfg s) as [Hall Hnone].
  eexists. eexists. split; [exact Hrun|]. cbn [rep_results comparison].
  split; [exact Hall|exact Hnone].
Qed.

(** A run of both providers with at least one iteration yields a report
    with a comparison, built on iteration 0 of each provider and averaging
    exactly the [n] iterations of each. *)
Theorem runBenchmarks_both_compared (env : Env) (cfg : BenchmarkConfig)
    (s : State) (n : Z) (Hn : iterations cfg = Some n) (Hpos : 1 <= n) :
  exists rep s' cmp p ps c cs,
    runBenchmarks env both cfg s = (Return rep, s') /\
    comparison rep = Some cmp /\
    rep_results rep = (p :: ps) ++ (c :: cs) /\
    List.length (p :: ps) = Z.to_nat n /\
    List.length (c :: cs) = Z.to_nat n /\
    generateComparison (p :: ps) (c :: cs) = Return cmp /\
    label (cmp_playwright cmp) = (playwright, 0) /\
    label (cmp_cheerio cmp) = (cheerio, 0).
Proof.
  pose proof (runBenchmarks_closed env both cfg s) as Hrun. cbv zeta in Hrun.
  assert (Hcount : iteration_count cfg = Z.to_nat n)
    by (unfold iteration_count; now rewrite Hn).
  destruct (both_run env cfg s) as (p & ps & c & cs & Hrs & Hfp & Hfc & Hlp & Hlc & Hp & Hc);
    [rewrite Hcount; lia|].
  eexists. eexists. exists (comparison_of p ps c cs), p, ps, c, cs.
  split; [exact Hrun|]. cbn [comparison rep_results].
  unfold comparison_for. rewrite Hfp, Hfc, <- Hcount.
  split; [reflexivity|]. split; [exact Hrs|].
  split; [exact Hlp|]. split; [exact Hlc|].
  split; [apply generateComparison_cons|].
  split; [exact Hp|exact Hc].
Qed.

Lemma runBenchmarks_both_compared_witness :
  iterations two_iterations_config = Some 2 /\ 1 <= 2 /\
  exists rep s' cmp,
    runBenchmarks serving_env both two_iterations_config initial_state
      = (Return rep, s') /\
    comparison rep = Some cmp /\
    label (cmp_playwright cmp) = (playwright, 0).
Proof.
  split; [reflexivity|]. split; [lia|].
  destruct (runBenchmarks_both_compared serving_env two_iterations_config
              initial_state 2)
    as (rep & s' & cmp & p & ps & c & cs & Hrun & Hcmp & _ & _ & _ & _ & Hp & _);
    [reflexivity|lia|].
  exists rep, s', cmp. split; [exact Hrun|]. split; [exact Hcmp|exact Hp].
Defined.

(** With no iteration to run (a count that is absent or not positive), the
    run calls no provider and reports no result and no comparison. *)
Theorem runBenchmarks_no_iterations (env : Env) (crawler : CrawlerSelection)
    (cfg : BenchmarkConfig) (s : State)
    (Hnone : match iterations cfg with Some n => n <= 0 | None => True end) :
  exists rep s',
    runBenchmarks env crawler cfg s = (Return rep, s') /\
    rep_results rep = [] /\ comparison rep = None /\
    crawl_calls s' = crawl_calls s /\ clock_reads s' = clock_reads s.
Proof.
  destruct (run_trace env crawler cfg s)
    as (rep & s' & Hrun & _ & Hlen & _ & Hclock & Hcalls & _).
  assert (Hcount : iteration_count cfg = O).
  { unfold iteration_count. destruct (iterations cfg) as [n|]; [lia|reflexivity]. }
  rewrite Hcount, Nat.mul_0_r in Hlen. apply length_zero_iff_nil in Hlen.
  rewrite Hlen in Hclock, Hcalls. cbn [List.length] in Hclock, Hcalls.
  exists rep, s'. split; [exact Hrun|]. split; [exact Hlen|].
  split; [|split; lia].
  pose proof (runBenchmarks_closed env crawler cfg s) as Hclosed.
  cbv zeta in Hclosed. rewrite Hrun in Hclosed. injection Hclosed as Hrep _.
  rewrite Hrep in Hlen |- *. cbn [rep_results comparison] in *.
  now rewrite Hlen.
Qed.

Lemma runBenchmarks_no_iterations_witness :
  exists rep s',
    runBenchmarks refusing_env both
      {| url := "https://example.com"; maxPages := Some 5; maxDepth := Some 1;
         iterations := Some (-3); timeout := Some 30000 |} initial_state
    = (Return rep, s') /\
    rep_results rep = [] /\ comparison rep = None.
Proof.
  destruct (runBenchmarks_no_iterations refusing_env both
              {| url := "https://example.com"; maxPages := Some 5;
                 maxDepth := Some 1; iterations := Some (-3);
                 timeout := Some 30000 |} initial_state)
    as (rep & s' & Hrun & Hrs & Hcmp & _); [cbn; lia|].
  exists rep, s'. split; [exact Hrun|]. split; [exact Hrs|exact Hcmp].
Defined.

(** ** More on the aggregator *)













(** ** More on the comparator and the report *)

(** [generateComparison] throws exactly when one of its lists is empty, and
    then with the aggregator's message; otherwise it returns. *)
Theorem generateComparison_throws
    (playwrightResults cheerioResults : list BenchmarkResult) :
  match generateComparison playwrightResults cheerioResults with
  | Throw e =>
      e = ErrorObject "Cannot average empty results" /\
      (playwrightResults = [] \/ cheerioResults = [])
  | Return _ => playwrightResults <> [] /\ cheerioResults <> []
  end.
Proof.
  destruct playwrightResults as [|p ps].
  - cbn. split; [reflexivity|now left].
  - destruct cheerioResults as [|c cs].
    + unfold generateComparison. rewrite averageResults_cons, averageResults_nil.
      cbn [cbind]. split; [reflexivity|now right].
    + rewrite generateComparison_cons. split; discriminate.
Qed.

Lemma filter_head {A} (f : A -> bool) (l : list A) (x : A) (xs : list A) :
  filter f l = x :: xs ->
  exists before after,
    l = before ++ x :: after /\ f x = true /\
    Forall (fun y => f y = false) before /\ filter f after = xs.
Proof.
  induction l as [|y l IH]; [discriminate|].
  cbn [filter]. destruct (f y) eqn:Ey.
  - intros E. injection E as -> <-. exists [], l. now repeat split.
  - intros E. destruct (IH E) as (before & after & -> & Hx & Hb & Ha).
    exists (y :: before), after. repeat split; try assumption.
    now constructor.
Qed.

(** The report passes the results and the config through untouched.  When
    it has a comparison, the playwright entry is built on the first
    playwright result of the list and the cheerio entry on the first cheerio
    result, wherever they stand, and each averages all results of its
    provider and no other. *)
Theorem generateReport_entries (now_iso : string)
    (rs : list BenchmarkResult) (cfg : BenchmarkConfig) :
  exists rep,
    generateReport now_iso rs cfg = Return rep /\
    timestamp rep = now_iso /\ rep_config rep = cfg /\ rep_results rep = rs /\
    forall cmp, comparison rep = Some cmp ->
      exists before_p p after_p before_c c after_c,
        rs = before_p ++ p :: after_p /\
        Forall (fun r => crawlerType r = cheerio) before_p /\
        crawlerType p = playwright /\
        rs = before_c ++ c :: after_c /\
        Forall (fun r => crawlerType r = playwright) before_c /\
        crawlerType c = cheerio /\
        label (cmp_playwright cmp) = label p /\
        results (cmp_playwright cmp) = results p /\
        label (cmp_cheerio cmp) = label c /\
        results (cmp_cheerio cmp) = results c /\
        averageResults
          (filter (fun r => CrawlerType_eqb (crawlerType r) playwright) rs)
          = Return (metrics (cmp_playwright cmp)) /\
        averageResults
          (filter (fun r => CrawlerType_eqb (crawlerType r) cheerio) rs)
          = Return (metrics (cmp_cheerio cmp)).
Proof.
  eexists. split; [apply generateReport_closed|].
  cbn [timestamp rep_config rep_results comparison].
  do 3 (split; [reflexivity|]).
  unfold comparison_for. intros cmp Hcmp.
  destruct (filter (fun r => CrawlerType_eqb (crawlerType r) playwright) rs)
    as [|p ps] eqn:Ep; [discriminate|].
  destruct (filter (fun r => CrawlerType_eqb (crawlerType r) cheerio) rs)
    as [|c cs] eqn:Ec; [discriminate|].
  injection Hcmp as <-.
  destruct (filter_head _ _ _ _ Ep) as (bp & ap & Hp & Hfp & Hbp & _).
  destruct (filter_head _ _ _ _ Ec) as (bc & ac & Hc & Hfc & Hbc & _).
  exists bp, p, ap, bc, c, ac.
  split; [exact Hp|]. split.
  { eapply Forall_impl; [|exact Hbp]. intros r Hr. cbv beta in Hr.
    destruct (crawlerType r); [discriminate|reflexivity]. }
  split; [now apply CrawlerType_eqb_eq|].
  split; [exact Hc|]. split.
  { eapply Forall_impl; [|exact Hbc]. intros r Hr. cbv beta in Hr.
    destruct (crawlerType r); [reflexivity|discriminate]. }
  split; [now apply CrawlerType_eqb_eq|].
  unfold comparison_of. cbn [cmp_playwright cmp_cheerio with_metrics label
                              crawlerType iteration results metrics].
  do 4 (split; [reflexivity|]).
  split; apply averageResults_cons.
Qed.

Lemma generateReport_entries_witness :
  exists rep cmp,
    generateReport "2024-01-01T00:00:00.000Z" interleaved_results example_config
      = Return rep /\
    comparison rep = Some cmp /\
    label (cmp_playwright cmp) = (playwright, 0) /\
    label (cmp_cheerio cmp) = (cheerio, 0).
Proof.
  destruct (generateReport_entries "2024-01-01T00:00:00.000Z" interleaved_results
              example_config) as (rep & Hrep & _ & _ & _ & Hcmp).
  rewrite generateReport_closed in Hrep. injection Hrep as <-.
  eexists. eexists. split; [reflexivity|]. split; [reflexivity|].
  split; reflexivity.
Defined.

(** ** The verdict of the summary *)

Lemma faster_label_cheerio (x : JsNumber) :
  faster_label x = "(Cheerio faster)"%string <-> js_gt_one x = true.
Proof.
  unfold faster_label. destruct (js_gt_one x); split; try reflexivity; discriminate.
Qed.

Lemma quotient_gt_one (a b : Z) :
  0 < b -> (negb (Qle_bool (inject_Z a / inject_Z b) 1) = true <-> b < a).
Proof.
  intros Hb.
  assert (HbQ : (0 < inject_Z b)%Q)
    by (change 0%Q with (inject_Z 0); now rewrite <- Zlt_Qlt).
  rewrite negb_true_iff, <- not_true_iff_false, Qle_bool_iff. split.
  - intros Hnot. destruct (Z_lt_le_dec b a) as [H|H]; [exact H|].
    exfalso. apply Hnot. apply Qle_shift_div_r; [exact HbQ|].
    rewrite Qmult_1_l, <- Zle_Qle. exact H.
  - intros Hlt Hle. apply (Qmult_le_compat_r _ _ (inject_Z b)) in Hle;
      [|now apply Qlt_le_weak].
    rewrite Qmult_1_l in Hle.
    assert (E : (inject_Z a / inject_Z b * inject_Z b == inject_Z a)%Q)
      by (field; intros H0; rewrite H0 in HbQ; discriminate).
    rewrite E, <- Zle_Qle in Hle. lia.
Qed.

(** The summary says "(Cheerio faster)" exactly when the averaged cheerio
    duration is below the averaged playwright duration, for a positive
    cheerio duration; equal durations, and two durations of 0, get
    "(Playwright faster)"; when no cheerio duration is negative, an averaged
    cheerio duration of 0 against a positive playwright duration gets
    "(Cheerio faster)".  (Negative durations can average to [-0], which
    turns the quotient into -Infinity: example
    [generateComparison_negative_zero].) *)
Theorem faster_label_meaning
    (playwrightResults cheerioResults : list BenchmarkResult)
    (Hp : playwrightResults <> []) (Hc : cheerioResults <> []) :
  exists playwrightAvg cheerioAvg cmp,
    averageResults playwrightResults = Return playwrightAvg /\
    averageResults cheerioResults = Return cheerioAvg /\
    generateComparison playwrightResults cheerioResults = Return cmp /\
    (0 < duration cheerioAvg ->
       (faster_label (speedup cmp) = "(Cheerio faster)"%string <->
        duration cheerioAvg < duration playwrightAvg)) /\
    (duration playwrightAvg = duration cheerioAvg ->
       faster_label (speedup cmp) = "(Playwright faster)"%string) /\
    (Forall (fun r => 0 <= duration (metrics r)) cheerioResults ->
     duration cheerioAvg = 0 -> 0 < duration playwrightAvg ->
       faster_label (speedup cmp) = "(Cheerio faster)"%string).
Proof.
  destruct (nonempty_cons _ Hp) as (p0 & ps & ->).
  destruct (nonempty_cons _ Hc) as (c0 & cs & ->).
  exists (average_of p0 ps), (average_of c0 cs), (comparison_of p0 ps c0 cs).
  split; [apply averageResults_cons|].
  split; [apply averageResults_cons|].
  split; [apply generateComparison_cons|].
  unfold comparison_of. cbn [speedup].
  set (a := duration (average_of p0 ps)). set (b := duration (average_of c0 cs)).
  destruct (js_div_cases a b) as [Hfin Hzero].
  split; [|split].
  - intros Hb. rewrite faster_label_cheerio, Hfin by lia.
    cbn [js_gt_one]. now apply quotient_gt_one.
  - intros Hab. destruct (Z.eq_dec b 0) as [Hb0|Hb0].
    + destruct (Hzero Hb0) as (_ & Hnan & _). rewrite Hnan by lia. reflexivity.
    + rewrite Hfin by exact Hb0. rewrite Hab. unfold faster_label.
      cbn [js_gt_one].
      assert (E : (inject_Z b / inject_Z b == 1)%Q).
      { field. intros H0. apply Hb0.
        apply (proj1 (inject_Z_injective b 0)). exact H0. }
      assert (Hle : Qle_bool (inject_Z b / inject_Z b) 1 = true)
        by (apply Qle_bool_iff; rewrite E; apply Qle_refl).
      now rewrite Hle.
  - intros _ Hb0 Ha. destruct (Hzero Hb0) as (Hinf & _).
    rewrite Hinf by exact Ha. reflexivity.
Qed.

Lemma faster_label_meaning_witness :
  [scenario_playwright] <> [] /\ [scenario_cheerio] <> [] /\
  exists cmp,
    generateComparison [scenario_playwright] [scenario_cheerio] = Return cmp /\
    faster_label (speedup cmp) = "(Cheerio faster)"%string.
Proof.
  split; [discriminate|]. split; [discriminate|].
  destruct (faster_label_meaning [scenario_playwright] [scenario_cheerio])
    as (pAvg & cAvg & cmp & Hp & Hc & Hcmp & Hiff & _); [discriminate|discriminate|].
  exists cmp. split; [exact Hcmp|].
  rewrite averageResults_cons in Hp, Hc. injection Hp as <-. injection Hc as <-.
  apply Hiff; reflexivity.
Defined.

(** A summary is printed exactly for the runs that select both providers
    and have at least one iteration; it then has seven lines. *)
Theorem printSummary_shown (String_of_number : Z -> string)
    (String_of_memory : option Q -> string) (toFixed2 : JsNumber -> string)
    (env : Env) (crawler : CrawlerSelection) (cfg : BenchmarkConfig) (s : State) :
  exists rep s',
    runBenchmarks env crawler cfg s = (Return rep, s') /\
    (printSummary String_of_number String_of_memory toFixed2 rep <> [] <->
     crawler = both /\ iteration_count cfg <> O) /\
    (printSummary String_of_number String_of_memory toFixed2 rep <> [] ->
     List.length (printSummary String_of_number String_of_memory toFixed2 rep)
       = 7%nat).
Proof.
  pose proof (runBenchmarks_closed env crawler cfg s) as Hrun. cbv zeta in Hrun.
  eexists. eexists. split; [exact Hrun|].
  unfold printSummary. cbn [comparison].
  split.
  - destruct crawler as [|c].
    + destruct (Nat.eq_dec (iteration_count cfg) 0) as [H0|Hpos].
      * destruct (crawler_loop_invariant env (crawlers_to_test both) cfg [] s s)
          as [_ Hlen].
        { unfold run_invariant. cbn [all_placed List.length]. repeat split; lia. }
        rewrite H0, Nat.mul_0_r in Hlen. cbn [List.length Nat.add] in Hlen.
        apply length_zero_iff_nil in Hlen. rewrite Hlen. cbn.
        split; [congruence|]. intros [_ H]. congruence.
      * destruct (both_run env cfg s Hpos)
          as (p & ps & c & cs & _ & Hfp & Hfc & _).
        unfold comparison_for. rewrite Hfp, Hfc.
        split; [intros _; now split|discriminate].
    + destruct (single_run env c cfg s) as [_ Hnone]. rewrite Hnone.
      split; [congruence|]. intros [H _]. discriminate.
  - destruct (comparison_for _); [reflexivity|congruence].
Qed.

(** ** Scenario lookup *)

(** [getScenario] finds a scenario only under its own name and only in the
    table, and fails exactly for the names the table does not hold. *)
Theorem getScenario_sound (name : string) :
  (forall s, getScenario name = Some s -> sc_name s = name /\ In s SCENARIOS) /\
  (getScenario name = None <-> ~ In name (map sc_name SCENARIOS)).
Proof.
  unfold getScenario. split.
  - intros s H. apply find_some in H. destruct H as [Hin Heq].
    apply String.eqb_eq in Heq. now split.
  - split.
    + intros Hnone Hin. apply in_map_iff in Hin. destruct Hin as (s & Hs & Hin).
      pose proof (find_none _ _ Hnone s Hin) as H. cbv beta in H.
      rewrite Hs, String.eqb_refl in H. discriminate.
    + intros Hnot.
      destruct (find (fun s => (sc_name s =? name)%string) SCENARIOS) as [s|] eqn:E;
        [|reflexivity].
      apply find_some in E. destruct E as [Hin Heq]. apply String.eqb_eq in Heq.
      exfalso. apply Hnot. rewrite <- Heq. now apply in_map.
Qed.

(** Every scenario of the table is found again under its name: the names
    do not shadow one another. *)
Theorem getScenario_round_trip (s : TestScenario) (Hin : In s SCENARIOS) :
  getScenario (sc_name s) = Some s.
Proof.
  cbn [SCENARIOS In] in Hin.
  destruct Hin as [<-|[<-|[<-|[]]]]; reflexivity.
Qed.

Lemma getScenario_round_trip_witness :
  exists s, In s SCENARIOS /\ sc_name s = "documentation"%string /\
            getScenario "documentation" = Some s /\ sc_maxPages s = 20.
Proof.
  eexists. split; [right; right; left; reflexivity|].
  split; [reflexivity|]. split; [|reflexivity].
  apply (getScenario_round_trip
           {| sc_name := "documentation"; sc_url := "https://crawlee.dev";
              sc_maxPages := 20; sc_maxDepth := 2;
              description := "Documentation site with structured content" |}).
  right; right; left; reflexivity.
Defined.

(** ** Chromium detection *)

Lemma search_paths_first (fs : FileSystem) (paths : list string) (x : string) :
  search_paths fs paths = Some x <->
  exists before after,
    paths = before ++ x :: after /\ path_accepted fs x = true /\
    Forall (fun y => path_accepted fs y = false) before.
Proof.
  induction paths as [|y paths IH]; cbn [search_paths].
  - split; [discriminate|]. intros (before & after & H & _).
    destruct before; discriminate.
  - destruct (path_accepted fs y) eqn:Ey; split.
    + intros E. injection E as <-. exists [], paths. now repeat split.
    + intros (before & after & E & Hx & Hb).
      destruct before as [|z before].
      * cbn in E. congruence.
      * cbn in E. injection E as <- _. apply Forall_cons_iff in Hb.
        destruct Hb as [Hz _]. congruence.
    + intros E. apply IH in E. destruct E as (before & after & -> & Hx & Hb).
      exists (y :: before), after. repeat split; try assumption. now constructor.
    + intros (before & after & E & Hx & Hb).
      destruct before as [|z before].
      * cbn in E. injection E as <- _. congruence.
      * cbn in E. injection E as <- ->. apply Forall_cons_iff in Hb.
        destruct Hb as [_ Hb]. apply IH. now exists before, after.
Qed.

Lemma search_paths_none (fs : FileSystem) (paths : list string) :
  search_paths fs paths = None <->
  forall x, In x paths -> path_accepted fs x = false.
Proof.
  induction paths as [|y paths IH]; cbn [search_paths In].
  - split; [intros _ x []|reflexivity].
  - destruct (path_accepted fs y) eqn:Ey; split.
    + discriminate.
    + intros H. rewrite (H y) in Ey; [discriminate|now left].
    + intros E x [<-|Hin]; [exact Ey|]. now apply IH.
    + intros H. apply IH. intros x Hin. apply H. now right.
Qed.

Lemma path_accepted_exists (fs : FileSystem) (path : string) :
  path_accepted fs path = true -> existsSync fs path = true.
Proof. unfold path_accepted. now destruct (existsSync fs path). Qed.

(** A path given in [PLAYWRIGHT_CHROMIUM_EXECUTABLE_PATH] wins over every
    candidate as soon as it exists; it is not checked for being a regular
    file or for being executable. *)
Theorem detectChromiumPath_env_override (fs : FileSystem) (penv : ProcessEnv)
    (path : string)
    (Hset : PLAYWRIGHT_CHROMIUM_EXECUTABLE_PATH penv = Some path)
    (Hnonempty : path <> ""%string)
    (Hexists : existsSync fs path = true) :
  detectChromiumPath fs penv = path.
Proof.
  unfold detectChromiumPath, truthy_string. rewrite Hset.
  apply String.eqb_neq in Hnonempty. now rewrite Hnonempty, Hexists.
Qed.

Lemma detectChromiumPath_env_override_witness :
  existsSync example_fs "/opt/chrome" = true /\
  path_accepted example_fs "/opt/chrome" = false /\
  detectChromiumPath example_fs
    {| PLAYWRIGHT_CHROMIUM_EXECUTABLE_PATH := Some "/opt/chrome"%string;
       PLAYWRIGHT_HEADLESS := None |} = "/opt/chrome"%string.
Proof.
  split; [reflexivity|]. split; [reflexivity|].
  apply detectChromiumPath_env_override; [reflexivity|discriminate|reflexivity].
Defined.

(** Without a usable environment path the result is the first candidate, in
    the order of the list, that exists, is a regular file and is accessible;
    a candidate whose check throws is skipped like one that fails it.  When
    no candidate passes, the result is "/usr/bin/chromium" all the same. *)
Theorem detectChromiumPath_first_candidate (fs : FileSystem) (penv : ProcessEnv)
    (Hunusable :
       match PLAYWRIGHT_CHROMIUM_EXECUTABLE_PATH penv with
       | Some path => path = ""%string \/ existsSync fs path = false
       | None => True
       end) :
  let r := detectChromiumPath fs penv in
  In r possiblePaths /\
  (forall before x after,
      possiblePaths = before ++ x :: after ->
      path_accepted fs x = true ->
      Forall (fun y => path_accepted fs y = false) before ->
      r = x) /\
  ((forall x, In x possiblePaths -> path_accepted fs x = false) ->
   r = "/usr/bin/chromium"%string).
Proof.
  cbv zeta.
  assert (E : detectChromiumPath fs penv =
              match search_paths fs possiblePaths with
              | Some path => path
              | None => "/usr/bin/chromium"%string
              end).
  { unfold detectChromiumPath, truthy_string.
    destruct (PLAYWRIGHT_CHROMIUM_EXECUTABLE_PATH penv) as [path|]; [|reflexivity].
    destruct Hunusable as [->|Hno]; [reflexivity|].
    rewrite Hno. now destruct (negb (path =? "")%string). }
  rewrite E. split; [|split].
  - destruct (search_paths fs possiblePaths) as [x|] eqn:Es; [|now left].
    apply search_paths_first in Es. destruct Es as (before & after & -> & _).
    apply in_or_app. right. now left.
  - intros before x after Hsplit Hx Hb.
    assert (Es : search_paths fs possiblePaths = Some x)
      by (apply search_paths_first; now exists before, after).
    now rewrite Es.
  - intros Hnone. apply search_paths_none in Hnone. now rewrite Hnone.
Qed.

Lemma detectChromiumPath_first_candidate_witness :
  detectChromiumPath example_fs
    {| PLAYWRIGHT_CHROMIUM_EXECUTABLE_PATH := Some "/missing"%string;
       PLAYWRIGHT_HEADLESS := None |} = "/usr/bin/google-chrome"%string.
Proof.
  destruct (detectChromiumPath_first_candidate example_fs
              {| PLAYWRIGHT_CHROMIUM_EXECUTABLE_PATH := Some "/missing"%string;
                 PLAYWRIGHT_HEADLESS := None |}) as (_ & Hfirst & _);
    [right; reflexivity|].
  apply (Hfirst ["/usr/bin/chromium"%string; "/usr/bin/chromium-browser"%string]
                "/usr/bin/google-chrome"%string
                ["/usr/bin/google-chrome-stable"%string; "/usr/bin/chrome"%string;
                 "/usr/bin/chromium-browser-stable"%string]).
  - reflexivity.
  - reflexivity.
  - repeat constructor.
Defined.

Lemma detectChromiumPath_nonempty (fs : FileSystem) (penv : ProcessEnv) :
  detectChromiumPath fs penv <> ""%string.
Proof.
  assert (Hcand : match search_paths fs possiblePaths with
                  | Some path => path
                  | None => "/usr/bin/chromium"%string
                  end <> ""%string).
  { destruct (search_paths fs possiblePaths) as [x|] eqn:Es; [|discriminate].
    apply search_paths_first in Es. destruct Es as (before & after & Hsplit & _).
    assert (Hin : In x possiblePaths)
      by (rewrite Hsplit; apply in_or_app; right; now left).
    cbn [possiblePaths In] in Hin.
    destruct Hin as [<-|[<-|[<-|[<-|[<-|[<-|[]]]]]]]; discriminate. }
  unfold detectChromiumPath, truthy_string.
  destruct (PLAYWRIGHT_CHROMIUM_EXECUTABLE_PATH penv) as [path|]; [|exact Hcand].
  destruct (path =? "")%string eqn:Ep; cbn [negb]; [exact Hcand|].
  destruct (existsSync fs path); [|exact Hcand].
  now apply String.eqb_neq.
Qed.

(** The launch options never name an executable that does not exist: the
    path is the detected one when it exists and is left out otherwise, which
    happens only when no candidate passes and "/usr/bin/chromium" is missing.
    The browser runs headless unless [PLAYWRIGHT_HEADLESS] is exactly
    "false"; the arguments are always the same. *)
Theorem getLaunchOptions_executable (fs : FileSystem) (penv : ProcessEnv) :
  let o := getLaunchOptions fs penv in
  (forall path, executablePath o = Some path ->
     path = detectChromiumPath fs penv /\ existsSync fs path = true) /\
  (executablePath o = None <->
   existsSync fs (detectChromiumPath fs penv) = false) /\
  (executablePath o = None ->
     (forall x, In x possiblePaths -> path_accepted fs x = false) /\
     existsSync fs "/usr/bin/chromium" = false) /\
  (headless o = false <-> PLAYWRIGHT_HEADLESS penv = Some "false"%string) /\
  args o = launch_args.
Proof.
  cbv zeta. unfold getLaunchOptions. cbn [executablePath headless args].
  pose proof (detectChromiumPath_nonempty fs penv) as Hne.
  apply String.eqb_neq in Hne.
  assert (Hnone : existsSync fs (detectChromiumPath fs penv) = false ->
                  (forall x, In x possiblePaths -> path_accepted fs x = false) /\
                  existsSync fs "/usr/bin/chromium" = false).
  { unfold detectChromiumPath, truthy_string.
    destruct (search_paths fs possiblePaths) as [x|] eqn:Es.
    - assert (Hx : existsSync fs x = true).
      { apply search_paths_first in Es. destruct Es as (_ & _ & _ & Hx & _).
        now apply path_accepted_exists. }
      destruct (PLAYWRIGHT_CHROMIUM_EXECUTABLE_PATH penv) as [path|]; [|congruence].
      destruct (negb (path =? "")%string); [|congruence].
      destruct (existsSync fs path) eqn:Ep; congruence.
    - pose proof (proj1 (search_paths_none fs possiblePaths) Es) as Hn.
      destruct (PLAYWRIGHT_CHROMIUM_EXECUTABLE_PATH penv) as [path|]; [|now split].
      destruct (negb (path =? "")%string); [|now split].
      destruct (existsSync fs path) eqn:Ep; [congruence|now split]. }
  destruct (existsSync fs (detectChromiumPath fs penv)) eqn:Ed.
  - rewrite Hne. cbn [negb].
    split; [intros path E; injection E as <-; now split|].
    split; [split; discriminate|]. split; [discriminate|].
    split; [|reflexivity].
    destruct (PLAYWRIGHT_HEADLESS penv) as [v|]; [|split; discriminate].
    rewrite negb_false_iff, String.eqb_eq. split; congruence.
  - split; [discriminate|]. split; [now split|]. split; [intros _; now apply Hnone|].
    split; [|reflexivity].
    destruct (PLAYWRIGHT_HEADLESS penv) as [v|]; [|split; discriminate].
    rewrite negb_false_iff, String.eqb_eq. split; congruence.
Qed.

Lemma getLaunchOptions_executable_witness :
  executablePath
    (getLaunchOptions example_fs
       {| PLAYWRIGHT_CHROMIUM_EXECUTABLE_PATH := None;
          PLAYWRIGHT_HEADLESS := Some "false"%string |})
    = Some "/usr/bin/google-chrome"%string /\
  existsSync example_fs "/usr/bin/google-chrome" = true.
Proof.
  split; [reflexivity|].
  apply (getLaunchOptions_executable example_fs
           {| PLAYWRIGHT_CHROMIUM_EXECUTABLE_PATH := None;
              PLAYWRIGHT_HEADLESS := Some "false"%string |}).
  reflexivity.
Defined.

(** ** The crawlers: options *)

(** The options object that [runBenchmark] passes always carries
    [maxPages], [maxDepth] and [timeout], so the crawler's defaults for them
    (10 pages, depth 2, 30 s) never apply to a benchmark, not even when the
    config leaves a value undefined: an undefined timeout reaches the
    crawler as [undefined], and the handler timeout it computes from it is
    NaN.  The concurrency is always the crawler's default.  Called without
    options, the crawler uses all four defaults and a handler timeout of 30
    seconds. *)
Theorem merge_options_from_runner (default_maxConcurrency : option Z)
    (cfg : BenchmarkConfig) :
  let opts :=
    merge_options default_maxConcurrency (Some (as_argument (crawl_options cfg))) in
  merged_maxPages opts = maxPages cfg /\
  merged_maxDepth opts = maxDepth cfg /\
  merged_timeout opts = timeout cfg /\
  merged_maxConcurrency opts = default_maxConcurrency /\
  (timeout cfg = None -> requestHandlerTimeoutSecs opts = NaN) /\
  merge_options default_maxConcurrency None = DEFAULT_OPTIONS default_maxConcurrency /\
  requestHandlerTimeoutSecs (merge_options default_maxConcurrency None)
    = Finite (inject_Z 30).
Proof.
  cbv zeta. unfold merge_options, as_argument, crawl_options, requestHandlerTimeoutSecs.
  cbn. repeat split. intros H. now rewrite H.
Qed.

(** The handler timeout is the timeout in whole seconds, rounded down (also
    below zero): a timeout from 0 to 999 ms becomes 0 seconds, a timeout of at
    least 1000 ms at least 1 second, a negative timeout a negative number of
    seconds (-1 for -1 ms); a key that is present with a number always
    replaces the default. *)
Theorem requestHandlerTimeoutSecs_floor (default_maxConcurrency : option Z)
    (o : CrawlerOptionsArg) (t : Z) (Ht : arg_timeout o = Present (Some t)) :
  exists secs,
    requestHandlerTimeoutSecs (merge_options default_maxConcurrency (Some o))
      = Finite (inject_Z secs) /\
    1000 * secs <= t < 1000 * secs + 1000 /\
    (0 <= t < 1000 -> secs = 0) /\
    (1000 <= t -> 1 <= secs) /\
    (t < 0 -> secs <= -1) /\
    (t = -1 -> secs = -1).
Proof.
  unfold requestHandlerTimeoutSecs, merge_options.
  cbn [merged_timeout DEFAULT_OPTIONS]. rewrite Ht. cbn [spread_key].
  exists (t / 1000). split; [reflexivity|].
  pose proof (Z.div_mod t 1000 ltac:(lia)) as Hdm.
  pose proof (Z.mod_pos_bound t 1000 ltac:(lia)) as Hmod.
  split; [lia|]. split; [|split; [|split]].
  - intros H. apply Z.div_small. exact H.
  - intros H. apply Z.div_le_lower_bound; lia.
  - intros H. lia.
  - intros ->. reflexivity.
Qed.

Lemma requestHandlerTimeoutSecs_floor_witness :
  requestHandlerTimeoutSecs
    (merge_options (Some 10)
       (Some {| arg_maxPages := Absent; arg_maxDepth := Absent;
                arg_timeout := Present (Some 999); arg_maxConcurrency := Absent |}))
  = Finite (inject_Z 0).
Proof.
  destruct (requestHandlerTimeoutSecs_floor (Some 10)
              {| arg_maxPages := Absent; arg_maxDepth := Absent;
                 arg_timeout := Present (Some 999); arg_maxConcurrency := Absent |}
              999) as (secs & Hsecs & _ & Hzero & _); [reflexivity|].
  rewrite Hsecs. do 2 f_equal. apply Hzero. lia.
Defined.

(** ** The crawlers: the returned data *)

Lemma map_items_length (now_iso_at : nat -> string) (i : nat)
    (l : list DatasetItem) :
  List.length (map_items now_iso_at i l) = List.length l.
Proof.
  revert i. induction l as [|x l IH]; intros i; [reflexivity|].
  cbn [map_items List.length]. now rewrite IH.
Qed.

Lemma map_items_nth (now_iso_at : nat -> string) (i j : nat)
    (l : list DatasetItem) (item : DatasetItem) :
  nth_error l j = Some item ->
  nth_error (map_items now_iso_at i l) j =
  Some {| item_url := item_url item;
          item_title := item_title item;
          item_htmlContent := item_htmlContent item;
          item_metadata :=
            metadata_literal
              (js_or (js_get (item_metadata item) "statusCode") (JsNum 200))
              (js_or (js_get (item_metadata item) "timestamp")
                     (JsStr (now_iso_at (i + j)%nat)))
              (item_metadata item) |}.
Proof.
  revert i j. induction l as [|x l IH]; intros i j H.
  - destruct j; discriminate.
  - destruct j as [|j]; cbn [map_items nth_error] in *.
    + injection H as <-. now rewrite Nat.add_0_r.
    + rewrite (IH (S i) j H).
      replace (S i + j)%nat with (i + S j)%nat by lia. reflexivity.
Qed.

(** [crawl] and [scrap] return the stored items in order and count them in
    [totalPages].  Each item keeps its url, title and html, and every key of
    its stored metadata keeps its stored value: the fallbacks 200 and "now"
    fill [statusCode] and [timestamp] only when the key is absent, never
    over a stored value, not even a stored 0 or an empty string.  No other
    key is added. *)
Theorem extracted_items (originalUrl0 : string)
    (dataset : option (list DatasetItem)) (now_iso_at : nat -> string)
    (completed_iso : string) (startTime0 now : Z) :
  let stored := match dataset with Some l => l | None => [] end in
  let data := extracted originalUrl0 dataset now_iso_at completed_iso startTime0 now in
  totalPages (data_metadata data) = length_Z (items data) /\
  List.length (items data) = List.length stored /\
  originalUrl (data_metadata data) = originalUrl0 /\
  forall j item, nth_error stored j = Some item ->
    exists out,
      nth_error (items data) j = Some out /\
      item_url out = item_url item /\
      item_title out = item_title item /\
      item_htmlContent out = item_htmlContent item /\
      (forall k v, item_metadata item k = Some v -> item_metadata out k = Some v) /\
      (item_metadata item "statusCode"%string = None ->
         item_metadata out "statusCode"%string = Some (JsNum 200)) /\
      (item_metadata item "timestamp"%string = None ->
         item_metadata out "timestamp"%string = Some (JsStr (now_iso_at j))) /\
      (forall k, k <> "statusCode"%string -> k <> "timestamp"%string ->
         item_metadata out k = item_metadata item k).
Proof.
  cbv zeta. unfold extracted. cbn [items data_metadata totalPages originalUrl].
  set (stored := match dataset with Some l => l | None => [] end).
  split; [unfold length_Z; now rewrite map_items_length|].
  split; [apply map_items_length|]. split; [reflexivity|].
  intros j item Hj. eexists. split; [apply (map_items_nth _ 0 j _ _ Hj)|].
  cbn [item_url item_title item_htmlContent item_metadata].
  do 3 (split; [reflexivity|]).
  unfold metadata_literal. split; [|split; [|split]].
  - intros k v Hk. now rewrite Hk.
  - intros Hk. rewrite Hk. unfold js_get. rewrite Hk. reflexivity.
  - intros Hk. rewrite Hk. unfold js_get at 2. rewrite Hk. reflexivity.
  - intros k Hs Ht. apply String.eqb_neq in Hs, Ht. rewrite Hs, Ht.
    now destruct (item_metadata item k).
Qed.

Lemma extracted_items_witness :
  let data :=
    extracted "https://example.com" (Some [example_stored_item])
      (fun _ => "2024-01-01T00:00:00.000Z"%string) "2024-01-01T00:00:01.000Z"
      1000 1800 in
  exists out,
    nth_error (items data) 0 = Some out /\
    item_metadata out "statusCode"%string = Some (JsNum 0) /\
    item_metadata out "timestamp"%string = Some (JsStr "2024-01-01T00:00:00.000Z"%string).
Proof.
  cbv zeta.
  destruct (extracted_items "https://example.com" (Some [example_stored_item])
              (fun _ => "2024-01-01T00:00:00.000Z"%string)
              "2024-01-01T00:00:01.000Z" 1000 1800)
    as (_ & _ & _ & Hitems).
  destruct (Hitems 0%nat example_stored_item eq_refl)
    as (out & Hout & _ & _ & _ & Hkeep & _ & Htime & _).
  exists out. split; [exact Hout|].
  split; [apply Hkeep; reflexivity|apply Htime; reflexivity].
Defined.

(** ** The crawlers: the request handler *)

Lemma set_has_In (set : list string) (u : string) :
  set_has set u = true <-> In u set.
Proof.
  unfold set_has. rewrite existsb_exists. split.
  - intros (x & Hin & Heq). apply String.eqb_eq in Heq. now subst.
  - intros Hin. exists u. split; [exact Hin|apply String.eqb_refl].
Qed.

Lemma set_add_NoDup (set : list string) (u : string) :
  NoDup set -> NoDup (set_add set u).
Proof.
  intros Hnd. unfold set_add. destruct (set_has set u) eqn:E; [exact Hnd|].
  apply NoDup_app; [exact Hnd|repeat constructor; intros []|].
  intros x Hin [<-|[]]. apply set_has_In in Hin. congruence.
Qed.

Lemma set_add_length (set : list string) (u : string) :
  (List.length (set_add set u) <= S (List.length set))%nat.
Proof.
  unfold set_add. destruct (set_has set u); [lia|].
  rewrite length_app. cbn. lia.
Qed.

Lemma remove_one_length (u : string) (l : list string) :
  set_has l u = true -> S (List.length (remove_one u l)) = List.length l.
Proof.
  induction l as [|x l IH]; [discriminate|].
  unfold set_has. cbn [existsb remove_one List.length].
  destruct (String.eqb u x); [reflexivity|].
  cbn [orb List.length]. intros H. now rewrite (IH H).
Qed.

(** What every stretch of the handler keeps true, whatever the interleaving:
    no url is recorded twice and the counter is at least the number of urls
    recorded. *)
Lemma handler_step_sound (maxPages : option Z) (st : HandlerState) (e : HandlerEvent) :
  NoDup (processedUrls st) /\
  Z.of_nat (List.length (processedUrls st)) <= processedCount st ->
  NoDup (processedUrls (handler_step maxPages st e)) /\
  Z.of_nat (List.length (processedUrls (handler_step maxPages st e)))
    <= processedCount (handler_step maxPages st e).
Proof.
  intros [Hnd Hlen]. destruct e as [u|u ok]; cbn [handler_step].
  - destruct (limit_reached maxPages (processedCount st)); [now split|].
    destruct (set_has (processedUrls st) u); now split.
  - destruct (set_has (in_flight st) u); [|now split].
    destruct ok; cbn [processedUrls processedCount]; [|now split].
    split; [now apply set_add_NoDup|].
    pose proof (set_add_length (processedUrls st) u). lia.
Qed.

Lemma handler_step_budget (m : Z) (c : nat) (st : HandlerState) (e : HandlerEvent) :
  1 <= m ->
  (List.length (in_flight (handler_step (Some m) st e)) <= c)%nat ->
  processedCount st + Z.of_nat (List.length (in_flight st)) <= m - 1 + Z.of_nat c ->
  processedCount (handler_step (Some m) st e)
    + Z.of_nat (List.length (in_flight (handler_step (Some m) st e)))
  <= m - 1 + Z.of_nat c.
Proof.
  intros Hm Hc Hbudget. destruct e as [u|u ok]; cbn [handler_step] in *.
  - unfold limit_reached in *.
    destruct (m =? 0) eqn:E0; [apply Z.eqb_eq in E0; lia|]. cbn [negb andb] in *.
    destruct (m <=? processedCount st) eqn:El; [exact Hbudget|].
    apply Z.leb_gt in El.
    destruct (set_has (processedUrls st) u); [exact Hbudget|].
    cbn [processedCount in_flight] in *. lia.
  - destruct (set_has (in_flight st) u) eqn:Ein; [|exact Hbudget].
    pose proof (remove_one_length u (in_flight st) Ein) as Hrem.
    destruct ok; cbn [processedCount in_flight] in *; lia.
Qed.

(** With a positive page limit and at most [c] invocations in flight at any
    time, the handler never counts more than [maxPages + c - 1] pages,
    however its invocations interleave; the limit itself is kept only when
    invocations do not overlap.  No url is ever recorded twice, and the
    counter is never below the number of urls recorded. *)
Theorem handler_count_bound (m : Z) (c : nat) (events : list HandlerEvent)
    (Hm : 1 <= m)
    (Hconc : concurrency_respected (Some m) c handler_start events) :
  let st := handler_run (Some m) handler_start events in
  processedCount st <= m + Z.of_nat c - 1 /\
  (c = 1%nat -> processedCount st <= m) /\
  NoDup (processedUrls st) /\
  Z.of_nat (List.length (processedUrls st)) <= processedCount st.
Proof.
  cbv zeta.
  assert (Hgen : forall evs st,
             concurrency_respected (Some m) c st evs ->
             processedCount st + Z.of_nat (List.length (in_flight st))
               <= m - 1 + Z.of_nat c ->
             NoDup (processedUrls st) /\
             Z.of_nat (List.length (processedUrls st)) <= processedCount st ->
             let st' := handler_run (Some m) st evs in
             processedCount st' + Z.of_nat (List.length (in_flight st'))
               <= m - 1 + Z.of_nat c /\
             NoDup (processedUrls st') /\
             Z.of_nat (List.length (processedUrls st')) <= processedCount st').
  { induction evs as [|e evs IH]; intros st Hc Hb Hs; [now split|].
    destruct Hc as [Hc1 Hc2]. cbn [handler_run fold_left].
    apply IH; [exact Hc2| |].
    - now apply handler_step_budget.
    - now apply handler_step_sound. }
  destruct (Hgen events handler_start Hconc) as (Hb & Hnd & Hlen).
  { cbn. lia. }
  { cbn. split; [constructor|lia]. }
  cbv zeta in Hb. split; [lia|]. split; [intros ->; lia|]. now split.
Qed.

Lemma handler_count_bound_witness :
  1 <= 2 /\
  concurrency_respected (Some 2) 2 handler_start
    [Invoked "a"; Invoked "b"; Settled "a" true; Settled "b" true; Invoked "c"] /\
  processedCount
    (handler_run (Some 2) handler_start
       [Invoked "a"; Invoked "b"; Settled "a" true; Settled "b" true; Invoked "c"])
  <= 2 + Z.of_nat 2 - 1.
Proof.
  split; [lia|]. split; [cbn; repeat split; lia|].
  apply (handler_count_bound 2 2
           [Invoked "a"; Invoked "b"; Settled "a" true; Settled "b" true; Invoked "c"]);
    [lia|cbn; repeat split; lia].
Defined.

Lemma one_at_a_time_step (maxPages : option Z) (st : HandlerState)
    (u : string) (ok : bool) :
  in_flight st = [] ->
  let st' := handler_step maxPages (handler_step maxPages st (Invoked u)) (Settled u ok) in
  in_flight st' = [] /\
  ((st' = st /\
    (ok = false \/ limit_reached maxPages (processedCount st) = true \/
     In u (processedUrls st))) \/
   (ok = true /\ limit_reached maxPages (processedCount st) = false /\
    ~ In u (processedUrls st) /\
    processedUrls st' = processedUrls st ++ [u] /\
    processedCount st' = processedCount st + 1)).
Proof.
  intros Hin. cbv zeta. cbn [handler_step].
  destruct (limit_reached maxPages (processedCount st)) eqn:El.
  - rewrite Hin. cbn. split; [exact Hin|]. left. split; [reflexivity|]. right. now left.
  - destruct (set_has (processedUrls st) u) eqn:Eh.
    + rewrite Hin. cbn. split; [exact Hin|]. left. split; [reflexivity|].
      right. right. now apply set_has_In.
    + cbn [in_flight processedUrls processedCount set_has existsb].
      rewrite String.eqb_refl. cbn [orb remove_one]. rewrite String.eqb_refl.
      rewrite Hin. destruct ok; cbn [in_flight processedUrls processedCount].
      * split; [reflexivity|]. right. unfold set_add. rewrite Eh.
        repeat split; try reflexivity.
        intros H. apply set_has_In in H. congruence.
      * split; [reflexivity|]. left. split; [|now left].
        destruct st as [pu pc fl]. cbn in *. now subst.
Qed.

(** When invocations run one after the other, the counter is exactly the
    number of urls recorded, each recorded url was handled successfully once,
    a positive page limit is never exceeded, and a url handled again is
    skipped. *)
Theorem handler_one_at_a_time (maxPages : option Z) (pages : list (string * bool)) :
  let st := handler_run maxPages handler_start (one_at_a_time pages) in
  in_flight st = [] /\
  processedCount st = Z.of_nat (List.length (processedUrls st)) /\
  NoDup (processedUrls st) /\
  (forall u, In u (processedUrls st) -> In (u, true) pages) /\
  (forall m, maxPages = Some m -> 1 <= m -> processedCount st <= m).
Proof.
  cbv zeta.
  assert (Hgen : forall pages' st,
             in_flight st = [] ->
             processedCount st = Z.of_nat (List.length (processedUrls st)) ->
             NoDup (processedUrls st) ->
             (forall u, In u (processedUrls st) -> In (u, true) pages) ->
             (forall u ok, In (u, ok) pages' -> In (u, ok) pages) ->
             (forall m, maxPages = Some m -> 1 <= m -> processedCount st <= m) ->
             let st' := handler_run maxPages st (one_at_a_time pages') in
             in_flight st' = [] /\
             processedCount st' = Z.of_nat (List.length (processedUrls st')) /\
             NoDup (processedUrls st') /\
             (forall u, In u (processedUrls st') -> In (u, true) pages) /\
             (forall m, maxPages = Some m -> 1 <= m -> processedCount st' <= m)).
  { induction pages' as [|[u ok] rest IH]; intros st Hfl Hcnt Hnd Hok Hsub Hlim.
    - cbn. now repeat split.
    - cbn [one_at_a_time flat_map fst snd app handler_run fold_left].
      destruct (one_at_a_time_step maxPages st u ok Hfl) as [Hfl' Hcase].
      cbv zeta in Hfl', Hcase.
      set (st' := handler_step maxPages (handler_step maxPages st (Invoked u))
                    (Settled u ok)) in *.
      apply (IH st'); try assumption.
      + destruct Hcase as [[-> _]|(_ & _ & _ & Hu & Hc)]; [exact Hcnt|].
        rewrite Hu, Hc, length_app. cbn [List.length]. lia.
      + destruct Hcase as [[-> _]|(_ & _ & Hnew & Hu & _)]; [exact Hnd|].
        rewrite Hu. apply NoDup_app; [exact Hnd|repeat constructor; intros []|].
        intros x Hx [<-|[]]. now apply Hnew.
      + destruct Hcase as [[-> _]|(-> & _ & _ & Hu & _)]; [exact Hok|].
        intros x Hx. rewrite Hu in Hx. apply in_app_or in Hx.
        destruct Hx as [Hx|[<-|[]]]; [now apply Hok|].
        apply Hsub. now left.
      + intros x b Hx. apply Hsub. now right.
      + intros m Hm Hpos.
        destruct Hcase as [[-> _]|(_ & Hl & _ & _ & Hc)]; [now apply Hlim|].
        rewrite Hc. subst maxPages. unfold limit_reached in Hl.
        destruct (m =? 0) eqn:E0; [apply Z.eqb_eq in E0; lia|].
        cbn [negb andb] in Hl. apply Z.leb_gt in Hl. lia. }
  apply (Hgen pages handler_start); try reflexivity.
  - constructor.
  - intros u [].
  - auto.
  - intros m _ Hm. cbn. lia.
Qed.

Lemma handler_one_at_a_time_witness :
  let st :=
    handler_run (Some 2) handler_start
      (one_at_a_time [("a"%string, true); ("a"%string, true); ("b"%string, false);
                      ("c"%string, true); ("d"%string, true)]) in
  processedUrls st = ["a"%string; "c"%string] /\ processedCount st <= 2.
Proof.
  cbv zeta. split; [reflexivity|].
  apply (handler_one_at_a_time (Some 2)
           [("a"%string, true); ("a"%string, true); ("b"%string, false);
            ("c"%string, true); ("d"%string, true)] ); [reflexivity|lia].
Defined.
